(** * A shallow embedding of the 1C MCP test harness

    The repository holds four variants of one Python script that drives a
    remote metadata service through JSON-RPC over HTTP:

    - [testMCP_grok_plus_2.py], the most complete one: module [GrokPlus2];
    - [testMCP_grok_plus.py], with the same client and an older chain of
      tests after each call: module [GrokPlus];
    - [testMCP_gpt.py], whose client insists on a session id: module [Gpt];
    - [testMCP.py], the SSE client: module [Sse].

    Python values are modelled as they are at run time: a [str] is a
    sequence of Unicode code points, decoded JSON is a tree of dynamically
    typed values, and an operation that Python answers with an exception
    returns [Raise].  The service, [uuid] and [random] are an outside world
    threaded through every call; [json.loads] and the string conversions
    of the libraries are parameters. *)

From Stdlib Require Import ZArith NArith List String Ascii Bool Lia QArith.
From stdpp Require Import gmap list.

Open Scope Z_scope.

(** ** Python strings *)

Module PyStr.

(** A Python [str]: its code points, in order. *)
Definition pystr : Type := list N.

(** Reads the UTF-8 bytes of a literal of this file as code points. *)
Fixpoint utf8_decode (bs : list N) : pystr :=
  match bs with
  | [] => []
  | b :: rest =>
      if (b <? 128)%N then b :: utf8_decode rest
      else if (b <? 224)%N then
        match rest with
        | b1 :: rest1 => ((b - 192) * 64 + (b1 - 128))%N :: utf8_decode rest1
        | _ => []
        end
      else if (b <? 240)%N then
        match rest with
        | b1 :: b2 :: rest2 =>
            ((b - 224) * 4096 + (b1 - 128) * 64 + (b2 - 128))%N
              :: utf8_decode rest2
        | _ => []
        end
      else
        match rest with
        | b1 :: b2 :: b3 :: rest3 =>
            ((b - 240) * 262144 + (b1 - 128) * 4096 + (b2 - 128) * 64
             + (b3 - 128))%N :: utf8_decode rest3
        | _ => []
        end
  end.

Fixpoint bytes_of (s : string) : list N :=
  match s with
  | EmptyString => []
  | String a s' => N_of_ascii a :: bytes_of s'
  end.

Definition u (s : string) : pystr := utf8_decode (bytes_of s).

Definition nl : N := 10%N.

(** [str.isspace] on one code point: the characters that [str.strip]
    removes when it is called without an argument. *)
Definition is_space (c : N) : bool :=
  ((9 <=? c) && (c <=? 13) || (28 <=? c) && (c <=? 32)
   || (c =? 133) || (c =? 160) || (c =? 5760)
   || (8192 <=? c) && (c <=? 8202)
   || (c =? 8232) || (c =? 8233) || (c =? 8239) || (c =? 8287)
   || (c =? 12288))%N.

Fixpoint lstrip (s : pystr) : pystr :=
  match s with
  | c :: s' => if is_space c then lstrip s' else s
  | [] => []
  end.

Definition rstrip (s : pystr) : pystr := rev (lstrip (rev s)).

(** [s.strip()] *)
Definition strip (s : pystr) : pystr := rstrip (lstrip s).

(** [s.startswith(p)] *)
Fixpoint startswith (s p : pystr) {struct p} : bool :=
  match p with
  | [] => true
  | a :: p' =>
      match s with
      | b :: s' => (a =? b)%N && startswith s' p'
      | [] => false
      end
  end.

(** [p in s] for two strings. *)
Fixpoint contains (s p : pystr) : bool :=
  startswith s p ||
  match s with
  | [] => false
  | _ :: s' => contains s' p
  end.

(** [s.split(c)] for a separator of one character. *)
Fixpoint split (c : N) (s : pystr) : list pystr :=
  match s with
  | [] => [[]]
  | a :: s' =>
      if (a =? c)%N then [] :: split c s'
      else match split c s' with
           | w :: ws => (a :: w) :: ws
           | [] => [[a]]
           end
  end.

(** [sep.join(parts)] for a separator of one character. *)
Fixpoint join (c : N) (parts : list pystr) : pystr :=
  match parts with
  | [] => []
  | [w] => w
  | w :: ws => w ++ c :: join c ws
  end.

(** [s.split(c)[0]] and [s.split(c)[-1]]. *)
Definition split_first (c : N) (s : pystr) : pystr := hd [] (split c s).
Definition split_last (c : N) (s : pystr) : pystr := List.last (split c s) [].

(** [str.lower], code point by code point.  The Latin and Cyrillic
    capitals are spelled out; what Python does with every other code point
    is left to [other]. *)
Definition lower_cp (other : N -> pystr) (c : N) : pystr :=
  if ((65 <=? c) && (c <=? 90))%N then [(c + 32)%N]
  else if ((97 <=? c) && (c <=? 122))%N then [c]
  else if (c <? 128)%N then [c]
  else if ((1040 <=? c) && (c <=? 1071))%N then [(c + 32)%N]
  else if ((1024 <=? c) && (c <=? 1039))%N then [(c + 80)%N]
  else if ((1072 <=? c) && (c <=? 1119))%N then [c]
  else other c.

Definition lower (other : N -> pystr) (s : pystr) : pystr :=
  flat_map (lower_cp other) s.

(** [str(n)] for an integer. *)
Fixpoint digits_of_uint (d : Decimal.uint) : pystr :=
  match d with
  | Decimal.Nil => []
  | Decimal.D0 d' => 48%N :: digits_of_uint d'
  | Decimal.D1 d' => 49%N :: digits_of_uint d'
  | Decimal.D2 d' => 50%N :: digits_of_uint d'
  | Decimal.D3 d' => 51%N :: digits_of_uint d'
  | Decimal.D4 d' => 52%N :: digits_of_uint d'
  | Decimal.D5 d' => 53%N :: digits_of_uint d'
  | Decimal.D6 d' => 54%N :: digits_of_uint d'
  | Decimal.D7 d' => 55%N :: digits_of_uint d'
  | Decimal.D8 d' => 56%N :: digits_of_uint d'
  | Decimal.D9 d' => 57%N :: digits_of_uint d'
  end.

Definition str_of_Z (z : Z) : pystr :=
  match z with
  | Z0 => u "0"
  | Zpos p => digits_of_uint (Pos.to_uint p)
  | Zneg p => u "-" ++ digits_of_uint (Pos.to_uint p)
  end.

End PyStr.
Export PyStr.

(** ** Python values and exceptions *)

Module Py.

(** The exception classes the modelled code can meet. *)
Inductive exn : Type :=
| TypeError
| AttributeError
| KeyError
| IndexError
| ValueError
| ValidationError
| ZeroDivisionError
| OverflowError.

(** The outcome of evaluating a Python expression. *)
Inductive res (A : Type) : Type :=
| Ok (a : A)
| Raise (e : exn).
Arguments Ok {A} a.
Arguments Raise {A} e.

Definition res_bind {A B} (r : res A) (k : A -> res B) : res B :=
  match r with
  | Ok a => k a
  | Raise e => Raise e
  end.

(** A value produced by [json.loads]: [dict] keeps its items in insertion
    order, with one item per key. *)
#[warning="-register-all"]
Inductive json : Type :=
| JNull
| JBool (b : bool)
| JNum (z : Z)
| JStr (s : pystr)
| JArr (xs : list json)
| JObj (items : list (pystr * json)).

(** [a == b] on two strings. *)
Fixpoint str_eqb (a b : pystr) : bool :=
  match a, b with
  | [], [] => true
  | x :: a', y :: b' => (x =? y)%N && str_eqb a' b'
  | _, _ => false
  end.

(** [d.get(k)] on the items of a dict. *)
Fixpoint dict_get (k : pystr) (items : list (pystr * json)) : option json :=
  match items with
  | [] => None
  | (k', v) :: rest => if str_eqb k k' then Some v else dict_get k rest
  end.

(** [d.get(k, default)] *)
Definition dict_get_default (k : pystr) (default : json)
    (items : list (pystr * json)) : json :=
  match dict_get k items with
  | Some v => v
  | None => default
  end.

(** [k in d] *)
Definition dict_has (k : pystr) (items : list (pystr * json)) : bool :=
  match dict_get k items with
  | Some _ => true
  | None => false
  end.

(** [v == k] for a string [k]. *)
Definition eq_str (v : json) (k : pystr) : bool :=
  match v with
  | JStr s => str_eqb s k
  | _ => false
  end.

(** [k in v] for a string [k] and any value [v]: key test on a dict,
    membership in a list, substring test in a string, [TypeError] on a value
    that is not a container. *)
Definition py_in (k : pystr) (v : json) : res bool :=
  match v with
  | JObj items => Ok (dict_has k items)
  | JArr xs => Ok (existsb (fun x => eq_str x k) xs)
  | JStr s => Ok (contains s k)
  | JNull | JBool _ | JNum _ => Raise TypeError
  end.

(** Truth value of an object, as [if v:] tests it. *)
Definition truthy (v : json) : bool :=
  match v with
  | JNull => false
  | JBool b => b
  | JNum z => negb (z =? 0)
  | JStr s => match s with [] => false | _ => true end
  | JArr xs => match xs with [] => false | _ => true end
  | JObj items => match items with [] => false | _ => true end
  end.

(** [v.get(k, default)]: only a dict has the method. *)
Definition py_get (v : json) (k : pystr) (default : json) : res json :=
  match v with
  | JObj items => Ok (dict_get_default k default items)
  | _ => Raise AttributeError
  end.

(** [v[k]] for a string key. *)
Definition py_getitem (v : json) (k : pystr) : res json :=
  match v with
  | JObj items =>
      match dict_get k items with
      | Some x => Ok x
      | None => Raise KeyError
      end
  | _ => Raise TypeError
  end.

(** [for item in v]: the sequence of items a [for] loop visits. *)
Definition py_iter (v : json) : res (list json) :=
  match v with
  | JArr xs => Ok xs
  | JObj items => Ok (map (fun kv => JStr (fst kv)) items)
  | JStr s => Ok (map (fun c => JStr [c]) s)
  | JNull | JBool _ | JNum _ => Raise TypeError
  end.

(** How [json.loads] fails on the bytes of a body: the text is not
    JSON, or the bytes are not text.  Each carries [str(e)]. *)
Inductive json_failure : Type :=
| JSONDecodeError (message : pystr)
| UnicodeDecodeError (message : pystr).

(** What the Python runtime and its libraries contribute and this
    repository does not define. *)
Class PyLib : Type := {
  (** [json.loads] on a [str]: the decoded value, or the message of the
      [JSONDecodeError]. *)
  json_loads : pystr -> pystr + json;
  (** [json.loads] on [bytes], which finds the encoding itself. *)
  json_loads_bytes : list N -> json_failure + json;
  (** [str(v)] for a value that is not a string. *)
  repr : json -> pystr;
  (** [str(item)] for a [TextContent] with the given text, and for an
      [ImageContent] with the given data and MIME type. *)
  str_TextContent : pystr -> pystr;
  str_ImageContent : pystr -> pystr -> pystr;
  (** [str.lower] outside the Latin and Cyrillic letters. *)
  lower_other : N -> pystr;
}.

(** [str(v)], as an f-string renders a value. *)
Definition py_str {py : PyLib} (v : json) : pystr :=
  match v with
  | JStr s => s
  | _ => repr v
  end.

End Py.
Export Py.

Notation "x <~ c1 ; c2" := (res_bind c1 (fun x => c2))
  (at level 20, c1 at level 100, c2 at level 200, only parsing).

Fixpoint mapM_res {A B} (f : A -> res B) (xs : list A) : res (list B) :=
  match xs with
  | [] => Ok []
  | x :: xs' =>
      y <~ f x;
      ys <~ mapM_res f xs';
      Ok (y :: ys)
  end.

(** ** Python floats *)

Module PyFloat.

(** A [float] that is not a NaN: a binary64 number of magnitude
    [m * 2^e] with its sign, or an infinity.  A number has one form: [m] is
    0 with [e] 0, or from [2^52] to [2^53 - 1] with [e] from -1074 to 971,
    or below [2^52] with [e] -1074. *)
Inductive float : Type :=
| Finite (negative : bool) (m e : Z)
| Infinity (negative : bool).

(** A number as Python holds it: an [int] or a [float]. *)
Inductive number : Type :=
| Int (z : Z)
| Float (x : float).

(** [2^k] as the quotient of [scale_up k] by [scale_down k]. *)
Definition scale_up (k : Z) : Z := 2 ^ Z.max k 0.
Definition scale_down (k : Z) : Z := 2 ^ Z.max (- k) 0.

(** The exponent of the leading bit of [p / q], for [p] and [q] above
    0: the [e] with [2^e <= p / q < 2^(e+1)]. *)
Definition ilog2 (p q : Z) : Z :=
  let d := Z.log2 p - Z.log2 q in
  if q * scale_up d <=? p * scale_down d then d else d - 1.

(** The integer nearest to [n / d], the even one of two that are as
    near. *)
Definition round_half_even (n d : Z) : Z :=
  let q := n / d in
  match 2 * (n mod d) ?= d with
  | Lt => q
  | Gt => q + 1
  | Eq => if Z.even q then q else q + 1
  end.

(** The binary64 number nearest to [p / q], for [p] from 0 and [q] above
    0, with the sign given: 53 bits are kept, fewer below [2^-1022], and
    what would reach [2^1024] is an infinity. *)
Definition round64 (negative : bool) (p q : Z) : float :=
  if p =? 0 then Finite negative 0 0
  else
    let e := Z.max (ilog2 p q - 52) (-1074) in
    let m := round_half_even (p * scale_down e) (q * scale_up e) in
    if m =? 0 then Finite negative 0 0
    else if m =? 2 ^ 53 then
      if 971 <=? e then Infinity negative else Finite negative (2 ^ 52) (e + 1)
    else if 971 <? e then Infinity negative
    else Finite negative m e.

(** [a / b] on two [int]: the quotient correctly rounded. *)
Definition truediv (a b : Z) : res float :=
  if b =? 0 then Raise ZeroDivisionError
  else
    match round64 (xorb (a <? 0) (b <? 0)) (Z.abs a) (Z.abs b) with
    | Infinity _ => Raise OverflowError
    | x => Ok x
    end.

(** [x * 100] on a [float]. *)
Definition times_100 (x : float) : float :=
  match x with
  | Finite negative m e =>
      round64 negative (m * 100 * scale_up e) (scale_down e)
  | Infinity negative => Infinity negative
  end.

(** The value of a finite number. *)
Definition value (x : float) : option Q :=
  match x with
  | Finite negative m e =>
      let v := (m * scale_up e) # Z.to_pos (scale_down e) in
      Some (if negative then (- v)%Q else v)
  | Infinity _ => None
  end.

End PyFloat.
Export PyFloat.

(** ** HTTP, the remote service and the sources of randomness *)

Module Http.

Record Request : Type := {
  url : pystr;
  req_headers : list (pystr * pystr);
  body : json;
}.

(** A response: [text] is the body as [response.text] decodes it, which
    never fails, and [raw_body] the bytes of the body, each below 256.  How
    the two are related is the affair of the service and of [httpx]. *)
Record Response : Type := {
  status_code : Z;
  text : pystr;
  headers : list (pystr * pystr);
  raw_body : list N;
}.

(** What [client.post] does: it raises an [httpx.HTTPError] (connection
    refused, timeout, ...) with a message, or it returns a response, or it
    raises an exception of another class ([httpx.InvalidURL], ...) with a
    message. *)
Inductive outcome : Type :=
| Failed (cause : pystr)
| Received (r : Response)
| Errored (cause : pystr).

(** [response.json()]: [json.loads] on the bytes of the body. *)
Definition response_json {py : PyLib} (r : Response) : json_failure + json :=
  json_loads_bytes (raw_body r).

(** [response.is_success]; [raise_for_status] raises [HTTPStatusError]
    exactly when it is false. *)
Definition is_success (r : Response) : bool :=
  (200 <=? status_code r) && (status_code r <=? 299).

(** Header names are compared after ASCII lower-casing. *)
Definition ascii_lower (s : pystr) : pystr :=
  map (fun c => if ((65 <=? c) && (c <=? 90))%N then (c + 32)%N else c) s.

(** [headers.get(key)]: the values of all fields of that name, joined
    with a comma and a space; [None] when there is none. *)
Definition headers_get (key : pystr) (hs : list (pystr * pystr))
    : option pystr :=
  match filter (fun kv => str_eqb (ascii_lower (fst kv)) (ascii_lower key)) hs with
  | [] => None
  | kv :: rest =>
      Some (fold_left (fun acc kv' => acc ++ u ", " ++ snd kv') rest (snd kv))
  end.

(** The outside world, as the harness meets it: the service behind
    [httpx], [uuid.uuid4] and the [random] module.  Each operation may
    depend on everything that happened before. *)
Class World (W : Type) : Type := {
  http_post : Request -> W -> outcome * W;
  uuid4 : W -> pystr * W;
  (** [random.random() < p] *)
  random_lt : Q -> W -> bool * W;
  (** an index drawn for a sequence of the given length *)
  randbelow : nat -> W -> nat * W;
  (** the order in which [random.sample] visits the population *)
  sample_order : nat -> W -> list nat * W;
}.

End Http.
Export Http.

(** ** The state of a run *)

Module Run.

(** One [log_test] record appended to [testMCP.md]. *)
Record LogEntry : Type := {
  log_number : Z;
  log_api : pystr;
  log_params : json;
  log_result : json;
}.

Record St (W : Type) : Type := {
  world : W;
  (** the requests posted so far, oldest first *)
  sent : list Request;
  (** the records written so far, oldest first *)
  logged : list LogEntry;
}.
Arguments world {W} s.
Arguments sent {W} s.
Arguments logged {W} s.

(** A computation that may post requests, draw random values, write log
    records, and end in an exception. *)
Definition IO (W A : Type) : Type := St W -> res A * St W.

Definition ret {W A} (a : A) : IO W A := fun s => (Ok a, s).

Definition raise {W A} (e : exn) : IO W A := fun s => (Raise e, s).

Definition bind {W A B} (m : IO W A) (k : A -> IO W B) : IO W B :=
  fun s =>
    match m s with
    | (Ok a, s') => k a s'
    | (Raise e, s') => (Raise e, s')
    end.

Definition lift {W A} (r : res A) : IO W A := fun s => (r, s).

Section Ops.
Context {W : Type} {svc : World W}.

(** [await self.client.post(url, json=payload, headers=headers)] *)
Definition post (req : Request) : IO W outcome :=
  fun s =>
    let '(o, w) := http_post req (world s) in
    (Ok o, {| world := w; sent := sent s ++ [req]; logged := logged s |}).

Definition draw {A} (f : W -> A * W) : IO W A :=
  fun s =>
    let '(a, w) := f (world s) in
    (Ok a, {| world := w; sent := sent s; logged := logged s |}).

(** [random.choice(xs)] *)
Definition choice {A} (xs : list A) : IO W A :=
  fun s =>
    match xs with
    | [] => (Raise IndexError, s)
    | x :: _ =>
        let '(i, w) := randbelow (length xs) (world s) in
        (Ok (nth (i mod length xs) xs x),
         {| world := w; sent := sent s; logged := logged s |})
    end.

(** [random.randint(lo, hi)] *)
Definition randint (lo hi : Z) : IO W Z :=
  fun s =>
    let n := Z.to_nat (hi - lo + 1) in
    let '(i, w) := randbelow n (world s) in
    (Ok (lo + Z.of_nat (i mod n)),
     {| world := w; sent := sent s; logged := logged s |}).

(** [random.sample(xs, k)]: [k] items at distinct positions. *)
Definition sample {A} (xs : list A) (k : nat) : IO W (list A) :=
  fun s =>
    if (length xs <? k)%nat then (Raise ValueError, s)
    else
      let n := length xs in
      let '(order, w) := sample_order n (world s) in
      let positions :=
        take k (remove_dups (filter (fun i => i < n)%nat order ++ seq 0 n)) in
      (Ok (omap (fun i => xs !! i) positions),
       {| world := w; sent := sent s; logged := logged s |}).

Definition write_log (e : LogEntry) : IO W unit :=
  fun s =>
    (Ok tt, {| world := world s; sent := sent s; logged := logged s ++ [e] |}).
End Ops.

End Run.
Export Run.

Notation "x <- c1 ; c2" := (bind c1 (fun x => c2))
  (at level 20, c1 at level 100, c2 at level 200, only parsing).

(** ** The MCP result types ([mcp.types]) *)

Module Mcp.

Inductive ContentItem : Type :=
| TextContent (text : pystr)
| ImageContent (data mimeType : pystr).

Record CallToolResult : Type := {
  content : list ContentItem;
  isError : bool;
}.

(** The models validate their fields: a [str] field refuses any other
    value. *)
Definition as_str (v : json) : res pystr :=
  match v with
  | JStr s => Ok s
  | _ => Raise ValidationError
  end.

(** [item.text] *)
Definition item_text (item : ContentItem) : res pystr :=
  match item with
  | TextContent t => Ok t
  | ImageContent _ _ => Raise AttributeError
  end.

Record MCPClient : Type := {
  base_url : pystr;
  auth_token : option pystr;
  session_id : option pystr;
}.

(** [if self.auth_token:] and [if self.session_id:] hold for a string
    that is neither [None] nor empty. *)
Definition nonempty (o : option pystr) : option pystr :=
  match o with
  | Some (c :: s) => Some (c :: s)
  | _ => None
  end.

Definition auth_headers (c : MCPClient) : list (pystr * pystr) :=
  match nonempty (auth_token c) with
  | Some t => [(u "Authorization", u "Bearer " ++ t)]
  | None => []
  end.

Definition json_headers : list (pystr * pystr) :=
  [(u "Content-Type", u "application/json");
   (u "Accept", u "application/json, text/event-stream")].

Definition initialize_payload : json :=
  JObj [(u "jsonrpc", JStr (u "2.0"));
        (u "id", JNum 1);
        (u "method", JStr (u "initialize"));
        (u "params",
          JObj [(u "protocolVersion", JStr (u "2024-11-05"));
                (u "clientInfo",
                  JObj [(u "name", JStr (u "TestMCP"));
                        (u "version", JStr (u "1.0.0"))]);
                (u "capabilities", JObj [])])].

(** [{"error": message}] *)
Definition error_value (message : pystr) : json :=
  JObj [(u "error", JStr message)].

End Mcp.
Export Mcp.

(** ** testMCP_grok_plus_2.py *)

Module GrokPlus2.

Section Client.
Context {py : PyLib} {W : Type} {svc : World W}.

(** [MCPClient.__init__] *)
Definition new_client (url : pystr) (token : option pystr) : MCPClient :=
  {| base_url := url; auth_token := token; session_id := None |}.

(** The lines of an event-stream body that carry data, each without its
    field name and stripped. *)
Definition data_lines (text : pystr) : list pystr :=
  map (fun line => strip (drop 5 line))
      (List.filter (fun line => startswith line (u "data:")) (split nl text)).

(** [json.loads(data_str)] with what it raises. *)
Definition loads_text (data_str : pystr) : json_failure + json :=
  match json_loads data_str with
  | inr data => inr data
  | inl cause => inl (JSONDecodeError cause)
  end.

(** Lines 114-120 (and 59-65): the decoding of a response.  The data
    lines of an event-stream body are parsed as a text; any other body is
    left to [response.json()]. *)
Definition decode_body (response : Response) : json_failure + json :=
  let text := strip (text response) in
  if startswith text (u "event:") then
    loads_text (join nl (data_lines text))
  else response_json response.

(** Lines 67-80 of [initialize_session], run on the decoded body. *)
Definition read_handshake (data : json) : res bool :=
  has_result <~ py_in (u "result") data;
  if has_result then
    result <~ py_getitem data (u "result");
    version <~ py_get result (u "protocolVersion") JNull;
    info <~ py_get result (u "serverInfo") (JObj []);
    server <~ py_get info (u "name") JNull;
    Ok true
  else Ok false.

(** [initialize_session]: the flag it returns and the client as it
    leaves it.  Whatever is raised inside is caught and answered with
    [False]. *)
Definition initialize_session (c : MCPClient) : IO W (bool * MCPClient) :=
  let req := {| url := base_url c ++ u "/mcp/initialize";
                req_headers := json_headers ++ auth_headers c;
                body := initialize_payload |} in
  o <- post req;
  match o with
  | Failed _ | Errored _ => ret (false, c)
  | Received resp =>
      match decode_body resp with
      | inl _ => ret (false, c)
      | inr data =>
          match read_handshake data with
          | Ok true =>
              ret (true,
                   {| base_url := base_url c; auth_token := auth_token c;
                      session_id :=
                        headers_get (u "Mcp-Session-Id") (headers resp) |})
          | Ok false | Raise _ => ret (false, c)
          end
      end
  end.

Definition session_headers (c : MCPClient) : list (pystr * pystr) :=
  match nonempty (session_id c) with
  | Some sid => [(u "Mcp-Session-Id", sid)]
  | None => []
  end.

Definition build_request (c : MCPClient) (id method : pystr) (params : json)
    : Request :=
  {| url := base_url c ++ u "/mcp/request";
     req_headers := json_headers ++ auth_headers c ++ session_headers c;
     body := JObj [(u "jsonrpc", JStr (u "2.0"));
                   (u "id", JStr id);
                   (u "method", JStr method);
                   (u "params", params)] |}.

(** Lines 110-126: what [_make_request] returns for each outcome of the
    post. *)
Definition handle_outcome (o : outcome) : json :=
  match o with
  | Failed cause | Errored cause => error_value cause
  | Received response =>
      if is_success response then
        match decode_body response with
        | inr data => data
        | inl (JSONDecodeError cause) =>
            error_value (u "JSON decode error: " ++ cause
                         ++ u " - Response: " ++ text response)
        | inl (UnicodeDecodeError cause) => error_value cause
        end
      else
        error_value (u "HTTP " ++ str_of_Z (status_code response)
                     ++ u ": " ++ text response)
  end.

Definition _make_request (c : MCPClient) (method : pystr) (params : json)
    : IO W json :=
  id <- draw uuid4;
  o <- post (build_request c id method params);
  ret (handle_outcome o).

(** The loop of [call_tool] over the content array. *)
Fixpoint text_items (items : list json) : res (list ContentItem) :=
  match items with
  | [] => Ok []
  | item :: rest =>
      type <~ py_get item (u "type") JNull;
      if eq_str type (u "text") then
        t <~ py_get item (u "text") (JStr []);
        s <~ as_str t;
        more <~ text_items rest;
        Ok (TextContent s :: more)
      else text_items rest
  end.

(** Lines 149-161 of [call_tool]. *)
Definition tool_result (response : json) : res CallToolResult :=
  has_error <~ py_in (u "error") response;
  if has_error then
    e <~ py_getitem response (u "error");
    Ok {| content := [TextContent (u "Error: " ++ py_str e)];
          isError := true |}
  else
    result_data <~ py_get response (u "result") (JObj []);
    content_data <~ py_get result_data (u "content") (JArr []);
    items <~ py_iter content_data;
    content <~ text_items items;
    Ok {| content := content; isError := false |}.

Definition tool_params (name : pystr) (arguments : json) : json :=
  JObj [(u "name", JStr name); (u "arguments", arguments)].

Definition call_tool (c : MCPClient) (name : pystr) (arguments : json)
    : IO W CallToolResult :=
  response <- _make_request c (u "tools/call") (tool_params name arguments);
  lift (tool_result response).

(** The body the four [test_*] functions share after their call. *)
Definition payload_of (result : CallToolResult) : res json :=
  if isError result then
    match content result with
    | TextContent t :: _ => Ok (error_value (str_TextContent t))
    | ImageContent d m :: _ => Ok (error_value (str_ImageContent d m))
    | [] => Raise IndexError
    end
  else
    text <~ match content result with
            | item :: _ => item_text item
            | [] => Ok []
            end;
    match json_loads text with
    | inr v => Ok v
    | inl _ => Ok (JObj [(u "result", JStr text)])
    end.

Definition test_list_metadata_objects (c : MCPClient)
    (meta_type name_mask : pystr) (max_items : Z) : IO W json :=
  let args := JObj [(u "metaType", JStr meta_type);
                    (u "nameMask", JStr name_mask);
                    (u "maxItems", JNum max_items)] in
  result <- call_tool c (u "list_metadata_objects") args;
  lift (payload_of result).

Definition test_get_metadata_structure (c : MCPClient)
    (meta_type : pystr) (name : json) : IO W json :=
  let args := JObj [(u "metaType", JStr meta_type); (u "name", name)] in
  result <- call_tool c (u "get_metadata_structure") args;
  lift (payload_of result).

Definition test_list_predefined_data (c : MCPClient)
    (meta_type : pystr) (name : json) (predefined_mask : pystr)
    (max_items : Z) : IO W json :=
  let args := JObj [(u "metaType", JStr meta_type);
                    (u "name", name);
                    (u "predefinedMask", JStr predefined_mask);
                    (u "maxItems", JNum max_items)] in
  result <- call_tool c (u "list_predefined_data") args;
  lift (payload_of result).

Definition test_get_predefined_data (c : MCPClient)
    (meta_type : pystr) (name predefined_name : json) : IO W json :=
  let args := JObj [(u "metaType", JStr meta_type);
                    (u "name", name);
                    (u "predefinedName", predefined_name)] in
  result <- call_tool c (u "get_predefined_data") args;
  lift (payload_of result).

(** [log_test] *)
Definition log_test (test_number : Z) (api : pystr) (params result : json)
    : IO W unit :=
  write_log {| log_number := test_number; log_api := api;
               log_params := params; log_result := result |}.
End Client.

(** *** The driver: [run_tests_async] *)

Inductive Verdict : Type := Success | Error | Skipped.

(** One inner dict of [method_stats]. *)
Record MethodStats : Type := {
  total : Z;
  success : Z;
  errors : Z;
  skipped : Z;
}.

Definition predefined_supported_types : list pystr :=
  [u "Catalogs"; u "ChartsOfCharacteristicTypes"; u "ChartsOfAccounts";
   u "ChartsOfCalculationTypes"].

Definition methods : list pystr :=
  [u "list_metadata_objects"; u "get_metadata_structure";
   u "list_predefined_data"; u "get_predefined_data"].

Definition zero_stats : MethodStats :=
  {| total := 0; success := 0; errors := 0; skipped := 0 |}.

(** Line 249: [method_stats] as the run starts. *)
Definition initial_stats : gmap pystr MethodStats :=
  list_to_map (map (fun m => (m, zero_stats)) methods).

Definition error_keywords : list pystr :=
  [u "ошибка"; u "исключение"; u "не найден"; u "error"; u "exception";
   u "not found"; u "вызватьисключение"].

Definition all_types : list pystr :=
  map u
    ["Catalogs"; "Documents"; "InformationRegisters"; "AccumulationRegisters";
     "AccountingRegisters"; "CalculationRegisters";
     "ChartsOfCharacteristicTypes"; "ChartsOfAccounts";
     "ChartsOfCalculationTypes"; "BusinessProcesses"; "Tasks";
     "ExchangePlans"; "FilterCriteria"; "Reports"; "DataProcessors"; "Enums";
     "CommonModules"; "SessionParameters"; "CommonTemplates";
     "CommonPictures"; "XDTOPackages"; "WebServices"; "HTTPServices";
     "WSReferences"; "Styles"; "Languages"; "FunctionalOptions";
     "FunctionalOptionsParameters"; "DefinedTypes"; "CommonAttributes";
     "CommonCommands"; "CommandGroups"; "Constants"; "CommonForms"; "Roles";
     "Subsystems"; "EventSubscriptions"; "ScheduledJobs"; "SettingsStorages";
     "Sequences"; "DocumentJournals"; "ExternalDataSources";
     "Interfaces"]%string.

(** [method_stats[m]["total"] += 1] *)
Definition incr_total (m : pystr) (stats : gmap pystr MethodStats)
    : res (gmap pystr MethodStats) :=
  match stats !! m with
  | Some st =>
      Ok (<[m := {| total := total st + 1; success := success st;
                    errors := errors st; skipped := skipped st |}]> stats)
  | None => Raise KeyError
  end.

(** [method_stats[m]["success" | "errors" | "skipped"] += 1] *)
Definition incr_outcome (m : pystr) (v : Verdict)
    (stats : gmap pystr MethodStats) : res (gmap pystr MethodStats) :=
  match stats !! m with
  | Some st =>
      Ok (<[m := match v with
                 | Success =>
                     {| total := total st; success := success st + 1;
                        errors := errors st; skipped := skipped st |}
                 | Error =>
                     {| total := total st; success := success st;
                        errors := errors st + 1; skipped := skipped st |}
                 | Skipped =>
                     {| total := total st; success := success st;
                        errors := errors st; skipped := skipped st + 1 |}
                 end]> stats)
  | None => Raise KeyError
  end.

(** What the driver does to the counters of [m] for one classified
    call. *)
Definition record (m : pystr) (v : Verdict) (stats : gmap pystr MethodStats)
    : res (gmap pystr MethodStats) :=
  stats1 <~ incr_total m stats;
  incr_outcome m v stats1.

(** The counters of one method after one more call with verdict [v]. *)
Definition bump (v : Verdict) (st : MethodStats) : MethodStats :=
  {| total := total st + 1;
     success := success st + (if v is Success then 1 else 0);
     errors := errors st + (if v is Error then 1 else 0);
     skipped := skipped st + (if v is Skipped then 1 else 0) |}.

(** The counters after a sequence of classified calls, taken in order. *)
Fixpoint record_all (events : list (pystr * Verdict))
    (stats : gmap pystr MethodStats) : res (gmap pystr MethodStats) :=
  match events with
  | [] => Ok stats
  | (m, v) :: rest =>
      stats' <~ record m v stats;
      record_all rest stats'
  end.

Section Driver.
Context {py : PyLib} {W : Type} {svc : World W}.

(** The condition of the second branch of each chain (line 287). *)
Definition has_error_keyword (payload : json) : bool :=
  match payload with
  | JObj items =>
      match dict_get (u "result") items with
      | Some (JStr r) =>
          existsb (fun keyword => contains (lower lower_other r) keyword)
                  error_keywords
      | _ => false
      end
  | _ => false
  end.

(** The condition of the third branch (line 290). *)
Definition is_empty_payload (payload : json) : bool :=
  match payload with
  | JArr [] => true
  | JObj items =>
      match dict_get (u "result") items with
      | Some v => eq_str v []
      | None => false
      end
  | _ => false
  end.

(** The [if] / [elif] chain that follows each call (lines 284-294,
    325-332, 342-352, 385-392): which counter it picks. *)
Definition classify (payload : json) : res Verdict :=
  has_error <~ py_in (u "error") payload;
  if has_error then Ok Error
  else if has_error_keyword payload then Ok Error
  else if is_empty_payload payload then Ok Skipped
  else Ok Success.

(** [{"name": obj.split('.')[-1] if '.' in obj else obj}] *)
Definition object_of (obj : json) : res json :=
  dotted <~ py_in (u ".") obj;
  if dotted then
    match obj with
    | JStr s => Ok (JObj [(u "name", JStr (split_last 46 s))])
    | _ => Raise AttributeError
    end
  else Ok (JObj [(u "name", obj)]).

(** [[... for obj in xs if obj]] *)
Definition objects_of_list (xs : list json) : res (list json) :=
  mapM_res object_of (filter (fun obj => truthy obj = true) xs).

(** Lines 304-310: one line of a listing. *)
Definition object_of_line (line : pystr) : option json :=
  let line := strip line in
  match line with
  | [] => None
  | _ :: _ =>
      let name :=
        if contains line (u "(") then strip (split_first 40 line)
        else strip line in
      let name :=
        if contains name (u ".") then split_last 46 name else name in
      match name with
      | [] => None
      | _ :: _ => Some (JObj [(u "name", JStr name)])
      end
  end.

(** Lines 297-312: the objects of a listing. *)
Definition parse_listing (list_result : json) : res (list json) :=
  match list_result with
  | JArr xs => objects_of_list xs
  | JObj items =>
      match dict_get (u "result") items with
      | Some (JStr result_text) =>
          Ok (omap object_of_line (split nl result_text))
      | Some (JArr xs) => objects_of_list xs
      | _ => Ok []
      end
  | _ => Ok []
  end.

(** Lines 362-367: one line of a listing of predefined data. *)
Definition predefined_of_line (line : pystr) : option json :=
  let line := strip line in
  match line with
  | [] => None
  | _ :: _ =>
      if startswith line (u "Имя: '") then
        match strip (drop (length (u "Имя: '")) line) with
        | [] => None
        | c :: name => Some (JObj [(u "name", JStr (c :: name))])
        end
      else None
  end.

(** Lines 355-369. *)
Definition parse_predefined (predefined_list_result : json)
    : res (list json) :=
  match predefined_list_result with
  | JArr xs => objects_of_list xs
  | JObj items =>
      match dict_get (u "result") items with
      | Some (JStr result_text) =>
          Ok (omap predefined_of_line (split nl result_text))
      | Some (JArr xs) => objects_of_list xs
      | _ => Ok []
      end
  | _ => Ok []
  end.

(** Lines 316 and 377: the name held by a chosen item. *)
Definition name_of (item : json) : json :=
  match item with
  | JObj items =>
      dict_get_default (u "name")
        (dict_get_default (u "Name") (JStr []) items) items
  | other => JStr (py_str other)
  end.

Definition is_predefined_type (meta_type : pystr) : bool :=
  existsb (str_eqb meta_type) predefined_supported_types.

(** Lines 376-392: the body of the loop over the sampled entries. *)
Definition predefined_detail (c : MCPClient) (test_number : Z)
    (meta_type : pystr) (object_name : json)
    (stats : gmap pystr MethodStats) (predefined_item : json)
    : IO W (gmap pystr MethodStats) :=
  let predefined_name := name_of predefined_item in
  if truthy predefined_name then
    predefined_data_result <-
      test_get_predefined_data c meta_type object_name predefined_name;
    _ <- log_test test_number (u "get_predefined_data")
           (JObj [(u "metaType", JStr meta_type); (u "name", object_name);
                  (u "predefinedName", predefined_name)])
           predefined_data_result;
    stats <- lift (incr_total (u "get_predefined_data") stats);
    v <- lift (classify predefined_data_result);
    lift (incr_outcome (u "get_predefined_data") v stats)
  else ret stats.

Fixpoint for_each {A S} (body : S -> A -> IO W S) (s : S) (xs : list A)
    : IO W S :=
  match xs with
  | [] => ret s
  | x :: xs' =>
      s' <- body s x;
      for_each body s' xs'
  end.

(** Lines 340-392: what follows the record of the listing of predefined
    data. *)
Definition after_predefined_listing (c : MCPClient) (test_number : Z)
    (meta_type : pystr) (object_name : json) (predefined_list_result : json)
    (stats : gmap pystr MethodStats) : IO W (gmap pystr MethodStats) :=
  stats <- lift (incr_total (u "list_predefined_data") stats);
  v <- lift (classify predefined_list_result);
  stats <- lift (incr_outcome (u "list_predefined_data") v stats);
  match v with
  | Error | Skipped => ret stats
  | Success =>
      predefined_objects <- lift (parse_predefined predefined_list_result);
      match predefined_objects with
      | [] => ret stats
      | _ :: _ =>
          k <- randint 1 3;
          let num_to_test :=
            Nat.min (length predefined_objects) (Z.to_nat k) in
          selected_predefined <- sample predefined_objects num_to_test;
          for_each (predefined_detail c test_number meta_type object_name)
                   stats selected_predefined
      end
  end.

(** Lines 335-392: steps 4 and 5 of a round. *)
Definition predefined_steps (c : MCPClient) (test_number : Z)
    (meta_type : pystr) (object_name : json) (max_items : Z)
    (stats : gmap pystr MethodStats) : IO W (gmap pystr MethodStats) :=
  predefined_mask <- choice [[]; u "Основной"; u "Дополнительный"];
  predefined_list_result <-
    test_list_predefined_data c meta_type object_name predefined_mask
      max_items;
  _ <- log_test test_number (u "list_predefined_data")
         (JObj [(u "metaType", JStr meta_type); (u "name", object_name);
                (u "predefinedMask", JStr predefined_mask);
                (u "maxItems", JNum max_items)])
         predefined_list_result;
  after_predefined_listing c test_number meta_type object_name
    predefined_list_result stats.

(** Lines 315-392: steps 3 to 5 of a round, entered with the objects
    of the listing. *)
Definition object_steps (c : MCPClient) (test_number : Z)
    (meta_type : pystr) (max_items : Z) (objects : list json)
    (stats : gmap pystr MethodStats) : IO W (gmap pystr MethodStats) :=
  random_object <- choice objects;
  let object_name := name_of random_object in
  if truthy object_name then
    structure_result <-
      test_get_metadata_structure c meta_type object_name;
    _ <- log_test test_number (u "get_metadata_structure")
           (JObj [(u "metaType", JStr meta_type); (u "name", object_name)])
           structure_result;
    stats <- lift (incr_total (u "get_metadata_structure") stats);
    v <- lift (classify structure_result);
    stats <- lift (incr_outcome (u "get_metadata_structure") v stats);
    if is_predefined_type meta_type then
      predefined_steps c test_number meta_type object_name max_items stats
    else ret stats
  else ret stats.

(** Lines 255-280: steps 1 and 2 of a round, up to the record of the
    listing: the type drawn, [max_items] and the listing. *)
Definition list_step (c : MCPClient) (test_number : Z)
    : IO W (pystr * Z * json) :=
  weighted <- draw (random_lt (7 # 10));
  meta_type <-
    choice (if weighted then predefined_supported_types else all_types);
  mask <- choice [[]; u "Номенклатура"; u "Документ"];
  max_items <- randint 5 20;
  list_result <- test_list_metadata_objects c meta_type mask max_items;
  _ <- log_test test_number (u "list_metadata_objects")
         (JObj [(u "metaType", JStr meta_type); (u "nameMask", JStr mask);
                (u "maxItems", JNum max_items)])
         list_result;
  ret (meta_type, max_items, list_result).

(** Lines 282-392: the rest of the round; a [continue] ends it. *)
Definition after_listing (c : MCPClient) (test_number : Z)
    (meta_type : pystr) (max_items : Z) (list_result : json)
    (stats : gmap pystr MethodStats) : IO W (gmap pystr MethodStats) :=
  stats <- lift (incr_total (u "list_metadata_objects") stats);
  v <- lift (classify list_result);
  stats <- lift (incr_outcome (u "list_metadata_objects") v stats);
  match v with
  | Error | Skipped => ret stats
  | Success =>
      objects <- lift (parse_listing list_result);
      match objects with
      | [] => ret stats
      | _ :: _ =>
          object_steps c test_number meta_type max_items objects stats
      end
  end.

(** Lines 253-392: one pass of the loop body. *)
Definition round (c : MCPClient) (test_number : Z)
    (stats : gmap pystr MethodStats) : IO W (gmap pystr MethodStats) :=
  listing <- list_step c test_number;
  after_listing c test_number (fst (fst listing)) (snd (fst listing))
    (snd listing) stats.

(** [for i in range(n)] with [test_number = i + 1]. *)
Fixpoint rounds (c : MCPClient) (n : nat) (test_number : Z)
    (stats : gmap pystr MethodStats) : IO W (gmap pystr MethodStats) :=
  match n with
  | O => ret stats
  | S n' =>
      stats' <- round c test_number stats;
      rounds c n' (test_number + 1) stats'
  end.
End Driver.

(** *** The summary (lines 396-422) *)

(** One line of the table. *)
Record Row : Type := {
  row_method : pystr;
  row_total : Z;
  row_success : Z;
  row_errors : Z;
  row_skipped : Z;
  row_rate : number;
}.

(** [(success / total * 100) if total > 0 else 0] *)
Definition success_rate (success total : Z) : res number :=
  if total >? 0 then
    q <~ truediv success total;
    Ok (Float (times_100 q))
  else Ok (Int 0).

(** The loop of lines 406-419: the rows written so far and the running
    sums [total_all], [total_success], [total_errors], [total_skipped]. *)
Fixpoint summary_rows (ms : list pystr) (stats : gmap pystr MethodStats)
    (acc : MethodStats) : res (list Row * MethodStats) :=
  match ms with
  | [] => Ok ([], acc)
  | method :: ms' =>
      st <~ match stats !! method with
            | Some st => Ok st
            | None => Raise KeyError
            end;
      rate <~ success_rate (success st) (total st);
      let row := {| row_method := method; row_total := total st;
                    row_success := success st; row_errors := errors st;
                    row_skipped := skipped st; row_rate := rate |} in
      let acc' := {| total := total acc + total st;
                     success := success acc + success st;
                     errors := errors acc + errors st;
                     skipped := skipped acc + skipped st |} in
      rest <~ summary_rows ms' stats acc';
      Ok (row :: fst rest, snd rest)
  end.

(** The table: one row per method and the last row. *)
Definition summarize (stats : gmap pystr MethodStats) : res (list Row * Row) :=
  rows_sums <~ summary_rows methods stats zero_stats;
  let sums := snd rows_sums in
  overall <~ success_rate (success sums) (total sums);
  Ok (fst rows_sums,
      {| row_method := u "**Итого**"; row_total := total sums;
         row_success := success sums; row_errors := errors sums;
         row_skipped := skipped sums; row_rate := overall |}).

(** The row the table shows for the counters [st] of a method. *)
Definition row_of (method : pystr) (st : MethodStats) : Row :=
  {| row_method := method; row_total := total st;
     row_success := success st; row_errors := errors st;
     row_skipped := skipped st;
     row_rate := if total st =? 0 then Int 0
                 else Float (times_100
                               (round64 false (success st) (total st))) |}.

(** Counters count calls: no success is negative, and every success is
    a call. *)
Definition counted (st : MethodStats) : Prop := 0 <= success st <= total st.

Section Main.
Context {py : PyLib} {W : Type} {svc : World W}.

(** [run_tests_async], with the number of rounds (200 in the source) as
    a parameter: [None] when the handshake failed and nothing else was
    done, else the summary that is printed and written. *)
Definition run_tests (url : pystr) (token : option pystr) (n : nat)
    : IO W (option (list Row * Row)) :=
  ok_client <- initialize_session (new_client url token);
  if fst ok_client then
    stats <- rounds (snd ok_client) n 1 initial_stats;
    summary <- lift (summarize stats);
    ret (Some summary)
  else ret None.

Definition run_tests_async (url : pystr) (token : option pystr)
    : IO W (option (list Row * Row)) :=
  run_tests url token 200.
End Main.

End GrokPlus2.

(** ** testMCP_grok_plus.py *)

(** The client is the one of [testMCP_grok_plus_2.py], line for line; the
    driver differs in the chain that follows each call. *)
Module GrokPlus.

Section Driver.
Context {py : PyLib}.

(** Lines 289-303 (and 343-354, 365-376, 418-429). *)
Definition classify (payload : json) : res GrokPlus2.Verdict :=
  has_error <~ py_in (u "error") payload;
  if has_error then Ok GrokPlus2.Error
  else
    has_result <~ py_in (u "result") payload;
    if has_result then
      r <~ py_getitem payload (u "result");
      if eq_str r [] then Ok GrokPlus2.Skipped
      else if contains (py_str r) (u "Ошибка") then Ok GrokPlus2.Error
      else Ok GrokPlus2.Success
    else Ok GrokPlus2.Success.
End Driver.

End GrokPlus.

(** ** testMCP_gpt.py *)

Module Gpt.

(** The text after the first occurrence of [sep]: [s.split(sep, 1)[1]],
    which raises [IndexError] when there is none. *)
Fixpoint after_first (sep s : pystr) : option pystr :=
  if startswith s sep then Some (drop (length sep) s)
  else match s with
       | [] => None
       | _ :: s' => after_first sep s'
       end.

(** [{"session_id": sid, **params}] *)
Definition with_session (sid : pystr) (params : list (pystr * json))
    : list (pystr * json) :=
  match dict_get (u "session_id") params with
  | Some v =>
      (u "session_id", v)
        :: filter (fun kv => str_eqb (fst kv) (u "session_id") = false) params
  | None => (u "session_id", JStr sid) :: params
  end.

Section Client.
Context {py : PyLib} {W : Type} {svc : World W}.

(** [MCPClient.__init__] *)
Definition new_client (url : pystr) (token : option pystr) : MCPClient :=
  {| base_url := url; auth_token := token; session_id := None |}.

(** Lines 58-62: the text handed to [json.loads]. *)
Definition handshake_text (body : pystr) : res pystr :=
  let text := strip body in
  if startswith text (u "event:") then
    match after_first (u "data:") text with
    | Some rest => Ok (strip rest)
    | None => Raise IndexError
    end
  else Ok text.

(** Lines 63-71. *)
Definition read_handshake (data : json) : res bool :=
  has_result <~ py_in (u "result") data;
  if has_result then
    result <~ py_getitem data (u "result");
    version <~ py_get result (u "protocolVersion") JNull;
    info <~ py_get result (u "serverInfo") (JObj []);
    server <~ py_get info (u "name") JNull;
    Ok true
  else Ok false.

(** [initialize_session]: the flag it returns and the client as it
    leaves it. *)
Definition initialize_session (c : MCPClient) : IO W (bool * MCPClient) :=
  let req := {| url := base_url c ++ u "/mcp/initialize";
                req_headers := json_headers ++ auth_headers c;
                body := initialize_payload |} in
  o <- post req;
  match o with
  | Failed _ | Errored _ => ret (false, c)
  | Received resp =>
      match handshake_text (text resp) with
      | Raise _ => ret (false, c)
      | Ok text =>
          match json_loads text with
          | inl _ => ret (false, c)
          | inr data =>
              match read_handshake data with
              | Ok true => ret (true, c)
              | Ok false | Raise _ => ret (false, c)
              end
          end
      end
  end.

Definition build_request (c : MCPClient) (sid id method : pystr)
    (params : list (pystr * json)) : Request :=
  {| url := base_url c ++ u "/mcp/request";
     req_headers := json_headers ++ auth_headers c;
     body := JObj [(u "jsonrpc", JStr (u "2.0"));
                   (u "id", JStr id);
                   (u "method", JStr method);
                   (u "params", JObj (with_session sid params))] |}.

(** Lines 100-107. *)
Definition handle_outcome (o : outcome) : json :=
  match o with
  | Failed cause | Errored cause => error_value cause
  | Received response =>
      if is_success response then
        match response_json response with
        | inr data => data
        | inl (JSONDecodeError cause) | inl (UnicodeDecodeError cause) =>
            error_value cause
        end
      else
        error_value (u "HTTP " ++ str_of_Z (status_code response)
                     ++ u ": " ++ text response)
  end.

Definition _make_request (c : MCPClient) (method : pystr)
    (params : list (pystr * json)) : IO W json :=
  match nonempty (session_id c) with
  | None => ret (error_value (u "Session not initialized"))
  | Some sid =>
      id <- draw uuid4;
      o <- post (build_request c sid id method params);
      ret (handle_outcome o)
  end.

Definition call_tool (c : MCPClient) (name : pystr) (arguments : json)
    : IO W CallToolResult :=
  response <-
    _make_request c (u "tools/call")
      [(u "name", JStr name); (u "arguments", arguments)];
  lift (GrokPlus2.tool_result response).

(** Lines 154-160. *)
Definition payload_of (result : CallToolResult) : res json :=
  if isError result then
    match content result with
    | item :: _ => t <~ item_text item; Ok (error_value t)
    | [] => Raise IndexError
    end
  else
    text <~ match content result with
            | item :: _ => item_text item
            | [] => Ok (u "{}")
            end;
    match json_loads text with
    | inr v => Ok v
    | inl _ => Ok (JObj [(u "result", JStr text)])
    end.

(** [name_mask] is a string or [None]. *)
Definition test_list_metadata_objects (c : MCPClient)
    (meta_type : pystr) (name_mask : json) (max_items : Z) : IO W json :=
  let args := JObj [(u "metaType", JStr meta_type);
                    (u "nameMask", name_mask);
                    (u "maxItems", JNum max_items)] in
  result <- call_tool c (u "list_metadata_objects") args;
  lift (payload_of result).

Definition meta_types : list pystr :=
  [u "Catalogs"; u "Documents"; u "InformationRegisters";
   u "AccumulationRegisters"; u "AccountingRegisters"].

(** Lines 192-196: the body of the loop. *)
Definition iteration (c : MCPClient) : IO W unit :=
  meta_type <- choice meta_types;
  mask <- choice [JStr (u "Номенклатура"); JStr (u "Документ"); JNull];
  max_items <- randint 1 30;
  result <- test_list_metadata_objects c meta_type mask max_items;
  write_log {| log_number := 0; log_api := u "list_metadata_objects";
               log_params :=
                 JObj [(u "metaType", JStr meta_type); (u "mask", mask);
                       (u "maxItems", JNum max_items)];
               log_result := result |}.

Fixpoint iterations (c : MCPClient) (n : nat) : IO W unit :=
  match n with
  | O => ret tt
  | S n' => _ <- iteration c; iterations c n'
  end.

(** [run_tests_async]: whether the handshake let the loop run. *)
Definition run_tests_async (url : pystr) (token : option pystr)
    : IO W bool :=
  ok_client <- initialize_session (new_client url token);
  if fst ok_client then
    _ <- iterations (snd ok_client) 10;
    ret true
  else ret false.
End Client.

End Gpt.

(** ** testMCP.py *)

Module Sse.

Section Client.
Context {py : PyLib}.

(** The loop of [call_tool] over the content array (lines 111-122). *)
Fixpoint content_items (items : list json) : res (list ContentItem) :=
  match items with
  | [] => Ok []
  | item :: rest =>
      type <~ py_get item (u "type") JNull;
      if eq_str type (u "text") then
        t <~ py_get item (u "text") (JStr []);
        s <~ as_str t;
        more <~ content_items rest;
        Ok (TextContent s :: more)
      else
        type' <~ py_get item (u "type") JNull;
        if eq_str type' (u "image") then
          d <~ py_get item (u "data") (JStr []);
          m <~ py_get item (u "mimeType") (JStr []);
          data <~ as_str d;
          mime <~ as_str m;
          more <~ content_items rest;
          Ok (ImageContent data mime :: more)
        else content_items rest
  end.

(** A [bool] field accepts a boolean, the integers 0 and 1, and the
    words the validator reads as booleans. *)
Definition as_bool (v : json) : res bool :=
  match v with
  | JBool b => Ok b
  | JNum 0 => Ok false
  | JNum 1 => Ok true
  | JStr s =>
      let w := lower lower_other s in
      if existsb (str_eqb w) (map u ["0"; "off"; "f"; "false"; "n"; "no"]%string)
      then Ok false
      else if existsb (str_eqb w)
                (map u ["1"; "on"; "t"; "true"; "y"; "yes"]%string)
      then Ok true
      else Raise ValidationError
  | _ => Raise ValidationError
  end.

(** Lines 101-127 of [call_tool]: the result built from what
    [_make_request] returned. *)
Definition tool_result (response : json) : res CallToolResult :=
  has_error <~ py_in (u "error") response;
  if has_error then
    e <~ py_getitem response (u "error");
    Ok {| content := [TextContent (u "Error: " ++ py_str e)];
          isError := true |}
  else
    result_data <~ py_get response (u "result") (JObj []);
    content_data <~ py_get result_data (u "content") (JArr []);
    items <~ py_iter content_data;
    content <~ content_items items;
    flag <~ py_get result_data (u "isError") (JBool false);
    is_error <~ as_bool flag;
    Ok {| content := content; isError := is_error |}.
End Client.

End Sse.

(** ** Vocabulary of the properties *)

Module Vocabulary.

(** The items of a content array that [call_tool] keeps: those whose
    ["type"] is ["text"].  *)
Definition is_text_item (item : json) : bool :=
  match item with
  | JObj fields =>
      match dict_get (u "type") fields with
      | Some t => eq_str t (u "text")
      | None => false
      end
  | _ => false
  end.

(** The text of a kept item: its ["text"], or the empty string. *)
Definition text_of_item (item : json) : option pystr :=
  match item with
  | JObj fields =>
      match dict_get_default (u "text") (JStr []) fields with
      | JStr t => Some t
      | _ => None
      end
  | _ => None
  end.

(** What [call_tool] keeps of a content array. *)
Definition kept_texts (items : list json) : list ContentItem :=
  omap (fun item => TextContent <$> text_of_item item)
       (List.filter is_text_item items).

(** The content array of a response: [response["result"]["content"]]
    when it is a list, and nothing otherwise. *)
Definition content_array (response : json) : list json :=
  match response with
  | JObj items =>
      match dict_get_default (u "result") (JObj []) items with
      | JObj result_data =>
          match dict_get_default (u "content") (JArr []) result_data with
          | JArr xs => xs
          | _ => []
          end
      | _ => []
      end
  | _ => []
  end.

(** The ["isError"] field of the result payload of a response, [False]
    when the payload has none. *)
Definition payload_isError (response : json) : json :=
  match response with
  | JObj items =>
      match dict_get_default (u "result") (JObj []) items with
      | JObj result_data =>
          dict_get_default (u "isError") (JBool false) result_data
      | _ => JBool false
      end
  | _ => JBool false
  end.

(** What the SSE client makes of one item of a content array. *)
Definition sse_item (item : json) : option ContentItem :=
  match item with
  | JObj fields =>
      match dict_get (u "type") fields with
      | Some t =>
          if eq_str t (u "text") then
            match dict_get_default (u "text") (JStr []) fields with
            | JStr s => Some (TextContent s)
            | _ => None
            end
          else if eq_str t (u "image") then
            match dict_get_default (u "data") (JStr []) fields,
                  dict_get_default (u "mimeType") (JStr []) fields with
            | JStr d, JStr m => Some (ImageContent d m)
            | _, _ => None
            end
          else None
      | None => None
      end
  | _ => None
  end.

(** The tool named by a posted request. *)
Definition tool_of (req : Request) : option pystr :=
  match body req with
  | JObj items =>
      match dict_get (u "params") items with
      | Some (JObj params) =>
          match dict_get (u "name") params with
          | Some (JStr name) => Some name
          | _ => None
          end
      | _ => None
      end
  | _ => None
  end.

(** The tools called between two states of one run, in order. *)
Definition tools_called {W : Type} (before after : St W) : list pystr :=
  omap tool_of (drop (length (sent before)) (sent after)).

(** An event-stream body that carries a text: the line of the event, one
    data line for each line of the text, and the empty line that ends the
    event. *)
Definition sse_frame (event : pystr) (payload : list pystr) : pystr :=
  (u "event: " ++ event)
    ++ nl :: flat_map (fun line => u "data: " ++ line ++ [nl]) payload ++ [nl].

(** A line of an event-stream body after the first: a data line, which
    is [data:] and a payload, or any other line. *)
Inductive sse_line : Type :=
| DataLine (payload : pystr)
| OtherLine (line : pystr).

Definition render_line (l : sse_line) : pystr :=
  match l with
  | DataLine payload => u "data:" ++ payload
  | OtherLine line => line
  end.

(** A line holds no newline, and only a data line starts with [data:]. *)
Definition proper_line (l : sse_line) : Prop :=
  match l with
  | DataLine payload => ~ In nl payload
  | OtherLine line => ~ In nl line /\ startswith line (u "data:") = false
  end.

(** An event-stream body: white space, [event:] and the rest of the first
    line, then the other lines, each after a newline. *)
Definition sse_body (pad event : pystr) (lines : list sse_line) : pystr :=
  pad ++ u "event:" ++ event
    ++ flat_map (fun l => nl :: render_line l) lines.

(** The payloads of the data lines, stripped, in order. *)
Definition payloads (lines : list sse_line) : list pystr :=
  omap (fun l => match l with
                 | DataLine payload => Some (strip payload)
                 | OtherLine _ => None
                 end) lines.

(** A computation only adds to the requests posted so far. *)
Definition grows {W A} (m : IO W A) : Prop :=
  forall s, exists more, sent (snd (m s)) = sent s ++ more.

(** A computation posts nothing. *)
Definition quiet {W A} (m : IO W A) : Prop :=
  forall s, sent (snd (m s)) = sent s.

(** What [call_tool] returns when the client has no session id. *)
Definition refused : CallToolResult :=
  {| content := [TextContent (u "Error: Session not initialized")];
     isError := true |}.

End Vocabulary.
Export Vocabulary.

(** ** A scripted service for the examples *)

Module Script.

Definition quote : N := 34%N.

(** A compact [json.dumps]. *)
Fixpoint dumps (v : json) : pystr :=
  match v with
  | JNull => u "null"
  | JBool true => u "true"
  | JBool false => u "false"
  | JNum z => str_of_Z z
  | JStr s => quote :: s ++ [quote]
  | JArr xs =>
      u "[" ++ (fix go (xs : list json) : pystr :=
                  match xs with
                  | [] => []
                  | [x] => dumps x
                  | x :: rest => dumps x ++ u ", " ++ go rest
                  end) xs ++ u "]"
  | JObj items =>
      u "{" ++ (fix go (items : list (pystr * json)) : pystr :=
                  match items with
                  | [] => []
                  | [(k, x)] => quote :: k ++ [quote] ++ u ": " ++ dumps x
                  | (k, x) :: rest =>
                      quote :: k ++ [quote] ++ u ": " ++ dumps x ++ u ", "
                        ++ go rest
                  end) items ++ u "}"
  end.

(** A decoder that knows the texts of a finite list of values and refuses
    every other text. *)
Definition loads_from (known : list json) (text : pystr) : pystr + json :=
  match find (fun v => str_eqb (dumps v) (strip text)) known with
  | Some v => inr v
  | None => inl (u "Expecting value: line 1 column 1 (char 0)")
  end.

(** The UTF-8 bytes of a text. *)
Definition utf8_encode_cp (c : N) : list N :=
  (if c <? 128 then [c]
   else if c <? 2048 then [192 + c / 64; 128 + c mod 64]
   else if c <? 65536 then
     [224 + c / 4096; 128 + (c / 64) mod 64; 128 + c mod 64]
   else
     [240 + c / 262144; 128 + (c / 4096) mod 64; 128 + (c / 64) mod 64;
      128 + c mod 64])%N.

Definition utf8_encode (s : pystr) : list N := flat_map utf8_encode_cp s.

(** The decoder on bytes: a byte from 248 on is in no UTF-8 text; other
    bytes are read as UTF-8 and the text is decoded. *)
Definition loads_bytes_from (known : list json) (bs : list N)
    : json_failure + json :=
  if existsb (fun b => 248 <=? b)%N bs then
    inl (UnicodeDecodeError (u "'utf-8' codec can't decode bytes"))
  else
    match loads_from known (utf8_decode bs) with
    | inr v => inr v
    | inl cause => inl (JSONDecodeError cause)
    end.

Definition lib (known : list json) : PyLib :=
  {| json_loads := loads_from known;
     json_loads_bytes := loads_bytes_from known;
     repr := dumps;
     str_TextContent := fun t => u "type='text' text='" ++ t ++ u "'";
     str_ImageContent := fun d m => u "type='image' data='" ++ d ++ u "'";
     lower_other := fun c => [c] |}.

(** A service that answers the posts with the outcomes of a script, in
    order, and refuses the connection once the script is exhausted; every
    random draw gives the first candidate. *)
Definition service : World (list outcome) :=
  {| http_post := fun _ w =>
       match w with
       | o :: w' => (o, w')
       | [] => (Failed (u "All connection attempts failed"), [])
       end;
     uuid4 := fun w => (u "6f1c2c1e-0000-4000-8000-000000000000", w);
     random_lt := fun _ w => (true, w);
     randbelow := fun _ w => (0%nat, w);
     sample_order := fun _ w => ([], w) |}.

Definition start (script : list outcome) : St (list outcome) :=
  {| world := script; sent := []; logged := [] |}.

(** An answer whose body is the UTF-8 text given. *)
Definition answer (status : Z) (body : pystr) (hs : list (pystr * pystr))
    : Response :=
  {| status_code := status; text := body; headers := hs;
     raw_body := utf8_encode body |}.

Definition reply (status : Z) (body : pystr) (hs : list (pystr * pystr))
    : outcome :=
  Received (answer status body hs).

(** The response of a tool whose only content item is the given text. *)
Definition tool_reply (t : pystr) : json :=
  JObj [(u "jsonrpc", JStr (u "2.0"));
        (u "result",
          JObj [(u "content",
                  JArr [JObj [(u "type", JStr (u "text"));
                              (u "text", JStr t)]])])].

(** A listing in the text form, and the decoder and client of the
    examples that use it. *)
Definition listing : pystr := u "Номенклатура (Справочник)".

Definition listing_lib : PyLib := lib [tool_reply listing; tool_reply []].

Definition client : MCPClient :=
  {| base_url := u "http://127.0.0.1:8000"; auth_token := None;
     session_id := None |}.

(** A handshake response without a session id. *)
Definition handshake_response : json :=
  JObj [(u "jsonrpc", JStr (u "2.0"));
        (u "id", JNum 1);
        (u "result",
          JObj [(u "protocolVersion", JStr (u "2024-11-05"));
                (u "serverInfo", JObj [(u "name", JStr (u "1C MCP"))])])].

(** The response of a tool that returns a picture. *)
Definition image_response : json :=
  JObj [(u "jsonrpc", JStr (u "2.0"));
        (u "result",
          JObj [(u "content",
                  JArr [JObj [(u "type", JStr (u "image"));
                              (u "data", JStr (u "iVBORw0KGgo="));
                              (u "mimeType", JStr (u "image/png"))]])])].

(** The response of a tool that reports a failure of its own. *)
Definition failed_tool_response : json :=
  JObj [(u "jsonrpc", JStr (u "2.0"));
        (u "result",
          JObj [(u "content",
                  JArr [JObj [(u "type", JStr (u "text"));
                              (u "text", JStr (u "boom"))]]);
                (u "isError", JBool true)])].

End Script.

(** ** Further vocabulary *)

Module Notions.

(** A name as the text form of a listing yields it: not empty, and free
    of dots, of opening parentheses and of newlines. *)
Definition clean_name (name : pystr) : Prop :=
  name <> [] /\ ~ In 46%N name /\ ~ In 40%N name /\ ~ In nl name.

(** The object the driver makes of a name. *)
Definition named (name : pystr) : json := JObj [(u "name", JStr name)].

(** The last dotted segment of an element of a listing in list form. *)
Definition short_name (x : pystr) : pystr :=
  if contains x (u ".") then split_last 46 x else x.

(** An event-stream body whose lines end with a carriage return and a
    newline. *)
Definition sse_frame_crlf (event : pystr) (payload : list pystr) : pystr :=
  (u "event: " ++ event ++ [13%N])
    ++ nl :: flat_map (fun line => u "data: " ++ line ++ [13%N; nl]) payload
    ++ [13%N; nl].

(** The counters [stats'] are the counters [stats] after one record for
    each of the tools named, in order. *)
Definition recorded (stats : gmap pystr GrokPlus2.MethodStats)
    (tools : list pystr) (stats' : gmap pystr GrokPlus2.MethodStats) : Prop :=
  exists events,
    GrokPlus2.record_all events stats = Ok stats' /\ map fst events = tools.

(** What a computation posts and returns: from any state it adds requests
    that name the tools of a list [T] accepts, in order, and when it returns
    a value, [Q] holds of that list and of the value. *)
Definition io_spec {W A} (T : list pystr -> Prop)
    (Q : list pystr -> A -> Prop) (m : IO W A) : Prop :=
  forall s, exists reqs tools,
    sent (snd (m s)) = sent s ++ reqs
    /\ map tool_of reqs = map Some tools
    /\ T tools
    /\ forall a, fst (m s) = Ok a -> Q tools a.

(** A computation that posts nothing, and whose value satisfies [P]. *)
Definition calm {W A} (P : A -> Prop) (m : IO W A) : Prop :=
  forall s, sent (snd (m s)) = sent s /\ forall a, fst (m s) = Ok a -> P a.

(** A computation that never raises. *)
Definition steady {W A} (m : IO W A) : Prop :=
  forall s, exists a, fst (m s) = Ok a.

(** At most [k] calls of [get_predefined_data]. *)
Definition details_upto (k : nat) (tools : list pystr) : Prop :=
  exists j, (j <= k)%nat /\ tools = repeat (u "get_predefined_data") j.

(** The calls of steps 3 to 5 of a round. *)
Definition object_shape (tools : list pystr) : Prop :=
  tools = []
  \/ tools = [u "get_metadata_structure"]
  \/ exists rest,
       details_upto 3 rest
       /\ tools = u "get_metadata_structure" :: u "list_predefined_data"
                    :: rest.

(** The calls of a round. *)
Definition round_shape (tools : list pystr) : Prop :=
  exists rest,
    object_shape rest /\ tools = u "list_metadata_objects" :: rest.

(** How often a tool is named in a list. *)
Definition tool_count (m : pystr) (tools : list pystr) : nat :=
  length (List.filter (str_eqb m) tools).

(** The counters of a method, or zeros when it has none. *)
Definition counters (m : pystr) (stats : gmap pystr GrokPlus2.MethodStats)
    : GrokPlus2.MethodStats :=
  match stats !! m with
  | Some st => st
  | None => GrokPlus2.zero_stats
  end.

(** Counters that add up: no negative count, and as many calls as
    verdicts. *)
Definition balanced (st : GrokPlus2.MethodStats) : Prop :=
  0 <= GrokPlus2.success st /\ 0 <= GrokPlus2.errors st
  /\ 0 <= GrokPlus2.skipped st
  /\ GrokPlus2.total st
     = GrokPlus2.success st + GrokPlus2.errors st + GrokPlus2.skipped st.


(** The calls of [k] rounds, one after the other. *)
Definition rounds_of (k : nat) (tools : list pystr) : Prop :=
  exists parts,
    length parts = k /\ Forall round_shape parts /\ tools = concat parts.

(** A number from 0 to 100. *)
Definition percentage (n : number) : Prop :=
  match n with
  | Int z => 0 <= z <= 100
  | Float x =>
      match value x with
      | Some v => (0 <= v <= 100)%Q
      | None => False
      end
  end.

(** A row whose counts add up and whose rate is a percentage. *)
Definition sound_row (r : GrokPlus2.Row) : Prop :=
  0 <= GrokPlus2.row_success r /\ 0 <= GrokPlus2.row_errors r
  /\ 0 <= GrokPlus2.row_skipped r
  /\ GrokPlus2.row_total r
     = GrokPlus2.row_success r + GrokPlus2.row_errors r
       + GrokPlus2.row_skipped r
  /\ percentage (GrokPlus2.row_rate r).

(** The records written between two states of one run, in order. *)
Definition logged_since {W : Type} (before after : St W) : list LogEntry :=
  drop (length (logged before)) (logged after).

(** A computation that, when it returns, has written one record for each
    tool it called, in the order of the calls and under the number [n]. *)
Definition logs_calls {W A} (n : Z) (m : IO W A) : Prop :=
  forall s a, fst (m s) = Ok a ->
    exists reqs entries,
      sent (snd (m s)) = sent s ++ reqs
      /\ logged (snd (m s)) = logged s ++ entries
      /\ map tool_of reqs = map (fun e => Some (log_api e)) entries
      /\ Forall (fun e => log_number e = n) entries.

(** A computation that neither posts nor writes a record. *)
Definition silent {W A} (m : IO W A) : Prop :=
  forall s, sent (snd (m s)) = sent s /\ logged (snd (m s)) = logged s.

(** Whether a result is a value rather than an exception. *)
Definition is_ok {A} (r : res A) : bool :=
  match r with
  | Ok _ => true
  | Raise _ => false
  end.
End Notions.
Export Notions.

(** ** A scripted run for the examples *)

Module Scenario.

(** The decoder of the run: it knows the handshake and two tool
    answers, and refuses every other text. *)
Definition lib : PyLib :=
  Script.lib [Script.handshake_response;
              Script.tool_reply Script.listing; Script.tool_reply []].

(** The answers of one round: a listing with one object, a refusal of
    the structure call and a timeout of the listing of predefined data. *)
Definition round_script : list outcome :=
  [Script.reply 200 (Script.dumps (Script.tool_reply Script.listing)) [];
   Script.reply 500 (u "Internal Server Error") [];
   Failed (u "timed out")].

(** The answers of a run: a handshake that gives a session id, then the
    round above; every later post is refused. *)
Definition run_script : list outcome :=
  Script.reply 200 (Script.dumps Script.handshake_response)
    [(u "mcp-session-id", u "4f2a9c")]
  :: round_script.

(** Counters as a run may leave them: the methods have been called 3, 9
    and 7 times, and the last not at all. *)
Definition tally : gmap pystr GrokPlus2.MethodStats :=
  list_to_map
    [(u "list_metadata_objects",
      {| GrokPlus2.total := 3; GrokPlus2.success := 1;
         GrokPlus2.errors := 1; GrokPlus2.skipped := 1 |});
     (u "get_metadata_structure",
      {| GrokPlus2.total := 9; GrokPlus2.success := 7;
         GrokPlus2.errors := 2; GrokPlus2.skipped := 0 |});
     (u "list_predefined_data",
      {| GrokPlus2.total := 7; GrokPlus2.success := 7;
         GrokPlus2.errors := 0; GrokPlus2.skipped := 0 |});
     (u "get_predefined_data", GrokPlus2.zero_stats)].

End Scenario.

(** ** testMCP.py: the transport and the wrappers *)

Module SseHarness.

(** What escapes a call: an exception of [client.post] or of
    [response.json()], with its message, or an exception of the interpreter
    or of the validator. *)
Inductive failure : Type :=
| Thrown (message : pystr)
| Raised (e : exn).

(** The texts the libraries give and the harness only copies. *)
Class SseLib : Type := {
  (** [str(e)] for the [HTTPStatusError] that [raise_for_status] raises
      for a response to a request. *)
  str_HTTPStatusError : Request -> Response -> pystr;
  (** [str(e)] for an exception of the interpreter or of the validator. *)
  str_exn : exn -> pystr;
}.

(** The fields of [MCPClient] that the requests use; [session_id] is
    always a string here. *)
Record Client : Type := {
  base_url : pystr;
  auth_token : option pystr;
  session_id : pystr;
}.

Section Client.
Context {py : PyLib} {lib : SseLib} {W : Type} {svc : World W}.

(** [MCPClient.__init__] (lines 24-28). *)
Definition new_client (url : pystr) (token : option pystr) : IO W Client :=
  sid <- draw uuid4;
  ret {| base_url := url; auth_token := token; session_id := sid |}.

(** Lines 33-36. *)
Definition request_headers (c : Client) : list (pystr * pystr) :=
  [(u "Content-Type", u "application/jsonrpc+json");
   (u "Accept", u "application/json");
   (u "User-Agent", u "MCP-Client/1.0")]
  ++ match nonempty (auth_token c) with
     | Some t => [(u "Authorization", u "Bearer " ++ t)]
     | None => []
     end.

(** Lines 32 and 39-40. *)
Definition request_url (c : Client) (endpoint : pystr) : pystr :=
  (base_url c ++ endpoint)
  ++ (if str_eqb endpoint (u "/sse/messages/")
      then u "?session_id=" ++ session_id c
      else []).

(** Lines 42-47.  Only an [httpx.HTTPError] is caught: the one of a
    post that fails (connection refused, timeout, ...) and the one of
    [raise_for_status].  An exception of another class raised by the post,
    and what [response.json()] raises, get out. *)
Definition handle_outcome (req : Request) (o : outcome) : failure + json :=
  match o with
  | Failed cause => inr (error_value cause)
  | Errored cause => inl (Thrown cause)
  | Received response =>
      if is_success response then
        match response_json response with
        | inr data => inr data
        | inl (JSONDecodeError cause) | inl (UnicodeDecodeError cause) =>
            inl (Thrown cause)
        end
      else inr (error_value (str_HTTPStatusError req response))
  end.

(** [_make_request] (lines 30-47). *)
Definition _make_request (c : Client) (endpoint : pystr) (payload : json)
    : IO W (failure + json) :=
  let req := {| url := request_url c endpoint;
                req_headers := request_headers c;
                body := payload |} in
  o <- post req;
  ret (handle_outcome req o).

(** Lines 89-98. *)
Definition call_payload (c : Client) (name : pystr) (arguments : json)
    : json :=
  JObj [(u "jsonrpc", JStr (u "2.0"));
        (u "id", JNum 2);
        (u "method", JStr (u "tools/call"));
        (u "params", JObj [(u "name", JStr name);
                           (u "arguments", arguments)]);
        (u "session_id", JStr (session_id c))].

(** [call_tool] (lines 87-127). *)
Definition call_tool (c : Client) (name : pystr) (arguments : json)
    : IO W (failure + CallToolResult) :=
  response <- _make_request c (u "/mcp/") (call_payload c name arguments);
  ret (match response with
       | inl f => inl f
       | inr data =>
           match Sse.tool_result data with
           | Ok r => inr r
           | Raise e => inl (Raised e)
           end
       end).

(** What the four [test_*] functions make of the result of the call
    (lines 301-309). *)
Definition payload_of (result : CallToolResult) : res json :=
  if isError result then
    match content result with
    | [] => Ok (error_value (u "Unknown error"))
    | item :: _ =>
        t <~ item_text item;
        Ok (error_value t)
    end
  else
    content_text <~ match content result with
                    | [] => Ok (u "{}")
                    | item :: _ => item_text item
                    end;
    match json_loads content_text with
    | inr v => Ok v
    | inl _ => Ok (JObj [(u "result", JStr content_text)])
    end.

(** [str(e)] in the handler of the wrappers. *)
Definition message (f : failure) : pystr :=
  match f with
  | Thrown cause => cause
  | Raised e => str_exn e
  end.

(** The body the four [test_*] functions share: the test of the global
    [client], the call, and [except Exception as e] around both. *)
Definition guarded_call (client : option Client) (name : pystr)
    (arguments : json) : IO W json :=
  match client with
  | None => ret (error_value (u "MCP client not initialized"))
  | Some c =>
      result <- call_tool c name arguments;
      ret (match result with
           | inl f => error_value (message f)
           | inr r =>
               match payload_of r with
               | Ok v => v
               | Raise e => error_value (str_exn e)
               end
           end)
  end.

(** Lines 287-311. *)
Definition test_list_metadata_objects (client : option Client)
    (meta_type name_mask max_items : json) : IO W json :=
  guarded_call client (u "list_metadata_objects")
    (JObj [(u "metaType", meta_type); (u "nameMask", name_mask);
           (u "maxItems", max_items)]).

(** Lines 313-334. *)
Definition test_get_metadata_structure (client : option Client)
    (meta_type name : json) : IO W json :=
  guarded_call client (u "get_metadata_structure")
    (JObj [(u "metaType", meta_type); (u "name", name)]).

(** Lines 336-362. *)
Definition test_list_predefined_data (client : option Client)
    (meta_type name predefined_mask max_items : json) : IO W json :=
  guarded_call client (u "list_predefined_data")
    (JObj ([(u "metaType", meta_type); (u "name", name);
            (u "maxItems", max_items)]
           ++ (if truthy predefined_mask
               then [(u "predefinedMask", predefined_mask)]
               else []))).

(** Lines 364-386. *)
Definition test_get_predefined_data (client : option Client)
    (meta_type name predefined_name : json) : IO W json :=
  guarded_call client (u "get_predefined_data")
    (JObj [(u "metaType", meta_type); (u "name", name);
           (u "predefinedName", predefined_name)]).
End Client.

End SseHarness.

(** ** testMCP_grok_plus_2.py: the list of tools *)

Module ToolList.

(** A validated [types.Tool]: [name] is a [str], [description] a [str]
    or [None], [inputSchema] a dict. *)
Record Tool : Type := {
  tool_name : pystr;
  tool_description : option pystr;
  tool_inputSchema : list (pystr * json);
}.

Definition as_optional_str (v : json) : res (option pystr) :=
  match v with
  | JNull => Ok None
  | JStr s => Ok (Some s)
  | _ => Raise ValidationError
  end.

Definition as_dict (v : json) : res (list (pystr * json)) :=
  match v with
  | JObj items => Ok items
  | _ => Raise ValidationError
  end.

Section Client.
Context {py : PyLib} {W : Type} {svc : World W}.

(** Lines 137-141: the arguments are read first, then validated. *)
Definition tool_of_data (t : json) : res Tool :=
  name <~ py_getitem t (u "name");
  description <~ py_get t (u "description") (JStr []);
  schema <~ py_get t (u "inputSchema") (JObj []);
  n <~ as_str name;
  d <~ as_optional_str description;
  sc <~ as_dict schema;
  Ok {| tool_name := n; tool_description := d; tool_inputSchema := sc |}.

(** Lines 131-144. *)
Definition tools_of_response (response : json) : res (list Tool) :=
  has_error <~ py_in (u "error") response;
  if has_error then
    e <~ py_getitem response (u "error");
    Ok []
  else
    result_data <~ py_get response (u "result") (JObj []);
    tools_data <~ py_get result_data (u "tools") (JArr []);
    items <~ py_iter tools_data;
    mapM_res tool_of_data items.

(** [list_tools] (lines 128-144). *)
Definition list_tools (c : MCPClient) : IO W (list Tool) :=
  response <- GrokPlus2._make_request c (u "tools/list") (JObj []);
  lift (tools_of_response response).
End Client.

End ToolList.

(** ** A scripted service for the wrappers of testMCP.py *)

Module SseScenario.

Definition lib : SseHarness.SseLib :=
  {| SseHarness.str_HTTPStatusError := fun _ r =>
       u "Server error '" ++ str_of_Z (status_code r) ++ u "'";
     SseHarness.str_exn := fun e =>
       match e with
       | AttributeError => u "'ImageContent' object has no attribute 'text'"
       | _ => u "invalid value"
       end |}.

Definition client : SseHarness.Client :=
  {| SseHarness.base_url := u "http://127.0.0.1:8000";
     SseHarness.auth_token := None;
     SseHarness.session_id := u "6f1c2c1e-0000-4000-8000-000000000000" |}.

End SseScenario.

(** * Properties *)

(** ** Strings *)

Example u_cyrillic :
  u "не найден" = [1085; 1077; 32; 1085; 1072; 1081; 1076; 1077; 1085]%N.
Proof. reflexivity. Qed.

Example strip_ex : strip (10 :: u "  data: x  " ++ [13; 10])%N = u "data: x".
Proof. reflexivity. Qed.

Example split_ex : split nl (u "a" ++ nl :: u "b" ++ [nl]) = [u "a"; u "b"; []].
Proof. reflexivity. Qed.

Example str_of_Z_ex : str_of_Z 404 = u "404".
Proof. reflexivity. Qed.

Example lower_ex :
  lower (fun c => [c]) (u "Ошибка: NOT Found") = u "ошибка: not found".
Proof. reflexivity. Qed.

Example headers_get_ex :
  headers_get (u "Mcp-Session-Id")
    [(u "content-type", u "application/json"); (u "mcp-session-id", u "abc")]
  = Some (u "abc").
Proof. vm_compute. reflexivity. Qed.

Example object_of_line_ex :
  GrokPlus2.object_of_line (u "  Справочник.Номенклатура (Товары)  ")
  = Some (JObj [(u "name", JStr (u "Номенклатура"))]).
Proof. vm_compute. reflexivity. Qed.

Example predefined_of_line_ex :
  GrokPlus2.predefined_of_line (u "Имя: 'Основной'")
  = Some (JObj [(u "name", JStr (u "Основной'"))]).
Proof. vm_compute. reflexivity. Qed.

Example parse_listing_ex :
  GrokPlus2.parse_listing
    (JArr [JStr (u "Справочник.Валюты"); JStr []; JStr (u "Банки")])
  = Ok [JObj [(u "name", JStr (u "Валюты"))];
        JObj [(u "name", JStr (u "Банки"))]].
Proof. vm_compute. reflexivity. Qed.

Example classify_number_ex :
  GrokPlus2.classify (py := Script.lib []) (JNum 42) = Raise TypeError.
Proof. vm_compute. reflexivity. Qed.

Example classify_empty_list_ex :
  GrokPlus2.classify (py := Script.lib []) (JArr []) = Ok GrokPlus2.Skipped.
Proof. vm_compute. reflexivity. Qed.

Example dumps_ex :
  Script.dumps (JObj [(u "a", JArr [JNum 1; JNull])])
  = u "{" ++ [34%N] ++ u "a" ++ [34%N] ++ u ": [1, null]}".
Proof. reflexivity. Qed.

Lemma startswith_app (s p : pystr) : startswith (p ++ s) p = true.
Proof.
  induction p as [|a p IH]; simpl; [destruct s; reflexivity|].
  rewrite N.eqb_refl. exact IH.
Qed.

Lemma contains_prefix (s p : pystr) :
  startswith s p = true -> contains s p = true.
Proof.
  intros Hp. destruct s as [|c s].
  - destruct p; [reflexivity | discriminate].
  - change (startswith (c :: s) p || contains s p = true).
    rewrite Hp. reflexivity.
Qed.

Lemma contains_app (a s b : pystr) : contains (a ++ s ++ b) s = true.
Proof.
  induction a as [|c a IH].
  - apply contains_prefix. exact (startswith_app b s).
  - change (startswith (c :: a ++ s ++ b) s || contains (a ++ s ++ b) s = true).
    rewrite IH. apply orb_true_r.
Qed.

Lemma lower_app (other : N -> pystr) (a b : pystr) :
  lower other (a ++ b) = lower other a ++ lower other b.
Proof. unfold lower. apply flat_map_app. Qed.

(** ** The classifier *)

Section Classifier.
Context {py : PyLib}.
Import GrokPlus2.

Lemma keyword_in_lower (r a k b : pystr) :
  r = a ++ k ++ b ->
  In (lower lower_other k) error_keywords ->
  existsb (fun keyword => contains (lower lower_other r) keyword)
          error_keywords = true.
Proof.
  intros -> Hin. apply existsb_exists.
  exists (lower lower_other k). split; [exact Hin|].
  rewrite !lower_app. apply contains_app.
Qed.

Lemma classify_dict (items : list (pystr * json)) :
  classify (JObj items) =
  Ok (if dict_has (u "error") items then Error
      else if has_error_keyword (JObj items) then Error
      else if is_empty_payload (JObj items) then Skipped
      else Success).
Proof.
  unfold classify. cbn [py_in res_bind].
  destruct (dict_has (u "error") items); [reflexivity|].
  destruct (has_error_keyword (JObj items)); [reflexivity|].
  destruct (is_empty_payload (JObj items)); reflexivity.
Qed.

(** C3. A payload that is a dict with an ["error"] key, or whose
    ["result"] is a string holding one of the seven keywords in any
    letter case, is counted as an error, whether or not it also meets the
    emptiness test; a payload is only counted as skipped when neither error
    test holds.  In particular [{"result": "Ошибка: не найден"}] is an
    error. *)
Theorem classify_error_before_skipped (items : list (pystr * json)) :
  (dict_has (u "error") items = true
   \/ exists r a k b,
        dict_get (u "result") items = Some (JStr r)
        /\ r = a ++ k ++ b
        /\ In (lower lower_other k) error_keywords) ->
  classify (JObj items) = Ok Error
  /\ (forall payload, classify payload = Ok Skipped ->
        py_in (u "error") payload = Ok false
        /\ has_error_keyword payload = false
        /\ is_empty_payload payload = true)
  /\ classify (JObj [(u "error", JStr (u "x")); (u "result", JStr [])])
     = Ok Error
  /\ is_empty_payload (JObj [(u "error", JStr (u "x")); (u "result", JStr [])])
     = true
  /\ classify (JObj [(u "result", JStr (u "Ошибка: не найден"))]) = Ok Error
  /\ error_keywords
     = [u "ошибка"; u "исключение"; u "не найден"; u "error"; u "exception";
        u "not found"; u "вызватьисключение"].
Proof.
  intros Hcond. split; [|split; [|repeat split]].
  - rewrite classify_dict.
    destruct Hcond as [Herr | (r & a & k & b & Hres & Hr & Hin)].
    + rewrite Herr. reflexivity.
    + destruct (dict_has (u "error") items); [reflexivity|].
      unfold has_error_keyword. rewrite Hres.
      rewrite (keyword_in_lower r a k b Hr Hin). reflexivity.
  - intros payload. unfold classify.
    destruct (py_in (u "error") payload) as [[|]|e]; simpl; try discriminate.
    destruct (has_error_keyword payload); [discriminate|].
    destruct (is_empty_payload payload); [auto | discriminate].
Qed.
End Classifier.

Lemma classify_error_before_skipped_witness :
  GrokPlus2.classify (py := Script.lib [])
    (JObj [(u "result", JStr (u "Ошибка: не найден"))])
  = Ok GrokPlus2.Error.
Proof.
  apply (classify_error_before_skipped (py := Script.lib [])
           [(u "result", JStr (u "Ошибка: не найден"))]).
  right. exists (u "Ошибка: не найден"), [], (u "Ошибка"), (u ": не найден").
  split; [reflexivity|]. split; [reflexivity|].
  simpl. left. reflexivity.
Defined.

(** ** The counters *)

Section Counters.
Import GrokPlus2.

Lemma stats_eq (a b : MethodStats) :
  total a = total b -> success a = success b -> errors a = errors b ->
  skipped a = skipped b -> a = b.
Proof. destruct a, b; simpl; intros; subst; reflexivity. Qed.

Lemma record_spec (m : pystr) (v : Verdict) (stats : gmap pystr MethodStats) :
  record m v stats =
  match stats !! m with
  | Some st => Ok (<[m := bump v st]> stats)
  | None => Raise KeyError
  end.
Proof.
  unfold record, incr_total, incr_outcome.
  destruct (stats !! m) as [st|] eqn:E; [|reflexivity].
  cbn [res_bind]. rewrite lookup_insert_eq. rewrite insert_insert_eq.
  f_equal. f_equal. destruct v; apply stats_eq; simpl; lia.
Qed.

Lemma bump_comm (v1 v2 : Verdict) (st : MethodStats) :
  bump v1 (bump v2 st) = bump v2 (bump v1 st).
Proof. destruct v1, v2; apply stats_eq; simpl; lia. Qed.

Lemma record_swap (m1 m2 : pystr) (v1 v2 : Verdict)
    (stats : gmap pystr MethodStats) :
  (s <~ record m1 v1 stats; record m2 v2 s)
  = (s <~ record m2 v2 stats; record m1 v1 s).
Proof.
  rewrite !record_spec.
  destruct (decide (m1 = m2)) as [->|Hne].
  - destruct (stats !! m2) as [st|] eqn:E; cbn [res_bind]; [|reflexivity].
    rewrite !record_spec, !lookup_insert_eq, !insert_insert_eq.
    rewrite bump_comm. reflexivity.
  - destruct (stats !! m1) as [st1|] eqn:E1, (stats !! m2) as [st2|] eqn:E2;
      cbn [res_bind]; rewrite ?record_spec;
      rewrite ?lookup_insert_ne by congruence; rewrite ?E1, ?E2;
      try reflexivity.
    rewrite insert_insert_ne by congruence. reflexivity.
Qed.

Lemma record_all_perm (events events' : list (pystr * Verdict)) :
  events ≡ₚ events' ->
  forall stats, record_all events stats = record_all events' stats.
Proof.
  induction 1 as [|[m v] l l' _ IH|[m1 v1] [m2 v2] l|l1 l2 l3 _ IH1 _ IH2];
    intros stats.
  - reflexivity.
  - simpl. destruct (record m v stats); simpl; [apply IH | reflexivity].
  - simpl.
    pose proof (record_swap m1 m2 v1 v2 stats) as Hswap.
    destruct (record m1 v1 stats) as [s1|e1], (record m2 v2 stats) as [s2|e2];
      cbn [res_bind] in *.
    + destruct (record m2 v2 s1), (record m1 v1 s2); cbn [res_bind];
        congruence.
    + destruct (record m2 v2 s1); cbn [res_bind]; congruence.
    + destruct (record m1 v1 s2); cbn [res_bind]; congruence.
    + congruence.
  - rewrite IH1. apply IH2.
Qed.

Lemma record_all_same (m : pystr) (vs : list Verdict) (st : MethodStats)
    (stats : gmap pystr MethodStats) :
  stats !! m = Some st ->
  record_all (map (pair m) vs) stats
  = Ok (<[m := fold_left (fun acc v => bump v acc) vs st]> stats).
Proof.
  revert st stats. induction vs as [|v vs IH]; intros st stats Hst.
  - simpl. rewrite insert_id by exact Hst. reflexivity.
  - simpl. rewrite record_spec, Hst. cbn [res_bind].
    rewrite (IH (bump v st)) by apply lookup_insert_eq.
    rewrite insert_insert_eq. reflexivity.
Qed.

(** C9. The counters do not depend on the order in which the verdicts
    are recorded: two sequences of (method, verdict) events that are
    permutations of each other leave the same [method_stats]; one recorded
    verdict adds one to [total] and to exactly one of [success], [errors]
    and [skipped]; and any ordering of [Success, Error, Skipped, Success]
    for one method, from the initial counters, gives total 4, success 2,
    errors 1, skipped 1. *)
Theorem record_permutation_invariant
    (events events' : list (pystr * Verdict))
    (stats : gmap pystr MethodStats) :
  events ≡ₚ events' ->
  record_all events stats = record_all events' stats
  /\ (forall m v st, stats !! m = Some st ->
        record m v stats
        = Ok (<[m := {| total := total st + 1;
                        success := success st + (if v is Success then 1 else 0);
                        errors := errors st + (if v is Error then 1 else 0);
                        skipped := skipped st + (if v is Skipped then 1 else 0)
                      |}]> stats))
  /\ (forall m vs, In m methods ->
        vs ≡ₚ [Success; Error; Skipped; Success] ->
        exists stats',
          record_all (map (pair m) vs) initial_stats = Ok stats'
          /\ stats' !! m
             = Some {| total := 4; success := 2; errors := 1; skipped := 1 |}).
Proof.
  intros Hperm. split; [|split].
  - apply record_all_perm, Hperm.
  - intros m v st Hst. rewrite record_spec, Hst. reflexivity.
  - intros m vs Hm Hvs.
    rewrite (record_all_perm _ (map (pair m) [Success; Error; Skipped; Success]))
      by (apply Permutation_map, Hvs).
    assert (Hinit : initial_stats !! m = Some zero_stats).
    { simpl in Hm.
      destruct Hm as [<-|[<-|[<-|[<-|[]]]]]; vm_compute; reflexivity. }
    rewrite (record_all_same _ _ _ _ Hinit).
    eexists. split; [reflexivity|].
    rewrite lookup_insert_eq. reflexivity.
Qed.
End Counters.

Lemma record_permutation_invariant_witness :
  GrokPlus2.record_all
    [(u "get_metadata_structure", GrokPlus2.Error);
     (u "list_metadata_objects", GrokPlus2.Success)]
    GrokPlus2.initial_stats
  = GrokPlus2.record_all
      [(u "list_metadata_objects", GrokPlus2.Success);
       (u "get_metadata_structure", GrokPlus2.Error)]
      GrokPlus2.initial_stats.
Proof.
  apply (record_permutation_invariant
           [(u "get_metadata_structure", GrokPlus2.Error);
            (u "list_metadata_objects", GrokPlus2.Success)]
           [(u "list_metadata_objects", GrokPlus2.Success);
            (u "get_metadata_structure", GrokPlus2.Error)]).
  apply Permutation_swap.
Defined.

(** ** The summary *)

(** [1 / 3] is the double 0.3333333333333333 and [1 / 3 * 100] the double
    33.33333333333333, below the third of 100. *)
Example truediv_third :
  truediv 1 3 = Ok (Finite false 6004799503160661 (-54))
  /\ times_100 (Finite false 6004799503160661 (-54))
     = Finite false 4691249611844266 (-47)
  /\ (exists v, value (Finite false 4691249611844266 (-47)) = Some v
                /\ (v < 100 # 3)%Q).
Proof.
  split; [vm_compute; reflexivity|]. split; [vm_compute; reflexivity|].
  eexists. split; [reflexivity|]. vm_compute. reflexivity.
Qed.

(** [199 / 200 * 100] is 99.5, [1 / 1200 * 100] is 0.08333333333333334 and
    [7 / 7 * 100] is 100.0; a quotient too large for a double raises. *)
Example truediv_samples :
  (q <~ truediv 199 200; Ok (times_100 q))
  = Ok (Finite false 7001690045677568 (-46))
  /\ (exists v, value (Finite false 7001690045677568 (-46)) = Some v
                /\ (v == 199 # 2)%Q)
  /\ (q <~ truediv 1 1200; Ok (times_100 q))
     = Ok (Finite false 6004799503160662 (-56))
  /\ (q <~ truediv 7 7; Ok (times_100 q))
     = Ok (Finite false 7036874417766400 (-46))
  /\ truediv (-1) 3 = Ok (Finite true 6004799503160661 (-54))
  /\ truediv 0 5 = Ok (Finite false 0 0)
  /\ truediv 1 0 = Raise ZeroDivisionError
  /\ truediv (10 ^ 400) 1 = Raise OverflowError.
Proof.
  split; [vm_compute; reflexivity|]. split.
  { eexists. split; [reflexivity|]. vm_compute. reflexivity. }
  vm_compute. repeat split; reflexivity.
Qed.

Section Floats.

Lemma scale_up_pos (k : Z) : 0 < scale_up k.
Proof. unfold scale_up. apply Z.pow_pos_nonneg; lia. Qed.

Lemma scale_down_pos (k : Z) : 0 < scale_down k.
Proof. unfold scale_down. apply Z.pow_pos_nonneg; lia. Qed.

Lemma scale_up_nonpos (k : Z) : k <= 0 -> scale_up k = 1.
Proof. intros Hk. unfold scale_up. rewrite Z.max_r by lia. reflexivity. Qed.

Lemma scale_down_succ (k : Z) :
  k < 0 -> scale_down k = 2 * scale_down (k + 1).
Proof.
  intros Hk. unfold scale_down. rewrite !Z.max_l by lia.
  replace (- k) with (Z.succ (- (k + 1))) by lia.
  apply Z.pow_succ_r. lia.
Qed.

Lemma scale_monotone (k k' : Z) :
  k <= k' ->
  scale_up k * scale_down k' <= scale_up k' * scale_down k.
Proof.
  intros Hk. unfold scale_up, scale_down.
  rewrite <- !Z.pow_add_r by lia.
  apply Z.pow_le_mono_r; lia.
Qed.

Lemma round_half_even_bounds (n d N : Z) :
  0 <= n -> 0 < d -> n <= N * d ->
  0 <= round_half_even n d <= N.
Proof.
  intros Hn Hd HN. unfold round_half_even.
  pose proof (Z.div_mod n d ltac:(lia)) as Hdiv.
  pose proof (Z.mod_pos_bound n d Hd) as Hmod.
  assert (Hq : 0 <= n / d) by (apply Z.div_pos; lia).
  assert (HqN : n / d <= N) by (apply Z.div_le_upper_bound; lia).
  destruct (Z.compare_spec (2 * (n mod d)) d) as [Heq|Hlt|Hgt].
  - destruct (Z.even (n / d)); [lia|]. nia.
  - lia.
  - nia.
Qed.

(** The leading bit is not above the quotient. *)
Lemma ilog2_lower (p q : Z) :
  0 < p -> 0 < q ->
  q * scale_up (ilog2 p q) <= p * scale_down (ilog2 p q).
Proof.
  intros Hp Hq. unfold ilog2.
  set (d := Z.log2 p - Z.log2 q).
  destruct (Z.leb_spec (q * scale_up d) (p * scale_down d)) as [Hle|Hgt];
    [exact Hle|].
  destruct (Z.log2_spec p Hp) as [Hp1 _].
  destruct (Z.log2_spec q Hq) as [_ Hq2].
  pose proof (Z.log2_nonneg p) as Hlp. pose proof (Z.log2_nonneg q) as Hlq.
  unfold scale_up, scale_down.
  destruct (Z.le_gt_cases 0 (d - 1)) as [Hd|Hd].
  - rewrite Z.max_l, Z.max_r by lia. rewrite Z.mul_1_r.
    apply Z.le_trans with (2 ^ Z.log2 p); [|exact Hp1].
    replace (Z.log2 p) with (Z.succ (Z.log2 q) + (d - 1)) by (unfold d; lia).
    rewrite Z.pow_add_r by lia.
    apply Z.mul_le_mono_nonneg_r; [apply Z.pow_nonneg|]; lia.
  - rewrite Z.max_r, Z.max_l by lia. rewrite Z.mul_1_r.
    apply Z.le_trans with (2 ^ Z.succ (Z.log2 q)); [lia|].
    replace (Z.succ (Z.log2 q)) with (Z.log2 p + - (d - 1))
      by (unfold d; lia).
    rewrite Z.pow_add_r by lia.
    apply Z.mul_le_mono_nonneg_r; [apply Z.pow_nonneg|]; lia.
Qed.

(** A quotient that is at most [N] is rounded to a finite number that is
    at most [N], when [N] is below [2^53]. *)
Lemma round64_bound (negative : bool) (p q N : Z) :
  0 <= p -> 0 < q -> p <= N * q -> N < 2 ^ 53 ->
  exists m e,
    round64 negative p q = Finite negative m e
    /\ 0 <= m
    /\ m * scale_up e <= N * scale_down e.
Proof.
  intros Hp Hq HN Hsmall. unfold round64.
  destruct (Z.eqb_spec p 0) as [->|Hp0].
  { exists 0, 0. split; [reflexivity|]. split; [lia|].
    change (scale_up 0) with 1. change (scale_down 0) with 1. nia. }
  set (e := Z.max (ilog2 p q - 52) (-1074)).
  assert (He : e <= 0).
  { assert (Hlog : ilog2 p q < 53); [|unfold e; lia].
    pose proof (ilog2_lower p q ltac:(lia) Hq) as Hlow.
    destruct (Z.lt_ge_cases (ilog2 p q) 53) as [Hlt|Hge]; [exact Hlt|].
    exfalso.
    pose proof (scale_monotone 53 (ilog2 p q) Hge) as Hmono.
    pose proof (scale_up_pos (ilog2 p q)) as Hu.
    pose proof (scale_down_pos (ilog2 p q)) as Hd.
    change (scale_up 53) with (2 ^ 53) in Hmono.
    change (scale_down 53) with 1 in Hmono.
    nia. }
  rewrite (scale_up_nonpos e He), Z.mul_1_r.
  pose proof (scale_down_pos e) as Hd.
  destruct (round_half_even_bounds (p * scale_down e) q (N * scale_down e))
    as [Hm0 HmN]; [nia | exact Hq | nia |].
  set (m := round_half_even (p * scale_down e) q) in *.
  destruct (Z.eqb_spec m 0) as [Hz|Hnz].
  { exists 0, 0. split; [reflexivity|]. split; [lia|].
    change (scale_up 0) with 1. change (scale_down 0) with 1. nia. }
  destruct (Z.eqb_spec m (2 ^ 53)) as [Hc|Hnc].
  - destruct (Z.leb_spec 971 e) as [Hbig|_]; [lia|].
    exists (2 ^ 52), (e + 1). split; [reflexivity|]. split; [lia|].
    destruct (Z.eq_dec e 0) as [->|Hne].
    + change (scale_up (0 + 1)) with 2. change (scale_down (0 + 1)) with 1.
      change (scale_down 0) with 1 in HmN. lia.
    + rewrite (scale_up_nonpos (e + 1)) by lia.
      rewrite (scale_down_succ e) in HmN by lia. lia.
  - destruct (Z.ltb_spec 971 e) as [Hbig|_]; [lia|].
    exists m, e. split; [reflexivity|]. split; [exact Hm0|].
    rewrite (scale_up_nonpos e He). lia.
Qed.

Lemma truediv_counted (s t : Z) :
  0 <= s <= t -> 0 < t ->
  truediv s t = Ok (round64 false s t)
  /\ exists m e,
       round64 false s t = Finite false m e
       /\ 0 <= m /\ m * scale_up e <= 1 * scale_down e.
Proof.
  intros Hs Ht.
  destruct (round64_bound false s t 1) as (m & e & Hr & Hm & Hle);
    [lia | lia | lia | reflexivity |].
  split; [|exists m, e; auto].
  unfold truediv. destruct (Z.eqb_spec t 0); [lia|].
  replace (s <? 0) with false by (symmetry; apply Z.ltb_ge; lia).
  replace (t <? 0) with false by (symmetry; apply Z.ltb_ge; lia).
  rewrite !Z.abs_eq by lia. cbn [xorb]. rewrite Hr. reflexivity.
Qed.

(** The rate of counters that count calls is a percentage. *)
Lemma rate_percentage (s t : Z) :
  0 <= s <= t -> 0 < t ->
  percentage (Float (times_100 (round64 false s t))).
Proof.
  intros Hs Ht.
  destruct (truediv_counted s t Hs Ht) as (_ & m & e & -> & Hm & Hle).
  unfold times_100.
  pose proof (scale_up_pos e) as Hu. pose proof (scale_down_pos e) as Hd.
  destruct (round64_bound false (m * 100 * scale_up e) (scale_down e) 100)
    as (m' & e' & -> & Hm' & Hle'); [nia | exact Hd | nia | reflexivity |].
  pose proof (scale_up_pos e') as Hu'. pose proof (scale_down_pos e') as Hd'.
  unfold percentage, value. unfold Qle. cbn [Qnum Qden].
  rewrite Z2Pos.id by exact Hd'. split; [nia | lia].
Qed.
End Floats.

Section Summary.
Import GrokPlus2.

Lemma success_rate_counted (s t : Z) :
  0 <= s <= t ->
  success_rate s t
  = Ok (if t =? 0 then Int 0
        else Float (times_100 (round64 false s t))).
Proof.
  intros Hs. unfold success_rate.
  destruct (Z.gtb_spec t 0) as [Hpos|Hle].
  - destruct (Z.eqb_spec t 0); [lia|].
    destruct (truediv_counted s t Hs ltac:(lia)) as [-> _]. reflexivity.
  - destruct (Z.eqb_spec t 0); [reflexivity | lia].
Qed.

Lemma success_rate_no_zero_division (s t : Z) :
  success_rate s t <> Raise ZeroDivisionError.
Proof.
  unfold success_rate, truediv.
  destruct (Z.gtb_spec t 0) as [Hpos|Hle]; [|discriminate].
  destruct (Z.eqb_spec t 0); [lia|].
  destruct (round64 _ _ _); cbn [res_bind]; discriminate.
Qed.

Lemma summarize_counted (stats : gmap pystr MethodStats)
    (a b c d : MethodStats) :
  stats !! u "list_metadata_objects" = Some a ->
  stats !! u "get_metadata_structure" = Some b ->
  stats !! u "list_predefined_data" = Some c ->
  stats !! u "get_predefined_data" = Some d ->
  counted a -> counted b -> counted c -> counted d ->
  summarize stats
  = Ok ([row_of (u "list_metadata_objects") a;
         row_of (u "get_metadata_structure") b;
         row_of (u "list_predefined_data") c;
         row_of (u "get_predefined_data") d],
        row_of (u "**Итого**")
          {| total := total a + total b + total c + total d;
             success := success a + success b + success c + success d;
             errors := errors a + errors b + errors c + errors d;
             skipped := skipped a + skipped b + skipped c + skipped d |}).
Proof.
  intros Ha Hb Hc Hd Na Nb Nc Nd. unfold counted in *.
  unfold summarize, methods. cbn [summary_rows].
  rewrite Ha, Hb, Hc, Hd. cbn [res_bind].
  rewrite !success_rate_counted by assumption. cbn [res_bind fst snd].
  cbn [total success errors skipped zero_stats].
  rewrite success_rate_counted by lia. cbn [res_bind].
  unfold row_of. cbn [total success errors skipped].
  replace (0 + total a + total b + total c + total d)
    with (total a + total b + total c + total d) by lia.
  replace (0 + success a + success b + success c + success d)
    with (success a + success b + success c + success d) by lia.
  replace (0 + errors a + errors b + errors c + errors d)
    with (errors a + errors b + errors c + errors d) by lia.
  replace (0 + skipped a + skipped b + skipped c + skipped d)
    with (skipped a + skipped b + skipped c + skipped d) by lia.
  reflexivity.
Qed.

(** C8. When the four methods have counters that count calls, the
    summary is made of one row per method, in the order
    [list_metadata_objects], [get_metadata_structure],
    [list_predefined_data], [get_predefined_data], and of a last row that
    sums the counters of the four.  The rate of a row is the [int] 0 when
    its [total] is 0, and otherwise the [float] Python computes for
    [success / total * 100]: the quotient rounded to the nearest double,
    then its product by 100 rounded again, a number from 0 to 100.  No
    counters make the rate fail with a division by zero. *)
Theorem summarize_rows (stats : gmap pystr MethodStats)
    (a b c d : MethodStats) :
  stats !! u "list_metadata_objects" = Some a ->
  stats !! u "get_metadata_structure" = Some b ->
  stats !! u "list_predefined_data" = Some c ->
  stats !! u "get_predefined_data" = Some d ->
  counted a -> counted b -> counted c -> counted d ->
  summarize stats
  = Ok ([row_of (u "list_metadata_objects") a;
         row_of (u "get_metadata_structure") b;
         row_of (u "list_predefined_data") c;
         row_of (u "get_predefined_data") d],
        row_of (u "**Итого**")
          {| total := total a + total b + total c + total d;
             success := success a + success b + success c + success d;
             errors := errors a + errors b + errors c + errors d;
             skipped := skipped a + skipped b + skipped c + skipped d |})
  /\ (forall s t, t <= 0 -> success_rate s t = Ok (Int 0))
  /\ (forall s t, success_rate s t <> Raise ZeroDivisionError)
  /\ (forall s t, 0 <= s <= t -> 0 < t ->
        success_rate s t = Ok (Float (times_100 (round64 false s t)))
        /\ truediv s t = Ok (round64 false s t)
        /\ percentage (Float (times_100 (round64 false s t)))).
Proof.
  intros Ha Hb Hc Hd Na Nb Nc Nd. split; [|split; [|split]].
  - apply summarize_counted; assumption.
  - intros s t Ht. unfold success_rate.
    destruct (Z.gtb_spec t 0); [lia | reflexivity].
  - apply success_rate_no_zero_division.
  - intros s t Hs Ht. split; [|split].
    + rewrite success_rate_counted by exact Hs.
      destruct (Z.eqb_spec t 0); [lia | reflexivity].
    + apply truediv_counted; assumption.
    + apply rate_percentage; assumption.
Qed.
End Summary.

Lemma summarize_rows_witness :
  exists rows last,
    GrokPlus2.summarize Scenario.tally = Ok (rows, last)
    /\ map GrokPlus2.row_method rows = GrokPlus2.methods
    /\ map GrokPlus2.row_rate rows
       = [Float (Finite false 4691249611844266 (-47));
          Float (Finite false 5473124547151645 (-46));
          Float (Finite false 7036874417766400 (-46));
          Int 0]
    /\ GrokPlus2.row_total last = 19
    /\ GrokPlus2.row_rate last = Float (Finite false 5555427171920842 (-46)).
Proof.
  destruct (summarize_rows Scenario.tally
              {| GrokPlus2.total := 3; GrokPlus2.success := 1;
                 GrokPlus2.errors := 1; GrokPlus2.skipped := 1 |}
              {| GrokPlus2.total := 9; GrokPlus2.success := 7;
                 GrokPlus2.errors := 2; GrokPlus2.skipped := 0 |}
              {| GrokPlus2.total := 7; GrokPlus2.success := 7;
                 GrokPlus2.errors := 0; GrokPlus2.skipped := 0 |}
              GrokPlus2.zero_stats)
    as [Hsum _];
    [vm_compute; reflexivity .. | | | | |];
    [unfold GrokPlus2.counted; cbn; lia .. |].
  eexists _, _. split; [exact Hsum|].
  split; [reflexivity|]. split; [vm_compute; reflexivity|].
  split; vm_compute; reflexivity.
Defined.

(** ** The transport *)

Lemma str_eqb_refl (a : pystr) : str_eqb a a = true.
Proof. induction a as [|x a IH]; simpl; [|rewrite N.eqb_refl]; auto. Qed.

Lemma str_eqb_eq (a b : pystr) : str_eqb a b = true <-> a = b.
Proof.
  split; [|intros ->; apply str_eqb_refl].
  revert b. induction a as [|x a IH]; intros [|y b]; simpl; try discriminate.
  - reflexivity.
  - intros [Hxy Hab]%andb_prop. apply N.eqb_eq in Hxy. f_equal; auto.
Qed.

Section Transport.
Context {py : PyLib} {W : Type} {svc : World W}.
Import GrokPlus2.

Lemma make_request_run (c : MCPClient) (method : pystr) (params : json)
    (s : St W) :
  let req := build_request c (fst (uuid4 (world s))) method params in
  let ow := http_post req (snd (uuid4 (world s))) in
  _make_request c method params s
  = (Ok (handle_outcome (fst ow)),
     {| world := snd ow; sent := sent s ++ [req]; logged := logged s |}).
Proof.
  unfold _make_request, bind, draw, post, ret.
  destruct (uuid4 (world s)) as [id w1]. simpl.
  destruct (http_post _ w1) as [o w2]. reflexivity.
Qed.

End Transport.



(** ** The dispatcher *)

Section Dispatcher.
Context {py : PyLib}.

Lemma text_items_spec (items : list json) (kept : list ContentItem) :
  GrokPlus2.text_items items = Ok kept -> kept = kept_texts items.
Proof.
  unfold kept_texts.
  revert kept. induction items as [|item rest IH]; intros kept.
  - intros [= <-]. reflexivity.
  - cbn [GrokPlus2.text_items List.filter].
    destruct item as [| | | | |fields]; cbn [py_get res_bind]; try discriminate.
    unfold is_text_item at 1. unfold dict_get_default at 1.
    destruct (dict_get (u "type") fields) as [t|].
    + destruct (eq_str t (u "text")) eqn:Et; [|apply IH].
      change (omap ?f (?x :: ?l)) with
        (match f x with Some y => y :: omap f l | None => omap f l end).
      cbn [text_of_item].
      destruct (dict_get_default (u "text") (JStr []) fields);
        cbn [as_str res_bind fmap option_fmap option_map]; try discriminate.
      destruct (GrokPlus2.text_items rest) as [more|]; cbn [res_bind];
        [|discriminate].
      intros [= <-]. f_equal. apply IH. reflexivity.
    + cbn [eq_str]. apply IH.
Qed.
End Dispatcher.

Section SseDispatcher.
Context {py : PyLib}.

Lemma content_items_spec (items : list json) (kept : list ContentItem) :
  Sse.content_items items = Ok kept -> kept = omap sse_item items.
Proof.
  revert kept. induction items as [|item rest IH]; intros kept.
  - intros [= <-]. reflexivity.
  - cbn [Sse.content_items].
    change (omap ?f (?x :: ?l)) with
      (match f x with Some y => y :: omap f l | None => omap f l end).
    destruct item as [| | | | |fields]; cbn [py_get res_bind]; try discriminate.
    unfold sse_item at 1. unfold dict_get_default.
    destruct (dict_get (u "type") fields) as [t|]; [|cbn [eq_str]; apply IH].
    destruct (eq_str t (u "text")) eqn:Et.
    + destruct (dict_get (u "text") fields) as [[]|];
        cbn [as_str res_bind]; try discriminate;
        (destruct (Sse.content_items rest) as [more|]; cbn [res_bind];
         [|discriminate]; intros [= <-]; f_equal; apply IH; reflexivity).
    + destruct (eq_str t (u "image")) eqn:Ei; [|apply IH].
      destruct (dict_get (u "data") fields) as [[]|];
        destruct (dict_get (u "mimeType") fields) as [[]|];
        cbn [as_str res_bind]; try discriminate;
        (destruct (Sse.content_items rest) as [more|]; cbn [res_bind];
         [|discriminate]; intros [= <-]; f_equal; apply IH; reflexivity).
Qed.
End SseDispatcher.

Section Calls.
Context {py : PyLib} {W : Type} {svc : World W}.
Import GrokPlus2.

Lemma call_tool_run (c : MCPClient) (name : pystr) (arguments : json)
    (s : St W) :
  let req := build_request c (fst (uuid4 (world s))) (u "tools/call")
               (tool_params name arguments) in
  let ow := http_post req (snd (uuid4 (world s))) in
  call_tool c name arguments s
  = (tool_result (handle_outcome (fst ow)),
     {| world := snd ow; sent := sent s ++ [req]; logged := logged s |}).
Proof.
  intros req ow. unfold call_tool, bind. rewrite make_request_run.
  reflexivity.
Qed.

Lemma tool_result_error (items : list (pystr * json)) (e : json) :
  dict_get (u "error") items = Some e ->
  tool_result (JObj items)
  = Ok {| content := [TextContent (u "Error: " ++ py_str e)];
          isError := true |}.
Proof.
  intros He. unfold tool_result, py_in, dict_has, py_getitem.
  rewrite He. reflexivity.
Qed.

Lemma tool_result_success (items : list (pystr * json)) (r : CallToolResult) :
  dict_has (u "error") items = false ->
  tool_result (JObj items) = Ok r ->
  content r = kept_texts (content_array (JObj items)) /\ isError r = false.
Proof.
  intros He. unfold tool_result, py_in. rewrite He. cbn [res_bind py_get].
  unfold content_array.
  destruct (dict_get_default (u "result") (JObj []) items)
    as [| | | | |result_data]; cbn [py_get res_bind]; try discriminate.
  destruct (dict_get_default (u "content") (JArr []) result_data)
    as [| | |t|xs|fields]; cbn [py_iter res_bind]; try discriminate.
  - destruct t as [|ch t]; cbn [map text_items py_get res_bind];
      [|discriminate].
    intros [= <-]. split; reflexivity.
  - destruct (text_items xs) as [kept|] eqn:Ek; cbn [res_bind];
      [|discriminate].
    intros [= <-]. split; [|reflexivity]. apply text_items_spec, Ek.
  - destruct fields as [|kv fields]; cbn [map text_items py_get res_bind];
      [|discriminate].
    intros [= <-]. split; reflexivity.
Qed.

Lemma sse_tool_result_success (items : list (pystr * json))
    (r : CallToolResult) :
  dict_has (u "error") items = false ->
  Sse.tool_result (JObj items) = Ok r ->
  content r = omap sse_item (content_array (JObj items))
  /\ Sse.as_bool (payload_isError (JObj items)) = Ok (isError r).
Proof.
  intros He. unfold Sse.tool_result, py_in. rewrite He.
  cbn [res_bind py_get]. unfold content_array, payload_isError.
  destruct (dict_get_default (u "result") (JObj []) items)
    as [| | | | |result_data]; cbn [py_get res_bind]; try discriminate.
  destruct (dict_get_default (u "content") (JArr []) result_data)
    as [| | |t|xs|fields]; cbn [py_iter res_bind]; try discriminate.
  - destruct t as [|ch t]; cbn [map Sse.content_items py_get res_bind];
      [|discriminate].
    destruct (Sse.as_bool _) as [b|]; cbn [res_bind]; [|discriminate].
    intros [= <-]. split; reflexivity.
  - destruct (Sse.content_items xs) as [kept|] eqn:Ek; cbn [res_bind];
      [|discriminate].
    destruct (Sse.as_bool _) as [b|]; cbn [res_bind]; [|discriminate].
    intros [= <-]. split; [|reflexivity]. apply content_items_spec, Ek.
  - destruct fields as [|kv fields];
      cbn [map Sse.content_items py_get res_bind]; [|discriminate].
    destruct (Sse.as_bool _) as [b|]; cbn [res_bind]; [|discriminate].
    intros [= <-]. split; reflexivity.
Qed.

(** C4, as the code has it.  When [_make_request] returns a dict with
    an ["error"] key, [call_tool] returns the single item
    [Text("Error: <message>")] with [isError] true.  When it returns a dict
    without that key and [call_tool] returns a result, the content is made
    of the text items of the content array, in order, and [isError] is
    false whatever the payload says.  The SSE client of [testMCP.py] builds
    its result differently: it keeps the text and the image items, and its
    [isError] is the payload's ["isError"] field, false when the field is
    absent. *)
Theorem call_tool_result (c : MCPClient) (name : pystr) (arguments : json)
    (s : St W) (items : list (pystr * json)) :
  let req := build_request c (fst (uuid4 (world s))) (u "tools/call")
               (tool_params name arguments) in
  let response := handle_outcome (fst (http_post req (snd (uuid4 (world s))))) in
  response = JObj items ->
  (forall e, dict_get (u "error") items = Some e ->
     fst (call_tool c name arguments s)
     = Ok {| content := [TextContent (u "Error: " ++ py_str e)];
             isError := true |})
  /\ (forall r, dict_has (u "error") items = false ->
        fst (call_tool c name arguments s) = Ok r ->
        content r = kept_texts (content_array response)
        /\ isError r = false)
  /\ (forall r, dict_has (u "error") items = false ->
        Sse.tool_result response = Ok r ->
        content r = omap sse_item (content_array response)
        /\ Sse.as_bool (payload_isError response) = Ok (isError r))
  /\ (forall e, dict_get (u "error") items = Some e ->
        Sse.tool_result response
        = Ok {| content := [TextContent (u "Error: " ++ py_str e)];
                isError := true |}).
Proof.
  intros req response Hresp. rewrite call_tool_run. fold req. fold response.
  cbn [fst]. rewrite Hresp. repeat split.
  - intros e He. apply tool_result_error, He.
  - apply (tool_result_success items r); assumption.
  - apply (tool_result_success items r); assumption.
  - apply (sse_tool_result_success items r); assumption.
  - apply (sse_tool_result_success items r); assumption.
  - intros e He. unfold Sse.tool_result, py_in, dict_has, py_getitem.
    rewrite He. reflexivity.
Qed.
End Calls.

(** C4 fails as it is worded: for a payload whose ["isError"] is true,
    the client of [testMCP_grok_plus_2.py] returns a result whose
    [isError] is false; and the client of [testMCP.py], which does read the
    field, keeps an image item in the content. *)
Lemma call_tool_ignores_isError :
  fst (GrokPlus2.call_tool (py := Script.lib [Script.failed_tool_response])
         (svc := Script.service)
         (GrokPlus2.new_client (u "http://127.0.0.1:8000") None)
         (u "get_metadata_structure") (JObj [])
         (Script.start
            [Script.reply 200 (Script.dumps Script.failed_tool_response) []]))
  = Ok {| content := [TextContent (u "boom")]; isError := false |}
  /\ payload_isError Script.failed_tool_response = JBool true
  /\ Sse.tool_result (py := Script.lib []) Script.image_response
     = Ok {| content := [ImageContent (u "iVBORw0KGgo=") (u "image/png")];
             isError := false |}.
Proof. vm_compute. repeat split. Qed.

Lemma call_tool_result_witness :
  fst (GrokPlus2.call_tool (py := Script.lib []) (svc := Script.service)
         (GrokPlus2.new_client (u "http://127.0.0.1:8000") None)
         (u "list_metadata_objects") (JObj [])
         (Script.start [Failed (u "timed out")]))
  = Ok {| content := [TextContent (u "Error: timed out")]; isError := true |}.
Proof.
  apply (proj1 (call_tool_result (py := Script.lib []) (svc := Script.service)
                  (GrokPlus2.new_client (u "http://127.0.0.1:8000") None)
                  (u "list_metadata_objects") (JObj [])
                  (Script.start [Failed (u "timed out")])
                  [(u "error", JStr (u "timed out"))] eq_refl)
               (JStr (u "timed out"))).
  reflexivity.
Defined.

(** ** The client of testMCP_gpt.py *)

Section GptSession.
Context {py : PyLib} {W : Type} {svc : World W}.
Import Gpt.

Lemma gpt_initialize_run (c : MCPClient) (s : St W) :
  let req := {| url := base_url c ++ u "/mcp/initialize";
                req_headers := json_headers ++ auth_headers c;
                body := initialize_payload |} in
  exists ok,
    initialize_session c s
    = (Ok (ok, c),
       {| world := snd (http_post req (world s)); sent := sent s ++ [req];
          logged := logged s |}).
Proof.
  intros req. unfold initialize_session, bind, post, ret. fold req.
  destruct (http_post req (world s)) as [o w]. cbn [snd].
  destruct o as [cause|resp|cause]; [eauto| |eauto].
  destruct (handshake_text (text resp)) as [t|]; [|eauto].
  destruct (json_loads t) as [e|data]; [eauto|].
  destruct (read_handshake data) as [[|]|]; eauto.
Qed.

Lemma gpt_call_tool_refused (c : MCPClient) (name : pystr) (arguments : json)
    (s : St W) :
  session_id c = None ->
  call_tool c name arguments s = (Ok refused, s).
Proof.
  intros Hs. unfold call_tool, _make_request, bind. rewrite Hs.
  vm_compute. reflexivity.
Qed.

Lemma gpt_iteration_run (c : MCPClient) (s : St W) :
  session_id c = None ->
  exists s' e,
    iteration c s = (Ok tt, s')
    /\ sent s' = sent s
    /\ logged s' = logged s ++ [e]
    /\ log_result e = error_value (u "Error: Session not initialized").
Proof.
  intros Hs. unfold iteration, bind, choice, randint, meta_types.
  cbn [length].
  destruct (randbelow 5 (world s)) as [i1 w1]. cbn [world sent logged].
  destruct (randbelow 3 w1) as [i2 w2]. cbn [world sent logged].
  destruct (randbelow (Z.to_nat (30 - 1 + 1)) w2) as [i3 w3].
  cbn [world sent logged].
  unfold test_list_metadata_objects, bind.
  rewrite gpt_call_tool_refused by exact Hs.
  unfold lift, write_log.
  replace (payload_of refused)
    with (Ok (error_value (u "Error: Session not initialized")))
    by (vm_compute; reflexivity).
  cbn [world sent logged].
  eexists _, _. split; [reflexivity|]. cbn [sent logged log_result].
  repeat split.
Qed.

Lemma gpt_iterations_run (c : MCPClient) (n : nat) (s : St W) :
  session_id c = None ->
  exists s' es,
    iterations c n s = (Ok tt, s')
    /\ sent s' = sent s
    /\ logged s' = logged s ++ es
    /\ Forall (fun e => log_result e
                        = error_value (u "Error: Session not initialized")) es.
Proof.
  intros Hs. revert s. induction n as [|n IH]; intros s.
  - exists s, []. split; [reflexivity|]. split; [reflexivity|].
    split; [rewrite app_nil_r; reflexivity | constructor].
  - destruct (gpt_iteration_run c s Hs) as (s1 & e & Hrun & Hsent & Hlog & He).
    destruct (IH s1) as (s2 & es & Hrun2 & Hsent2 & Hlog2 & Hes).
    exists s2, (e :: es). cbn [iterations]. unfold bind. rewrite Hrun, Hrun2.
    split; [reflexivity|]. split; [congruence|].
    split; [|constructor; assumption].
    rewrite Hlog2, Hlog, <- app_assoc. reflexivity.
Qed.

(** C10. In [testMCP_gpt.py] the handshake never gives the client a
    session id, so every [call_tool] of a run returns
    [Text("Error: Session not initialized")] with [isError] true and posts
    nothing: the only request of a whole run is the handshake, no tool is
    ever called, and every record of the log holds that error. *)
Theorem gpt_every_call_refused (url : pystr) (token : option pystr)
    (s : St W) :
  let c := new_client url token in
  let handshake := {| url := url ++ u "/mcp/initialize";
                      req_headers := json_headers ++ auth_headers c;
                      body := initialize_payload |} in
  let final := snd (run_tests_async url token s) in
  (forall ok c' s', initialize_session c s = (Ok (ok, c'), s') ->
     session_id c' = None)
  /\ (forall c' name arguments s',
        session_id c' = None ->
        call_tool c' name arguments s'
        = (Ok {| content := [TextContent (u "Error: Session not initialized")];
                 isError := true |}, s'))
  /\ sent final = sent s ++ [handshake]
  /\ tools_called s final = []
  /\ exists es,
       logged final = logged s ++ es
       /\ Forall (fun e => log_result e
                           = error_value (u "Error: Session not initialized"))
                 es.
Proof.
  intros c handshake final.
  destruct (gpt_initialize_run c s) as [ok Hinit]. cbn [base_url c] in Hinit.
  fold handshake in Hinit.
  assert (Hfinal : sent final = sent s ++ [handshake]
                   /\ exists es,
                        logged final = logged s ++ es
                        /\ Forall (fun e => log_result e
                                     = error_value
                                         (u "Error: Session not initialized"))
                                  es).
  { unfold final, run_tests_async, bind. fold c. rewrite Hinit. cbn [fst snd].
    destruct ok.
    - match goal with
      | |- context [iterations c 10 ?s1] =>
          destruct (gpt_iterations_run c 10 s1 eq_refl)
            as (s2 & es & Hrun & Hsent & Hlog & Hes)
      end.
      rewrite Hrun. cbn [snd ret]. split; [exact Hsent|].
      exists es. split; [exact Hlog | exact Hes].
    - cbn [snd ret sent logged]. split; [reflexivity|].
      exists []. split; [rewrite app_nil_r; reflexivity | constructor]. }
  destruct Hfinal as [Hsent Hlogs].
  split; [|split; [|split; [|split]]].
  - intros ok' c' s' Hrun. rewrite Hinit in Hrun. injection Hrun as _ <- _.
    reflexivity.
  - intros c' name arguments s' Hs. apply gpt_call_tool_refused, Hs.
  - exact Hsent.
  - unfold tools_called. rewrite Hsent, drop_app_length. reflexivity.
  - exact Hlogs.
Qed.
End GptSession.

Lemma gpt_every_call_refused_witness :
  Gpt.call_tool (py := Script.lib []) (svc := Script.service)
    (Gpt.new_client (u "http://127.0.0.1:8000") None)
    (u "list_metadata_objects") (JObj [])
    (Script.start [Script.reply 200 (u "{}") []])
  = (Ok {| content := [TextContent (u "Error: Session not initialized")];
           isError := true |},
     Script.start [Script.reply 200 (u "{}") []]).
Proof.
  apply (gpt_every_call_refused (py := Script.lib []) (svc := Script.service)
           (u "http://127.0.0.1:8000") None (Script.start [])).
  reflexivity.
Defined.

(** ** The session *)

Section Session.
Context {py : PyLib} {W : Type} {svc : World W}.
Import GrokPlus2.

Lemma initialize_session_true (c c' : MCPClient) (s s' : St W)
    (resp : Response) :
  let handshake := {| url := base_url c ++ u "/mcp/initialize";
                      req_headers := json_headers ++ auth_headers c;
                      body := initialize_payload |} in
  fst (http_post handshake (world s)) = Received resp ->
  initialize_session c s = (Ok (true, c'), s') ->
  c' = {| base_url := base_url c; auth_token := auth_token c;
          session_id := headers_get (u "Mcp-Session-Id") (headers resp) |}
  /\ exists data, decode_body resp = inr data
                  /\ read_handshake data = Ok true.
Proof.
  intros handshake Hpost. unfold initialize_session, bind, post, ret.
  fold handshake. destruct (http_post handshake (world s)) as [o w].
  cbn [fst] in Hpost. subst o.
  destruct (decode_body resp) as [e|data]; [intros [= ? ?]; discriminate|].
  destruct (read_handshake data) as [[|]|] eqn:Ehs;
    intros [= ? ?]; try discriminate.
  subst. split; [reflexivity | eauto].
Qed.

Lemma no_session_header (c : MCPClient) (id method : pystr) (params : json) :
  nonempty (session_id c) = None ->
  headers_get (u "Mcp-Session-Id")
    (req_headers (build_request c id method params)) = None.
Proof.
  intros Hs. unfold build_request, session_headers, auth_headers.
  cbn [req_headers]. rewrite Hs.
  destruct (nonempty (auth_token c)); vm_compute; reflexivity.
Qed.

(** C5. When the handshake succeeds and its response carries no
    [Mcp-Session-Id] header, the client is left without a session id, and
    every later tool request is posted all the same, with no such header;
    what comes back is handled as for any request, and the decoded body of
    a good response is returned as it is. *)
Theorem sessionless_requests_are_sent (c c' : MCPClient) (s s' : St W)
    (resp : Response) :
  let handshake := {| url := base_url c ++ u "/mcp/initialize";
                      req_headers := json_headers ++ auth_headers c;
                      body := initialize_payload |} in
  fst (http_post handshake (world s)) = Received resp ->
  initialize_session c s = (Ok (true, c'), s') ->
  headers_get (u "Mcp-Session-Id") (headers resp) = None ->
  session_id c' = None
  /\ forall (method : pystr) (params : json) (s1 : St W),
       let req := build_request c' (fst (uuid4 (world s1))) method params in
       let o := fst (http_post req (snd (uuid4 (world s1)))) in
       headers_get (u "Mcp-Session-Id") (req_headers req) = None
       /\ sent (snd (_make_request c' method params s1)) = sent s1 ++ [req]
       /\ fst (_make_request c' method params s1) = Ok (handle_outcome o)
       /\ (forall r data, o = Received r ->
             200 <= status_code r <= 299 ->
             decode_body r = inr data ->
             fst (_make_request c' method params s1) = Ok data)
       /\ (forall name arguments,
             method = u "tools/call" ->
             params = tool_params name arguments ->
             fst (call_tool c' name arguments s1)
             = tool_result (handle_outcome o)).
Proof.
  intros handshake Hpost Hinit Hnone.
  destruct (initialize_session_true c c' s s' resp Hpost Hinit) as [Hc' _].
  rewrite Hnone in Hc'. subst c'. split; [reflexivity|].
  intros method params s1 req o.
  split; [apply no_session_header; reflexivity|].
  rewrite make_request_run. fold req. fold o. cbn [fst snd sent].
  split; [reflexivity|]. split; [reflexivity|]. split.
  - intros r data -> Hst Hdec. unfold handle_outcome, is_success.
    destruct (Z.leb_spec 200 (status_code r)), (Z.leb_spec (status_code r) 299);
      simpl; try lia. rewrite Hdec. reflexivity.
  - intros name arguments Hm Hp. rewrite call_tool_run. cbn [fst].
    unfold o, req. rewrite Hm, Hp. reflexivity.
Qed.
End Session.

Lemma sessionless_requests_are_sent_witness :
  exists c' s',
    GrokPlus2.initialize_session
      (py := Script.lib [Script.handshake_response]) (svc := Script.service)
      (GrokPlus2.new_client (u "http://127.0.0.1:8000") None)
      (Script.start
         [Script.reply 200 (Script.dumps Script.handshake_response) []])
    = (Ok (true, c'), s')
    /\ session_id c' = None.
Proof.
  eexists _, _. split; [vm_compute; reflexivity|].
  eapply (sessionless_requests_are_sent
            (py := Script.lib [Script.handshake_response])
            (svc := Script.service)
            (GrokPlus2.new_client (u "http://127.0.0.1:8000") None) _
            (Script.start
               [Script.reply 200 (Script.dumps Script.handshake_response) []])
            _
            (Script.answer 200 (Script.dumps Script.handshake_response)
               []));
    vm_compute; reflexivity.
Defined.

(** ** Rounds *)

Create HintDb grows.

Section Rounds.
Context {py : PyLib} {W : Type} {svc : World W}.
Import GrokPlus2.

Lemma bind_ok {A B} (m : IO W A) (k : A -> IO W B) (s s1 : St W) (a : A) :
  m s = (Ok a, s1) -> bind m k s = k a s1.
Proof. intros Hm. unfold bind. rewrite Hm. reflexivity. Qed.

Lemma bind_raise {A B} (m : IO W A) (k : A -> IO W B) (s s1 : St W)
    (e : exn) :
  m s = (Raise e, s1) -> bind m k s = (Raise e, s1).
Proof. intros Hm. unfold bind. rewrite Hm. reflexivity. Qed.

Lemma grows_ret {A} (a : A) : grows (ret (W := W) a).
Proof. intros s. exists []. cbn. rewrite app_nil_r. reflexivity. Qed.

Lemma grows_lift {A} (r : res A) : grows (lift (W := W) r).
Proof. intros s. exists []. cbn. rewrite app_nil_r. reflexivity. Qed.

Lemma grows_bind {A B} (m : IO W A) (k : A -> IO W B) :
  grows m -> (forall a, grows (k a)) -> grows (bind m k).
Proof.
  intros Hm Hk s. unfold bind.
  destruct (Hm s) as [more1 H1].
  destruct (m s) as [[a|e] s1]; cbn [snd] in *.
  - destruct (Hk a s1) as [more2 H2]. exists (more1 ++ more2).
    rewrite H2, H1, app_assoc. reflexivity.
  - exists more1. exact H1.
Qed.

Lemma grows_draw {A} (f : W -> A * W) : grows (draw f).
Proof.
  intros s. unfold draw. destruct (f (world s)). exists []. cbn.
  rewrite app_nil_r. reflexivity.
Qed.

Lemma grows_choice {A} (xs : list A) : grows (choice xs).
Proof.
  intros s. unfold choice. destruct xs as [|x xs'].
  - exists []. cbn. rewrite app_nil_r. reflexivity.
  - destruct (randbelow _ (world s)). exists []. cbn.
    rewrite app_nil_r. reflexivity.
Qed.

Lemma grows_randint (lo hi : Z) : grows (randint lo hi).
Proof.
  intros s. unfold randint. destruct (randbelow _ (world s)). exists []. cbn.
  rewrite app_nil_r. reflexivity.
Qed.

Lemma grows_sample {A} (xs : list A) (k : nat) : grows (sample xs k).
Proof.
  intros s. unfold sample. destruct (length xs <? k)%nat.
  - exists []. cbn. rewrite app_nil_r. reflexivity.
  - destruct (sample_order _ (world s)). exists []. cbn.
    rewrite app_nil_r. reflexivity.
Qed.

Lemma grows_log (n : Z) (api : pystr) (params result : json) :
  grows (log_test (W := W) n api params result).
Proof. intros s. exists []. cbn. rewrite app_nil_r. reflexivity. Qed.

Lemma grows_call_tool (c : MCPClient) (name : pystr) (arguments : json) :
  grows (call_tool c name arguments).
Proof. intros s. rewrite call_tool_run. eexists. reflexivity. Qed.

Lemma grows_for_each {A S} (body : S -> A -> IO W S) (xs : list A) :
  (forall s x, grows (body s x)) -> forall s, grows (for_each body s xs).
Proof.
  intros Hbody. induction xs as [|x xs IH]; intros s; cbn [for_each].
  - apply grows_ret.
  - apply grows_bind; [apply Hbody | intros s'; apply IH].
Qed.

#[local] Hint Resolve grows_ret grows_lift grows_draw grows_choice grows_randint
  grows_sample grows_log grows_call_tool : grows.

Ltac grows_step :=
  repeat (first [ solve [auto with grows] | apply grows_bind; [|intros ?] ]).

Lemma grows_predefined_detail (c : MCPClient) (n : Z) (meta_type : pystr)
    (object_name : json) (stats : gmap pystr MethodStats) (item : json) :
  grows (predefined_detail c n meta_type object_name stats item).
Proof.
  unfold predefined_detail. destruct (truthy (name_of item)).
  - unfold test_get_predefined_data. grows_step.
  - apply grows_ret.
Qed.

(** One [test_*] call: the request it posts names the tool, and what it
    returns is the payload made of the tool result. *)
Lemma wrapper_run (c : MCPClient) (name : pystr) (arguments : json)
    (s : St W) :
  exists req s1,
    bind (call_tool c name arguments) (fun r => lift (payload_of r)) s
    = (res_bind
         (tool_result
            (handle_outcome
               (fst (http_post req (snd (uuid4 (world s)))))))
         payload_of,
       s1)
    /\ sent s1 = sent s ++ [req]
    /\ logged s1 = logged s
    /\ tool_of req = Some name.
Proof.
  set (req := build_request c (fst (uuid4 (world s))) (u "tools/call")
                (tool_params name arguments)).
  exists req,
    {| world := snd (http_post req (snd (uuid4 (world s))));
       sent := sent s ++ [req]; logged := logged s |}.
  unfold bind. rewrite call_tool_run. fold req. split; [|split; [|split]].
  - unfold lift. destruct (tool_result _); reflexivity.
  - reflexivity.
  - reflexivity.
  - vm_compute. reflexivity.
Qed.
Lemma bind_inv {A B} (m : IO W A) (k : A -> IO W B) (s s2 : St W) (b : B) :
  bind m k s = (Ok b, s2) ->
  exists a s1, m s = (Ok a, s1) /\ k a s1 = (Ok b, s2).
Proof.
  unfold bind. destruct (m s) as [[a|e] s1]; [eauto | discriminate].
Qed.

Lemma quiet_draw {A} (f : W -> A * W) : quiet (draw f).
Proof. intros s. unfold draw. destruct (f (world s)). reflexivity. Qed.

Lemma quiet_choice {A} (xs : list A) : quiet (choice xs).
Proof.
  intros s. unfold choice. destruct xs; [reflexivity|].
  destruct (randbelow _ (world s)). reflexivity.
Qed.

Lemma quiet_randint (lo hi : Z) : quiet (randint lo hi).
Proof.
  intros s. unfold randint. destruct (randbelow _ (world s)). reflexivity.
Qed.

Lemma quiet_log (n : Z) (api : pystr) (params result : json) :
  quiet (log_test (W := W) n api params result).
Proof. intros s. reflexivity. Qed.

Lemma quiet_at {A} (m : IO W A) (s s1 : St W) (r : res A) :
  quiet m -> m s = (r, s1) -> sent s1 = sent s.
Proof. intros Hq Hm. specialize (Hq s). rewrite Hm in Hq. exact Hq. Qed.

Lemma wrapper_sent (c : MCPClient) (name : pystr) (arguments : json)
    (s s1 : St W) (r : res json) :
  bind (call_tool c name arguments) (fun r => lift (payload_of r)) s = (r, s1) ->
  exists req, sent s1 = sent s ++ [req] /\ tool_of req = Some name.
Proof.
  intros Hrun.
  destruct (wrapper_run c name arguments s) as (req & s' & Hw & Hs & _ & Ht).
  rewrite Hw in Hrun. injection Hrun as _ <-. eauto.
Qed.

Lemma list_step_run (c : MCPClient) (n : Z) (s s1 : St W)
    (listing : pystr * Z * json) :
  list_step c n s = (Ok listing, s1) ->
  exists req,
    sent s1 = sent s ++ [req]
    /\ tool_of req = Some (u "list_metadata_objects").
Proof.
  unfold list_step. intros Hrun.
  apply bind_inv in Hrun as (weighted & sa & Ha & Hrun).
  apply bind_inv in Hrun as (meta_type & sb & Hb & Hrun).
  apply bind_inv in Hrun as (mask & sc & Hc & Hrun).
  apply bind_inv in Hrun as (max_items & sd & Hd & Hrun).
  apply bind_inv in Hrun as (list_result & se & He & Hrun).
  apply bind_inv in Hrun as (x & sf & Hf & Hrun).
  injection Hrun as _ <-.
  apply (quiet_at _ _ _ _ (quiet_draw _)) in Ha.
  apply (quiet_at _ _ _ _ (quiet_choice _)) in Hb.
  apply (quiet_at _ _ _ _ (quiet_choice _)) in Hc.
  apply (quiet_at _ _ _ _ (quiet_randint _ _)) in Hd.
  apply (quiet_at _ _ _ _ (quiet_log _ _ _ _)) in Hf.
  apply wrapper_sent in He as (req & He & Ht).
  exists req. split; [congruence | exact Ht].
Qed.

Lemma after_listing_stops (c : MCPClient) (n : Z) (meta_type : pystr)
    (max_items : Z) (list_result : json) (stats : gmap pystr MethodStats)
    (s : St W) :
  classify list_result = Ok Error
  \/ classify list_result = Ok Skipped
  \/ (classify list_result = Ok Success
      /\ parse_listing list_result = Ok []) ->
  snd (after_listing c n meta_type max_items list_result stats s) = s.
Proof.
  intros Hgate. unfold after_listing, bind, lift, ret.
  destruct (incr_total _ stats) as [stats1|]; [|reflexivity].
  destruct Hgate as [Hc|[Hc|[Hc Hp]]]; rewrite Hc;
    destruct (incr_outcome _ _ stats1) as [stats2|]; try reflexivity.
  rewrite Hp. reflexivity.
Qed.

(** C6. The listing gates the round.  When the payload of
    [list_metadata_objects] is counted as an error or as skipped, or when
    no object is read from it, the round ends where the listing left it:
    the only tool called in the round is [list_metadata_objects].  The
    payload [{"result": ""}], which is what an empty text becomes, is
    counted as skipped. *)
Theorem listing_gates_round (c : MCPClient) (n : Z)
    (stats : gmap pystr MethodStats) (s s1 : St W)
    (meta_type : pystr) (max_items : Z) (list_result : json) :
  list_step c n s = (Ok (meta_type, max_items, list_result), s1) ->
  classify list_result = Ok Error
  \/ classify list_result = Ok Skipped
  \/ (classify list_result = Ok Success
      /\ parse_listing list_result = Ok []) ->
  snd (round c n stats s) = s1
  /\ tools_called s (snd (round c n stats s)) = [u "list_metadata_objects"]
  /\ classify (JObj [(u "result", JStr [])]) = Ok Skipped
  /\ (forall cause, json_loads [] = inl cause ->
        payload_of {| content := [TextContent []]; isError := false |}
        = Ok (JObj [(u "result", JStr [])])
        /\ payload_of {| content := []; isError := false |}
           = Ok (JObj [(u "result", JStr [])])).
Proof.
  intros Hlist Hgate.
  assert (Hround : snd (round c n stats s) = s1).
  { unfold round. rewrite (bind_ok _ _ _ _ _ Hlist). cbn [fst snd].
    apply after_listing_stops, Hgate. }
  split; [exact Hround|]. split; [|split].
  - rewrite Hround. apply list_step_run in Hlist as (req & Hs & Ht).
    unfold tools_called. rewrite Hs, drop_app_length. cbn [omap list_omap].
    rewrite Ht. reflexivity.
  - vm_compute. reflexivity.
  - intros cause Hc. unfold payload_of. cbn [isError content item_text res_bind].
    rewrite Hc. split; reflexivity.
Qed.
Lemma grows_after_predefined_listing (c : MCPClient) (n : Z)
    (meta_type : pystr) (object_name : json) (predefined_list_result : json)
    (stats : gmap pystr MethodStats) :
  grows (after_predefined_listing c n meta_type object_name
           predefined_list_result stats).
Proof.
  unfold after_predefined_listing.
  apply grows_bind; [auto with grows | intros stats1].
  apply grows_bind; [auto with grows | intros v].
  apply grows_bind; [auto with grows | intros stats2].
  destruct v; auto with grows.
  apply grows_bind; [auto with grows | intros objs].
  destruct objs as [|obj objs]; [auto with grows|].
  apply grows_bind; [auto with grows | intros k].
  apply grows_bind; [auto with grows | intros selected].
  apply grows_for_each. intros st x. apply grows_predefined_detail.
Qed.

Lemma predefined_steps_first (c : MCPClient) (n : Z) (meta_type : pystr)
    (object_name : json) (max_items : Z) (stats : gmap pystr MethodStats)
    (s : St W) :
  exists req more,
    sent (snd (predefined_steps c n meta_type object_name max_items stats s))
    = sent s ++ req :: more
    /\ tool_of req = Some (u "list_predefined_data").
Proof.
  unfold predefined_steps.
  destruct (choice [[]; u "Основной"; u "Дополнительный"] s)
    as [[mask|e] sa] eqn:Ea.
  2:{ exfalso. revert Ea. unfold choice.
      destruct (randbelow _ (world s)). discriminate. }
  rewrite (bind_ok _ _ _ _ _ Ea).
  apply (quiet_at _ _ _ _ (quiet_choice _)) in Ea.
  destruct (test_list_predefined_data c meta_type object_name mask max_items sa)
    as [[r|e] sb] eqn:Eb.
  - rewrite (bind_ok _ _ _ _ _ Eb).
    apply wrapper_sent in Eb as (req & Eb & Ht).
    unfold bind at 1. unfold log_test, write_log at 1.
    match goal with
    | |- context [after_predefined_listing ?a1 ?a2 ?a3 ?a4 ?a5 ?a6 ?st] =>
        destruct (grows_after_predefined_listing a1 a2 a3 a4 a5 a6 st)
          as [more Hmore]
    end.
    exists req, more. split; [|exact Ht].
    rewrite Hmore. cbn [sent]. rewrite Eb, Ea, <- app_assoc. reflexivity.
  - rewrite (bind_raise _ _ _ _ _ Eb).
    apply wrapper_sent in Eb as (req & Eb & Ht).
    exists req, []. split; [|exact Ht]. cbn [snd]. congruence.
Qed.

Lemma incr_pair (m : pystr) (v : Verdict) (st : MethodStats)
    (stats : gmap pystr MethodStats) :
  stats !! m = Some st ->
  exists stats1,
    incr_total m stats = Ok stats1
    /\ incr_outcome m v stats1 = Ok (<[m := bump v st]> stats).
Proof.
  intros Hst. pose proof (record_spec m v stats) as Hrec.
  unfold record in Hrec. rewrite Hst in Hrec.
  unfold incr_total in *. rewrite Hst in *. cbn [res_bind] in Hrec. eauto.
Qed.

End Rounds.

Lemma listing_gates_round_witness :
  tools_called
    (Script.start [Script.reply 200 (Script.dumps (Script.tool_reply [])) []])
    (snd (GrokPlus2.round (py := Script.listing_lib) (svc := Script.service)
            Script.client 1 GrokPlus2.initial_stats
            (Script.start
               [Script.reply 200 (Script.dumps (Script.tool_reply [])) []])))
  = [u "list_metadata_objects"].
Proof.
  apply (listing_gates_round (py := Script.listing_lib)
           (svc := Script.service) Script.client 1 GrokPlus2.initial_stats
           (Script.start
              [Script.reply 200 (Script.dumps (Script.tool_reply [])) []])
           (snd (GrokPlus2.list_step (py := Script.listing_lib)
                   (svc := Script.service) Script.client 1
                   (Script.start
                      [Script.reply 200
                         (Script.dumps (Script.tool_reply [])) []])))
           (u "Catalogs") 5 (JObj [(u "result", JStr [])])).
  - vm_compute. reflexivity.
  - right. left. vm_compute. reflexivity.
Defined.


(** ** The two framings of a response *)

Section Framing.
Context {py : PyLib}.
Import GrokPlus2.

Lemma lstrip_app_nonspace (x y : pystr) (c : N) :
  is_space c = false -> lstrip (x ++ c :: y) = lstrip x ++ c :: y.
Proof.
  intros Hc. induction x as [|d x IH]; cbn [app lstrip].
  - rewrite Hc. reflexivity.
  - destruct (is_space d); [exact IH | reflexivity].
Qed.

Lemma rstrip_app_nonspace (a b : pystr) (c : N) :
  is_space c = false -> rstrip (a ++ c :: b) = a ++ c :: rstrip b.
Proof.
  intros Hc. unfold rstrip.
  rewrite rev_app_distr. cbn [rev]. rewrite <- app_assoc. cbn [app].
  rewrite lstrip_app_nonspace by exact Hc.
  rewrite rev_app_distr. cbn [rev]. rewrite rev_involutive, <- app_assoc.
  reflexivity.
Qed.

Lemma lstrip_snoc (x : pystr) (c : N) :
  is_space c = true ->
  lstrip (x ++ [c]) = match lstrip x with
                      | [] => []
                      | _ :: _ => lstrip x ++ [c]
                      end.
Proof.
  intros Hc. induction x as [|d x IH]; cbn [app lstrip].
  - rewrite Hc. reflexivity.
  - destruct (is_space d); [exact IH | reflexivity].
Qed.

Lemma strip_snoc (x : pystr) (c : N) :
  is_space c = true -> strip (x ++ [c]) = strip x.
Proof.
  intros Hc. unfold strip. rewrite lstrip_snoc by exact Hc.
  destruct (lstrip x) as [|d y]; [reflexivity|].
  unfold rstrip. rewrite rev_app_distr. cbn [rev app lstrip].
  rewrite Hc. reflexivity.
Qed.

Lemma startswith_snoc (l p : pystr) (c : N) :
  ~ In c p -> startswith (l ++ [c]) p = startswith l p.
Proof.
  revert l. induction p as [|a p IH]; intros l Hc.
  - destruct l; reflexivity.
  - destruct l as [|b l]; cbn [app startswith].
    + destruct (N.eqb_spec a c) as [->|_]; [|reflexivity].
      exfalso. apply Hc. left. reflexivity.
    + rewrite IH; [reflexivity|]. intros Hin. apply Hc. right. exact Hin.
Qed.

Lemma startswith_length (l p : pystr) :
  startswith l p = true -> (length p <= length l)%nat.
Proof.
  revert l. induction p as [|a p IH]; intros l; [cbn; lia|].
  destruct l as [|b l]; cbn [startswith length]; [discriminate|].
  intros [_ Hp]%andb_prop. apply IH in Hp. lia.
Qed.

Lemma space_not_in_data (c : N) : is_space c = true -> ~ In c (u "data:").
Proof.
  intros Hc Hin. vm_compute in Hin.
  destruct Hin as [<-|[<-|[<-|[<-|[<-|[]]]]]]; vm_compute in Hc;
    discriminate.
Qed.

Lemma split_nonempty (c : N) (t : pystr) : split c t <> [].
Proof.
  destruct t as [|a t]; cbn [split]; [discriminate|].
  destruct (a =? c)%N; [discriminate|].
  destruct (split c t); discriminate.
Qed.

Lemma split_snoc (c : N) (t : pystr) :
  exists init line,
    split c t = init ++ [line]
    /\ split c (t ++ [c]) = init ++ [line; []]
    /\ forall d, d <> c -> split c (t ++ [d]) = init ++ [line ++ [d]].
Proof.
  induction t as [|a t (init & line & Ht & Hsep & Hother)].
  - exists [], []. cbn [app split]. rewrite N.eqb_refl.
    split; [reflexivity|]. split; [reflexivity|].
    intros d Hd. destruct (N.eqb_spec d c); [contradiction | reflexivity].
  - cbn [app split]. destruct (a =? c)%N.
    + exists ([] :: init), line. rewrite Ht, Hsep.
      split; [reflexivity|]. split; [reflexivity|].
      intros d Hd. rewrite (Hother d Hd). reflexivity.
    + destruct init as [|first init]; cbn [app] in *.
      * exists [], (a :: line). rewrite Ht, Hsep.
        split; [reflexivity|]. split; [reflexivity|].
        intros d Hd. rewrite (Hother d Hd). reflexivity.
      * exists ((a :: first) :: init), line. rewrite Ht, Hsep.
        split; [reflexivity|]. split; [reflexivity|].
        intros d Hd. rewrite (Hother d Hd). reflexivity.
Qed.

Lemma split_app_sep (c : N) (a b : pystr) :
  split c (a ++ c :: b) = split c a ++ split c b.
Proof.
  induction a as [|x a IH]; cbn [app split].
  - rewrite N.eqb_refl. reflexivity.
  - rewrite IH. destruct (x =? c)%N; [reflexivity|].
    destruct (split c a) as [|w ws] eqn:E; [|reflexivity].
    exfalso. exact (split_nonempty c a E).
Qed.

Lemma split_line (c : N) (l : pystr) : ~ In c l -> split c l = [l].
Proof.
  induction l as [|x l IH]; intros Hc; cbn [split]; [reflexivity|].
  destruct (N.eqb_spec x c) as [->|_].
  - exfalso. apply Hc. left. reflexivity.
  - rewrite IH; [reflexivity|]. intros Hin. apply Hc. right. exact Hin.
Qed.
Lemma data_lines_snoc (t : pystr) (c : N) :
  is_space c = true -> data_lines (t ++ [c]) = data_lines t.
Proof.
  intros Hc. unfold data_lines.
  destruct (split_snoc nl t) as (init & line & Ht & Hsep & Hother).
  destruct (N.eqb_spec c nl) as [->|Hne].
  - rewrite Hsep, Ht, !List.filter_app. cbn [List.filter].
    destruct (startswith line (u "data:")); reflexivity.
  - rewrite (Hother c Hne), Ht, !List.filter_app. cbn [List.filter].
    rewrite (startswith_snoc line (u "data:") c (space_not_in_data c Hc)).
    destruct (startswith line (u "data:")) eqn:Hd; [|reflexivity].
    rewrite !map_app. cbn [map]. f_equal. f_equal.
    apply startswith_length in Hd.
    rewrite drop_app_le by exact Hd.
    apply strip_snoc, Hc.
Qed.

Lemma data_lines_rstrip (t : pystr) : data_lines (rstrip t) = data_lines t.
Proof.
  unfold rstrip. rewrite <- (rev_involutive t) at 2.
  induction (rev t) as [|c r IH]; [reflexivity|].
  cbn [lstrip rev]. destruct (is_space c) eqn:Hc; [|reflexivity].
  rewrite data_lines_snoc by exact Hc. exact IH.
Qed.

Lemma split_data_lines (payload : list pystr) (rest : pystr) :
  Forall (fun line => ~ In nl line) payload ->
  split nl (flat_map (fun line => u "data: " ++ line ++ [nl]) payload ++ rest)
  = map (fun line => u "data: " ++ line) payload ++ split nl rest.
Proof.
  induction 1 as [|line payload Hline _ IH]; [reflexivity|].
  cbn [flat_map map]. rewrite <- !app_assoc. cbn [app].
  change (u "data: " ++ line ++ nl :: ?x)
    with ((u "data: " ++ line) ++ nl :: x).
  replace (u "data: " ++ line
           ++ nl :: flat_map (fun l => u "data: " ++ l ++ [nl]) payload ++ rest)
    with ((u "data: " ++ line)
          ++ nl :: flat_map (fun l => u "data: " ++ l ++ [nl]) payload ++ rest)
    by (rewrite <- app_assoc; reflexivity).
  rewrite split_app_sep, IH, split_line; [reflexivity|].
  intros [Hin|Hin]%in_app_or; [|exact (Hline Hin)].
  vm_compute in Hin. intuition discriminate.
Qed.

Lemma data_lines_of_data (payload : list pystr) :
  map (fun line => strip (drop 5 line))
      (List.filter (fun line => startswith line (u "data:"))
                   (map (fun line => u "data: " ++ line) payload))
  = map strip payload.
Proof.
  induction payload as [|line payload IH]; [reflexivity|].
  cbn [map].
  change (List.filter ?f (?x :: ?l))
    with (if f x then x :: List.filter f l else List.filter f l).
  cbv beta.
  change (startswith (u "data: " ++ line) (u "data:")) with true.
  cbv iota. cbn [map]. rewrite IH.
  change (drop 5 (u "data: " ++ line)) with (32%N :: line).
  reflexivity.
Qed.

Lemma data_lines_frame (event : pystr) (payload : list pystr) :
  ~ In nl event ->
  Forall (fun line => ~ In nl line) payload ->
  data_lines (strip (sse_frame event payload)) = map strip payload.
Proof.
  intros Hevent Hpayload. unfold strip.
  rewrite data_lines_rstrip.
  change (lstrip (sse_frame event payload)) with (sse_frame event payload).
  unfold data_lines, sse_frame.
  rewrite split_app_sep, split_data_lines by exact Hpayload.
  rewrite split_line.
  2:{ intros [Hin|Hin]%in_app_or; [|exact (Hevent Hin)].
      vm_compute in Hin. intuition discriminate. }
  cbn [app].
  change (List.filter ?f (?x :: ?l))
    with (if f x then x :: List.filter f l else List.filter f l).
  cbv beta.
  change (startswith (u "event: " ++ event) (u "data:")) with false.
  cbv iota. rewrite List.filter_app, map_app.
  rewrite data_lines_of_data.
  change (split nl [nl]) with [@nil N; @nil N].
  cbn [List.filter startswith map]. change (u "data:") with [100; 97; 116; 97; 58]%N.
  cbn [List.filter startswith map]. apply app_nil_r.
Qed.

Lemma frame_is_event_stream (event : pystr) (payload : list pystr) :
  startswith (strip (sse_frame event payload)) (u "event:") = true.
Proof.
  unfold strip.
  change (lstrip (sse_frame event payload)) with (sse_frame event payload).
  unfold sse_frame.
  change (u "event: " ++ event) with (u "event" ++ 58%N :: 32%N :: event).
  rewrite <- app_assoc. cbn [app].
  rewrite (rstrip_app_nonspace (u "event") _ 58) by reflexivity.
  reflexivity.
Qed.

Lemma lstrip_pad (pad y : pystr) (c : N) :
  Forall (fun x => is_space x = true) pad -> is_space c = false ->
  lstrip (pad ++ c :: y) = c :: y.
Proof.
  intros Hpad Hc. induction Hpad as [|x pad Hx _ IH].
  - cbn [app lstrip]. rewrite Hc. reflexivity.
  - cbn [app lstrip]. rewrite Hx. exact IH.
Qed.

Lemma lstrip_padding (t : pystr) :
  exists pad, Forall (fun x => is_space x = true) pad /\ t = pad ++ lstrip t.
Proof.
  induction t as [|x t (pad & Hpad & IH)]; [exists []; split; auto|].
  cbn [lstrip]. destruct (is_space x) eqn:Hx.
  - exists (x :: pad). split; [constructor; assumption|].
    cbn [app]. rewrite <- IH. reflexivity.
  - exists []. split; [constructor | reflexivity].
Qed.

Lemma lstrip_prefix_free (t : pystr) :
  exists tail, t = rev (lstrip (rev t)) ++ tail.
Proof.
  destruct (lstrip_padding (rev t)) as (pad & _ & Hpad).
  exists (rev pad). rewrite <- rev_app_distr, <- Hpad, rev_involutive.
  reflexivity.
Qed.

Lemma startswith_prefix (a tail p : pystr) :
  startswith a p = true -> startswith (a ++ tail) p = true.
Proof.
  revert a. induction p as [|x p IH]; intros a; [reflexivity|].
  destruct a as [|y a]; cbn [startswith app]; [discriminate|].
  intros [Hxy Hp]%andb_prop. rewrite Hxy. exact (IH a Hp).
Qed.

Lemma startswith_rest (t p : pystr) :
  startswith t p = true -> t = p ++ drop (length p) t.
Proof.
  revert t. induction p as [|x p IH]; intros t; [reflexivity|].
  destruct t as [|y t]; cbn [startswith]; [discriminate|].
  intros [Hxy Hp]%andb_prop. apply N.eqb_eq in Hxy. subst y.
  cbn [app length drop]. f_equal. exact (IH t Hp).
Qed.

Lemma split_lines (first : pystr) (rest : list pystr) :
  ~ In nl first ->
  Forall (fun l => ~ In nl l) rest ->
  split nl (first ++ flat_map (fun l => nl :: l) rest) = first :: rest.
Proof.
  intros Hfirst Hrest. revert first Hfirst.
  induction Hrest as [|l rest Hl _ IH]; intros first Hfirst.
  - cbn [flat_map]. rewrite app_nil_r. apply split_line, Hfirst.
  - cbn [flat_map app]. rewrite split_app_sep, (IH l Hl).
    rewrite split_line by exact Hfirst. reflexivity.
Qed.

Lemma lines_of_text (t : pystr) :
  exists first rest,
    t = first ++ flat_map (fun l => nl :: l) rest
    /\ ~ In nl first /\ Forall (fun l => ~ In nl l) rest.
Proof.
  induction t as [|x t (first & rest & Ht & Hfirst & Hrest)].
  - exists [], []. split; [reflexivity|]. split; [tauto | constructor].
  - destruct (N.eqb_spec x nl) as [->|Hx].
    + exists [], (first :: rest). split; [cbn [flat_map app]; congruence|].
      split; [tauto | constructor; assumption].
    + exists (x :: first), rest. split; [cbn [app]; congruence|].
      split; [|exact Hrest]. intros [Heq|Hin]; [congruence | tauto].
Qed.

Lemma render_lines (lines : list sse_line) :
  flat_map (fun l => nl :: render_line l) lines
  = flat_map (fun l => nl :: l) (map render_line lines).
Proof.
  induction lines as [|l lines IH]; [reflexivity|].
  cbn [flat_map map]. rewrite IH. reflexivity.
Qed.

Lemma render_no_newline (lines : list sse_line) :
  Forall proper_line lines ->
  Forall (fun l => ~ In nl l) (map render_line lines).
Proof.
  induction 1 as [|l lines Hl _ IH]; [constructor|].
  cbn [map]. constructor; [|exact IH].
  destruct l as [payload|line]; cbn [render_line proper_line] in *.
  - intros [Hin|Hin]%in_app_or; [|exact (Hl Hin)].
    vm_compute in Hin. intuition discriminate.
  - tauto.
Qed.

Lemma payloads_of_lines (lines : list sse_line) :
  Forall proper_line lines ->
  map (fun line => strip (drop 5 line))
      (List.filter (fun line => startswith line (u "data:"))
                   (map render_line lines))
  = payloads lines.
Proof.
  unfold payloads. induction 1 as [|l lines Hl _ IH]; [reflexivity|].
  cbn [map].
  change (List.filter ?f (?x :: ?l))
    with (if f x then x :: List.filter f l else List.filter f l).
  change (omap ?f (?x :: ?l))
    with (match f x with Some y => y :: omap f l | None => omap f l end).
  cbv beta. destruct l as [payload|line]; cbn [render_line proper_line] in *.
  - rewrite startswith_app. cbn [map]. rewrite IH.
    change (drop 5 (u "data:" ++ payload)) with payload. reflexivity.
  - destruct Hl as [_ ->]. exact IH.
Qed.

Lemma classify_lines (rest : list pystr) :
  Forall (fun l => ~ In nl l) rest ->
  exists lines,
    Forall proper_line lines /\ map render_line lines = rest.
Proof.
  induction 1 as [|l rest Hl _ (lines & Hlines & Hrender)].
  - exists []. split; [constructor | reflexivity].
  - destruct (startswith l (u "data:")) eqn:Hdata.
    + exists (DataLine (drop 5 l) :: lines). split.
      * constructor; [|exact Hlines]. cbn [proper_line].
        intros Hin. apply Hl. rewrite (startswith_rest l _ Hdata).
        apply in_or_app. right. exact Hin.
      * cbn [map render_line]. rewrite Hrender. f_equal.
        symmetry. exact (startswith_rest l _ Hdata).
    + exists (OtherLine l :: lines). split.
      * constructor; [|exact Hlines]. cbn [proper_line]. auto.
      * cbn [map render_line]. rewrite Hrender. reflexivity.
Qed.

Lemma body_is_event_stream (pad event : pystr) (lines : list sse_line) :
  Forall (fun x => is_space x = true) pad ->
  startswith (strip (sse_body pad event lines)) (u "event:") = true.
Proof.
  intros Hpad. unfold strip, sse_body.
  change (u "event:") with (101%N :: u "vent:").
  cbn [app]. rewrite (lstrip_pad pad _ 101 Hpad) by reflexivity.
  change (101%N :: u "vent:" ++ event ++ ?rest)
    with (u "event" ++ 58%N :: event ++ rest).
  rewrite (rstrip_app_nonspace (u "event") _ 58) by reflexivity.
  reflexivity.
Qed.

Lemma data_lines_body (pad event : pystr) (lines : list sse_line) :
  Forall (fun x => is_space x = true) pad ->
  ~ In nl event ->
  Forall proper_line lines ->
  data_lines (strip (sse_body pad event lines)) = payloads lines.
Proof.
  intros Hpad Hevent Hlines. unfold strip. rewrite data_lines_rstrip.
  unfold sse_body. change (u "event:") with (101%N :: u "vent:").
  cbn [app]. rewrite (lstrip_pad pad _ 101 Hpad) by reflexivity.
  unfold data_lines. rewrite render_lines.
  change (101%N :: u "vent:" ++ event ++ ?rest)
    with ((u "event:" ++ event) ++ rest).
  rewrite split_lines.
  - change (List.filter ?f (?x :: ?l))
      with (if f x then x :: List.filter f l else List.filter f l).
    cbv beta.
    change (startswith (u "event:" ++ event) (u "data:")) with false.
    cbv iota. apply payloads_of_lines, Hlines.
  - intros [Hin|Hin]%in_app_or; [|exact (Hevent Hin)].
    vm_compute in Hin. intuition discriminate.
  - apply render_no_newline, Hlines.
Qed.

(** Every body that starts, once stripped, with [event:] is an
    event-stream body. *)
Lemma event_stream_shape (t : pystr) :
  startswith (strip t) (u "event:") = true ->
  exists pad event lines,
    Forall (fun x => is_space x = true) pad
    /\ ~ In nl event
    /\ Forall proper_line lines
    /\ t = sse_body pad event lines.
Proof.
  intros Hstart. unfold strip, rstrip in Hstart.
  destruct (lstrip_prefix_free (lstrip t)) as (tail & Htail).
  assert (Hleft : startswith (lstrip t) (u "event:") = true).
  { rewrite Htail. apply startswith_prefix, Hstart. }
  destruct (lstrip_padding t) as (pad & Hpad & Ht).
  apply startswith_rest in Hleft.
  destruct (lines_of_text (drop (length (u "event:")) (lstrip t)))
    as (event & rest & Hrest & Hevent & Hnl).
  destruct (classify_lines rest Hnl) as (lines & Hlines & Hrender).
  exists pad, event, lines. repeat (split; [assumption|]).
  unfold sse_body. rewrite render_lines, Hrender, <- Hrest, <- Hleft.
  exact Ht.
Qed.

End Framing.

Lemma no_newline_check (l : pystr) :
  forallb (fun c => negb (c =? nl)%N) l = true -> ~ In nl l.
Proof.
  intros Hall Hin. rewrite forallb_forall in Hall.
  specialize (Hall nl Hin). rewrite N.eqb_refl in Hall. discriminate.
Qed.


(** ** The other variants *)

Section Variants.
Context {py : PyLib}.

(** The chain of [testMCP_grok_plus.py] only knows the capitalised
    Russian word: it counts the payload of the example as an error, and a
    payload that says ["error"] in English as a success. *)
Lemma grok_plus_classify_examples :
  GrokPlus.classify (JObj [(u "result", JStr (u "Ошибка: не найден"))])
  = Ok GrokPlus2.Error
  /\ GrokPlus.classify (JObj [(u "result", JStr (u "error: not found"))])
     = Ok GrokPlus2.Success
  /\ GrokPlus2.classify (JObj [(u "result", JStr (u "error: not found"))])
     = Ok GrokPlus2.Error.
Proof. vm_compute. repeat split. Qed.

(** [_make_request] of [testMCP_gpt.py] has one handler for every
    failure that is not a status: a body that cannot be decoded gives the
    bare cause, and an event-stream body is handed to [response.json()] as
    it is. *)
Lemma gpt_handle_outcome_decoding (r : Response) :
  200 <= status_code r <= 299 ->
  Gpt.handle_outcome (Received r)
  = match response_json r with
    | inr data => data
    | inl (JSONDecodeError cause) | inl (UnicodeDecodeError cause) =>
        error_value cause
    end.
Proof.
  intros Hst. unfold Gpt.handle_outcome, is_success.
  destruct (Z.leb_spec 200 (status_code r)), (Z.leb_spec (status_code r) 299);
    try lia. reflexivity.
Qed.
End Variants.

(** * Further properties *)

(** ** Reading a listing *)

Section Listings.
Context {py : PyLib}.
Import GrokPlus2.

Lemma lstrip_incl (s : pystr) (x : N) : In x (lstrip s) -> In x s.
Proof.
  induction s as [|c s IH]; cbn [lstrip]; [tauto|].
  destruct (is_space c); [intros Hx; right; auto | tauto].
Qed.

Lemma strip_incl (s : pystr) (x : N) : In x (strip s) -> In x s.
Proof.
  unfold strip, rstrip. intros Hx.
  apply in_rev, lstrip_incl, in_rev in Hx. apply lstrip_incl, Hx.
Qed.

Lemma split_chars (c : N) (s w : pystr) (x : N) :
  In w (split c s) -> In x w -> In x s.
Proof.
  revert w. induction s as [|a s IH]; intros w; cbn [split].
  - intros [<-|[]] [].
  - destruct (a =? c)%N.
    + intros [<-|Hw]; [intros [] | intros Hx; right; eauto].
    + destruct (split c s) as [|v vs] eqn:E.
      * intros [<-|[]] [->|[]]. left. reflexivity.
      * intros [<-|Hw] Hx.
        -- destruct Hx as [->|Hx]; [left; reflexivity|].
           right. apply (IH v); [left; reflexivity | exact Hx].
        -- right. apply (IH w); [right; exact Hw | exact Hx].
Qed.

Lemma split_no_sep (c : N) (s w : pystr) : In w (split c s) -> ~ In c w.
Proof.
  revert w. induction s as [|a s IH]; intros w; cbn [split].
  - intros [<-|[]] [].
  - destruct (N.eqb_spec a c) as [->|Hne].
    + intros [<-|Hw]; [intros [] | auto].
    + destruct (split c s) as [|v vs] eqn:E.
      * intros [<-|[]] [->|[]]. congruence.
      * intros [<-|Hw].
        -- intros [->|Hx]; [congruence|].
           apply (IH v); [left; reflexivity | exact Hx].
        -- apply IH. right. exact Hw.
Qed.

Lemma split_first_in (c : N) (s : pystr) : In (split_first c s) (split c s).
Proof.
  unfold split_first. destruct (split c s) as [|w ws] eqn:E.
  - exfalso. exact (split_nonempty c s E).
  - left. reflexivity.
Qed.

Lemma last_in {A} (l : list A) (d : A) : l <> [] -> In (List.last l d) l.
Proof.
  induction l as [|a l IH]; [congruence|]. intros _.
  destruct l as [|b l]; [left; reflexivity|].
  right. apply IH. discriminate.
Qed.

Lemma split_last_in (c : N) (s : pystr) : In (split_last c s) (split c s).
Proof. apply last_in, split_nonempty. Qed.

Lemma startswith_split (s p : pystr) :
  startswith s p = true -> exists b, s = p ++ b.
Proof.
  revert s. induction p as [|a p IH]; intros s; [eauto|].
  destruct s as [|x s]; cbn [startswith]; [discriminate|].
  intros [Ha Hp]%andb_prop. apply N.eqb_eq in Ha. subst x.
  destruct (IH s Hp) as [b ->]. eauto.
Qed.

Lemma contains_split (s p : pystr) :
  contains s p = true -> exists a b, s = a ++ p ++ b.
Proof.
  induction s as [|x s IH].
  - cbn [contains]. rewrite orb_false_r. intros Hp.
    destruct (startswith_split _ _ Hp) as [b Hb]. exists [], b. exact Hb.
  - change (contains (x :: s) p)
      with (startswith (x :: s) p || contains s p).
    intros [Hp|Hc]%orb_prop.
    + destruct (startswith_split _ _ Hp) as [b Hb]. exists [], b. exact Hb.
    + destruct (IH Hc) as (a & b & ->). exists (x :: a), b. reflexivity.
Qed.

Lemma contains_char (s : pystr) (c : N) :
  contains s [c] = false -> ~ In c s.
Proof.
  intros Hc Hin. apply in_split in Hin as (a & b & ->).
  pose proof (contains_app a [c] b) as Happ. cbn [app] in Happ.
  congruence.
Qed.

Lemma object_of_line_clean (line : pystr) (o : json) :
  ~ In nl line ->
  object_of_line line = Some o ->
  exists name, o = named name /\ clean_name name.
Proof.
  intros Hnl. unfold object_of_line.
  destruct (strip line) as [|c l] eqn:El; [discriminate|].
  rewrite <- El. clear c l El.
  change (u "(") with [40%N]. change (u ".") with [46%N].
  set (name0 := if contains (strip line) [40%N]
                then strip (split_first 40 (strip line))
                else strip (strip line)).
  assert (H0 : forall x, In x name0 -> In x line).
  { intros x. unfold name0. destruct (contains (strip line) [40%N]).
    - intros Hx%strip_incl.
      apply (split_chars 40 (strip line) _ x (split_first_in _ _)) in Hx.
      apply strip_incl, Hx.
    - intros Hx%strip_incl%strip_incl. exact Hx. }
  assert (Hpar : ~ In 40%N name0).
  { unfold name0. destruct (contains (strip line) [40%N]) eqn:Ec.
    - intros Hx%strip_incl.
      exact (split_no_sep 40 _ _ (split_first_in _ _) Hx).
    - intros Hx%strip_incl. exact (contains_char _ _ Ec Hx). }
  set (name := if contains name0 [46%N] then split_last 46 name0 else name0).
  assert (H1 : forall x, In x name -> In x name0).
  { intros x. unfold name. destruct (contains name0 [46%N]); [|tauto].
    intros Hx. exact (split_chars 46 name0 _ x (split_last_in _ _) Hx). }
  assert (Hdot : ~ In 46%N name).
  { unfold name. destruct (contains name0 [46%N]) eqn:Ec.
    - exact (split_no_sep 46 _ _ (split_last_in _ _)).
    - exact (contains_char _ _ Ec). }
  destruct name as [|c l] eqn:En; [discriminate|].
  intros [= <-]. exists (c :: l). split; [reflexivity|].
  split; [discriminate|]. split; [exact Hdot|]. split.
  - intros Hx. apply Hpar, H1, Hx.
  - intros Hx. apply Hnl, H0, H1, Hx.
Qed.

Lemma omap_clean (lines : list pystr) :
  Forall (fun line => ~ In nl line) lines ->
  Forall (fun o => exists name, o = named name /\ clean_name name)
         (omap object_of_line lines)
  /\ (length (omap object_of_line lines) <= length lines)%nat.
Proof.
  induction 1 as [|line lines Hline _ [IH1 IH2]];
    [split; [exact (Forall_nil_2 _) | cbn; lia]|].
  change (omap ?f (?x :: ?l))
    with (match f x with Some y => y :: omap f l | None => omap f l end).
  destruct (object_of_line line) as [o|] eqn:Eo.
  - split; [constructor; [exact (object_of_line_clean line o Hline Eo)|exact IH1]|].
    cbn [length]. lia.
  - split; [exact IH1 | cbn [length]; lia].
Qed.

(** X1. A listing in text form (a dict whose ["result"] is a string)
    is always read without an exception, line by line: every object made
    of it has a name that is not empty and holds no dot, no opening
    parenthesis and no newline, so the test [if object_name:] of the driver
    holds for whichever object is chosen; and there is at most one object
    per line. *)
Theorem text_listing_names (items : list (pystr * json)) (t : pystr) :
  dict_get (u "result") items = Some (JStr t) ->
  exists objects,
    parse_listing (JObj items) = Ok objects
    /\ Forall (fun o => exists name, o = named name /\ clean_name name
                        /\ name_of o = JStr name
                        /\ truthy (name_of o) = true) objects
    /\ (length objects <= length (split nl t))%nat.
Proof.
  intros Hres. unfold parse_listing. rewrite Hres.
  eexists. split; [reflexivity|].
  destruct (omap_clean (split nl t)) as [Hclean Hlen].
  { apply List.Forall_forall. intros w Hw. exact (split_no_sep nl t w Hw). }
  split; [|exact Hlen].
  eapply List.Forall_impl; [|exact Hclean].
  intros o (name & -> & Hname). exists name.
  split; [reflexivity|]. split; [exact Hname|].
  assert (Hn : name_of (named name) = JStr name) by (vm_compute; reflexivity).
  split; [exact Hn|]. rewrite Hn.
  destruct Hname as [Hne _]. destruct name; [congruence | reflexivity].
Qed.
End Listings.

Section ListForm.
Context {py : PyLib}.
Import GrokPlus2.

Lemma object_of_string (x : pystr) :
  object_of (JStr x) = Ok (named (short_name x)).
Proof.
  unfold object_of, short_name, named. cbn [py_in res_bind].
  destruct (contains x (u ".")); reflexivity.
Qed.

Lemma objects_of_strings (xs : list pystr) :
  objects_of_list (map JStr xs)
  = Ok (omap (fun x => match x with
                       | [] => None
                       | _ :: _ => Some (named (short_name x))
                       end) xs).
Proof.
  unfold objects_of_list. induction xs as [|x xs IH]; [reflexivity|].
  cbn [map]. rewrite filter_cons.
  change (omap ?f (?y :: ?l))
    with (match f y with Some z => z :: omap f l | None => omap f l end).
  destruct x as [|ch x].
  - rewrite decide_False by discriminate. exact IH.
  - rewrite decide_True by reflexivity.
    cbn [mapM_res]. rewrite object_of_string, IH. reflexivity.
Qed.

Lemma objects_of_number (xs : list pystr) (z : Z) (rest : list json) :
  z <> 0 ->
  objects_of_list (map JStr xs ++ JNum z :: rest) = Raise TypeError.
Proof.
  intros Hz. unfold objects_of_list. induction xs as [|x xs IH].
  - cbn [map app]. rewrite filter_cons.
    rewrite decide_True.
    + reflexivity.
    + cbn [truthy]. destruct (Z.eqb_spec z 0); [contradiction | reflexivity].
  - cbn [map app]. rewrite filter_cons. destruct x as [|ch x].
    + rewrite decide_False by discriminate. exact IH.
    + rewrite decide_True by reflexivity.
      cbn [mapM_res]. rewrite object_of_string. cbn [res_bind].
      rewrite IH. reflexivity.
Qed.

(** X2. A listing in list form whose elements are strings is read
    without an exception: the empty strings are dropped and each other
    element gives one object, in order, named by its last dotted segment;
    the same holds when the list sits under ["result"], and for the listing
    of predefined data.  A list with a non-zero number after its strings
    raises [TypeError] instead. *)
Theorem list_listing_names (xs : list pystr) :
  let objects := omap (fun x => match x with
                                | [] => None
                                | _ :: _ => Some (named (short_name x))
                                end) xs in
  parse_listing (JArr (map JStr xs)) = Ok objects
  /\ parse_listing (JObj [(u "result", JArr (map JStr xs))]) = Ok objects
  /\ parse_predefined (JArr (map JStr xs)) = Ok objects
  /\ (length objects <= length xs)%nat
  /\ (forall z rest, z <> 0 ->
        parse_listing (JArr (map JStr xs ++ JNum z :: rest))
        = Raise TypeError).
Proof.
  intros objects. split; [|split; [|split; [|split]]].
  - apply objects_of_strings.
  - unfold parse_listing.
    change (dict_get (u "result") [(u "result", JArr (map JStr xs))])
      with (Some (JArr (map JStr xs))).
    apply objects_of_strings.
  - apply objects_of_strings.
  - unfold objects. clear objects. induction xs as [|x xs IH]; [cbn; lia|].
    change (omap ?f (?y :: ?l))
      with (match f y with Some z => z :: omap f l | None => omap f l end).
    destruct x; cbn [length]; lia.
  - intros z rest Hz. apply objects_of_number, Hz.
Qed.

(** X3. A line of a listing of predefined data is used only when it
    starts, once stripped, with the marker [Имя: '], and the name read from
    a line of the form [Имя: 'X'] is what follows the marker: [X] without
    its leading spaces and with the closing quote still attached. *)
Theorem predefined_name_keeps_quote (x : pystr) :
  predefined_of_line (u "Имя: '" ++ x ++ u "'")
  = Some (named (lstrip x ++ u "'"))
  /\ (forall line o,
        predefined_of_line line = Some o ->
        startswith (strip line) (u "Имя: '") = true).
Proof.
  split.
  - unfold predefined_of_line.
    assert (Hstrip : strip (u "Имя: '" ++ x ++ u "'")
                     = u "Имя: '" ++ x ++ u "'").
    { unfold strip.
      change (lstrip (u "Имя: '" ++ x ++ u "'"))
        with (u "Имя: '" ++ x ++ u "'").
      change (u "Имя: '" ++ x ++ u "'")
        with ((u "Имя: '" ++ x) ++ 39%N :: []) at 1.
      rewrite rstrip_app_nonspace by reflexivity.
      rewrite <- app_assoc. reflexivity. }
    rewrite Hstrip.
    change (u "Имя: '" ++ x ++ u "'")
      with (1048%N :: (u "мя: '" ++ x ++ u "'")) at 1.
    cbv iota.
    rewrite (startswith_app (x ++ u "'") (u "Имя: '")).
    rewrite drop_app_length.
    assert (Hname : strip (x ++ u "'") = lstrip x ++ u "'").
    { unfold strip. change (u "'") with [39%N].
      rewrite lstrip_app_nonspace by reflexivity.
      rewrite rstrip_app_nonspace by reflexivity. reflexivity. }
    rewrite Hname. change (u "'") with [39%N].
    destruct (lstrip x ++ [39%N]) as [|c name] eqn:E; [|reflexivity].
    destruct (lstrip x); discriminate.
  - intros line o. unfold predefined_of_line.
    destruct (strip line) as [|c l]; [discriminate|].
    destruct (startswith (c :: l) (u "Имя: '")); [reflexivity | discriminate].
Qed.
End ListForm.

(** ** More on the framings *)

Section Crlf.
Context {py : PyLib}.
Import GrokPlus2.

Lemma split_data_lines_crlf (payload : list pystr) (rest : pystr) :
  Forall (fun line => ~ In nl line) payload ->
  split nl (flat_map (fun line => u "data: " ++ line ++ [13%N; nl]) payload
            ++ rest)
  = map (fun line => u "data: " ++ line ++ [13%N]) payload ++ split nl rest.
Proof.
  induction 1 as [|line payload Hline _ IH]; [reflexivity|].
  cbn [flat_map map]. rewrite <- !app_assoc. cbn [app].
  replace (u "data: " ++ line
           ++ 13%N :: nl
              :: flat_map (fun l => u "data: " ++ l ++ [13%N; nl]) payload
                 ++ rest)
    with ((u "data: " ++ line ++ [13%N])
          ++ nl :: flat_map (fun l => u "data: " ++ l ++ [13%N; nl]) payload
                   ++ rest)
    by (rewrite <- !app_assoc; reflexivity).
  rewrite split_app_sep, IH, split_line; [reflexivity|].
  intros [Hin|Hin]%in_app_or;
    [vm_compute in Hin; intuition discriminate|].
  apply in_app_or in Hin as [Hin|Hin]; [exact (Hline Hin)|].
  vm_compute in Hin. intuition discriminate.
Qed.

Lemma data_lines_of_data_crlf (payload : list pystr) :
  map (fun line => strip (drop 5 line))
      (List.filter (fun line => startswith line (u "data:"))
                   (map (fun line => u "data: " ++ line ++ [13%N]) payload))
  = map strip payload.
Proof.
  induction payload as [|line payload IH]; [reflexivity|].
  cbn [map].
  change (List.filter ?f (?x :: ?l))
    with (if f x then x :: List.filter f l else List.filter f l).
  cbv beta.
  change (startswith (u "data: " ++ line ++ [13%N]) (u "data:")) with true.
  cbv iota. cbn [map]. rewrite IH.
  change (drop 5 (u "data: " ++ line ++ [13%N])) with (32%N :: line ++ [13%N]).
  f_equal. unfold strip.
  change (lstrip (32%N :: line ++ [13%N])) with (lstrip (line ++ [13%N])).
  exact (strip_snoc line 13 eq_refl).
Qed.

(** X4. An event-stream body whose lines end with a carriage return
    and a newline is decoded like the one whose lines end with a newline:
    the carriage returns are stripped with the rest of the white space
    around each payload, and what is parsed is the text made of the
    stripped payload lines. *)
Theorem crlf_frame_decodes (event : pystr) (payload : list pystr) :
  ~ In nl event ->
  Forall (fun line => ~ In nl line) payload ->
  data_lines (strip (sse_frame_crlf event payload)) = map strip payload
  /\ (forall r,
        text r = sse_frame_crlf event payload ->
        decode_body r = loads_text (join nl (map strip payload)))
  /\ (forall r r',
        text r = sse_frame_crlf event payload ->
        text r' = sse_frame event payload ->
        decode_body r = decode_body r').
Proof.
  intros Hevent Hpayload.
  assert (Hlines : data_lines (strip (sse_frame_crlf event payload))
                   = map strip payload).
  { unfold strip. rewrite data_lines_rstrip.
    change (lstrip (sse_frame_crlf event payload))
      with (sse_frame_crlf event payload).
    unfold data_lines, sse_frame_crlf.
    rewrite split_app_sep, split_data_lines_crlf by exact Hpayload.
    rewrite split_line.
    2:{ intros [Hin|Hin]%in_app_or;
          [vm_compute in Hin; intuition discriminate|].
        apply in_app_or in Hin as [Hin|Hin]; [exact (Hevent Hin)|].
        vm_compute in Hin. intuition discriminate. }
    cbn [app].
    change (List.filter ?f (?x :: ?l))
      with (if f x then x :: List.filter f l else List.filter f l).
    cbv beta.
    change (startswith (u "event: " ++ event ++ [13%N]) (u "data:"))
      with false.
    cbv iota. rewrite List.filter_app, map_app.
    rewrite data_lines_of_data_crlf.
    change (split nl [13%N; nl]) with [[13%N]; @nil N].
    change (u "data:") with [100; 97; 116; 97; 58]%N.
    cbn [List.filter startswith map N.eqb Pos.eqb andb]. apply app_nil_r. }
  assert (Hstart : startswith (strip (sse_frame_crlf event payload))
                     (u "event:") = true).
  { unfold strip.
    change (lstrip (sse_frame_crlf event payload))
      with (sse_frame_crlf event payload).
    unfold sse_frame_crlf.
    change (u "event: " ++ event ++ [13%N])
      with (u "event" ++ 58%N :: 32%N :: event ++ [13%N]).
    rewrite <- app_assoc. cbn [app].
    rewrite (rstrip_app_nonspace (u "event") _ 58) by reflexivity.
    reflexivity. }
  assert (Hdecode : forall r,
            text r = sse_frame_crlf event payload ->
            decode_body r = loads_text (join nl (map strip payload))).
  { intros r Hr. unfold decode_body. rewrite Hr, Hstart, Hlines.
    reflexivity. }
  split; [exact Hlines|]. split; [exact Hdecode|].
  intros r r' Hr Hr'. rewrite (Hdecode r Hr). unfold decode_body.
  rewrite Hr', frame_is_event_stream, data_lines_frame by assumption.
  reflexivity.
Qed.
End Crlf.

(** ** The two chains of tests *)

Section Chains.
Context {py : PyLib}.

Lemma contains_lower (s p : pystr) :
  contains s p = true ->
  contains (lower lower_other s) (lower lower_other p) = true.
Proof.
  intros (a & b & ->)%contains_split. rewrite !lower_app. apply contains_app.
Qed.

Lemma keyword_free_empty :
  existsb (fun keyword => contains (lower lower_other []) keyword)
          GrokPlus2.error_keywords = false.
Proof. vm_compute. reflexivity. Qed.

(** X5. On a dict whose ["result"] is a string, or is missing, the
    chain of [testMCP_grok_plus_2.py] is at least as severe as the one of
    [testMCP_grok_plus.py]: what the older chain counts as an error the
    newer one counts as an error, both count the same payloads as skipped,
    and what the newer one counts as a success the older one does too. *)
Theorem newer_chain_is_stricter (items : list (pystr * json)) (v : GrokPlus2.Verdict) :
  (dict_get (u "result") items = None
   \/ exists r, dict_get (u "result") items = Some (JStr r)) ->
  GrokPlus.classify (JObj items) = Ok v ->
  (v = GrokPlus2.Error -> GrokPlus2.classify (JObj items) = Ok GrokPlus2.Error)
  /\ (v = GrokPlus2.Skipped <->
      GrokPlus2.classify (JObj items) = Ok GrokPlus2.Skipped)
  /\ (GrokPlus2.classify (JObj items) = Ok GrokPlus2.Success ->
      v = GrokPlus2.Success).
Proof.
  intros Hres. rewrite classify_dict.
  unfold GrokPlus.classify, GrokPlus2.has_error_keyword,
    GrokPlus2.is_empty_payload. cbn [py_in res_bind py_getitem].
  destruct (dict_has (u "error") items).
  { intros [= <-]. repeat split; try discriminate; auto. }
  unfold dict_has.
  destruct Hres as [Hnone | [r Hr]].
  - rewrite Hnone. cbn [res_bind]. intros [= <-].
    repeat split; try discriminate; auto.
  - rewrite Hr. cbn [res_bind eq_str py_str]. destruct r as [|ch r].
    + cbn [str_eqb]. rewrite keyword_free_empty. intros [= <-].
      repeat split; try discriminate; auto.
    + cbn [str_eqb].
      destruct (contains (ch :: r) (u "Ошибка")) eqn:Ec.
      * apply contains_lower in Ec.
        change (lower lower_other (u "Ошибка")) with (u "ошибка") in Ec.
        intros [= <-].
        assert (Hk : existsb
                       (fun keyword =>
                          contains (lower lower_other (ch :: r)) keyword)
                       GrokPlus2.error_keywords = true).
        { apply existsb_exists. exists (u "ошибка").
          split; [left; reflexivity | exact Ec]. }
        rewrite Hk. repeat split; try discriminate; auto.
      * intros [= <-].
        destruct (existsb _ GrokPlus2.error_keywords);
          repeat split; try discriminate; auto.
Qed.
End Chains.

(** ** The parameters of a request of testMCP_gpt.py *)

Section GptParams.

Lemma dict_get_filter_ne (k key : pystr) (params : list (pystr * json)) :
  str_eqb k key = false ->
  dict_get k (filter (fun kv => str_eqb (fst kv) key = false) params)
  = dict_get k params.
Proof.
  intros Hk. induction params as [|[k' v] params IH]; [reflexivity|].
  rewrite filter_cons. cbn [fst].
  destruct (str_eqb k' key) eqn:Ek'.
  - rewrite decide_False by discriminate. cbn [dict_get].
    destruct (str_eqb k k') eqn:Ekk; [|exact IH].
    apply str_eqb_eq in Ekk. subst k'. congruence.
  - rewrite decide_True by reflexivity. cbn [dict_get].
    destruct (str_eqb k k'); [reflexivity | exact IH].
Qed.

Lemma filter_absent (key : pystr) (params : list (pystr * json)) :
  dict_get key params = None ->
  filter (fun kv => str_eqb (fst kv) key = false) params = params.
Proof.
  induction params as [|[k v] params IH]; [reflexivity|].
  cbn [dict_get]. destruct (str_eqb key k) eqn:Ek; [discriminate|].
  intros Hrest. rewrite filter_cons. cbn [fst].
  destruct (str_eqb k key) eqn:Ek'.
  - apply str_eqb_eq in Ek'. subst k. rewrite str_eqb_refl in Ek.
    discriminate.
  - rewrite decide_True by reflexivity. rewrite (IH Hrest). reflexivity.
Qed.

(** X6. The parameters [testMCP_gpt.py] sends are a dict whose first
    key is ["session_id"], followed by the caller's other items in the
    caller's order, so that the key is there once.  The ["session_id"] sent
    is the caller's own when the caller gave one, which wins over the
    client's, and the client's otherwise; every other key keeps its
    value. *)
Theorem with_session_lookup (sid k : pystr) (params : list (pystr * json)) :
  dict_get k (Gpt.with_session sid params)
  = (if str_eqb k (u "session_id")
     then Some (dict_get_default (u "session_id") (JStr sid) params)
     else dict_get k params)
  /\ Gpt.with_session sid params
     = (u "session_id",
        dict_get_default (u "session_id") (JStr sid) params)
         :: filter (fun kv => str_eqb (fst kv) (u "session_id") = false)
                   params
  /\ (forall v, dict_get (u "session_id") params = Some v ->
        dict_get (u "session_id") (Gpt.with_session sid params) = Some v)
  /\ (dict_get (u "session_id") params = None ->
      Gpt.with_session sid params = (u "session_id", JStr sid) :: params)
  /\ (forall kv, In kv (tl (Gpt.with_session sid params)) ->
        str_eqb (fst kv) (u "session_id") = false).
Proof.
  assert (Hshape : Gpt.with_session sid params
                   = (u "session_id",
                      dict_get_default (u "session_id") (JStr sid) params)
                       :: filter (fun kv => str_eqb (fst kv) (u "session_id")
                                            = false) params).
  { unfold Gpt.with_session, dict_get_default.
    destruct (dict_get (u "session_id") params) as [v|] eqn:Es;
      [reflexivity|].
    rewrite (filter_absent _ _ Es). reflexivity. }
  split; [|split; [|split; [|split]]].
  - unfold Gpt.with_session, dict_get_default.
    destruct (str_eqb k (u "session_id")) eqn:Ek.
    + apply str_eqb_eq in Ek. subst k.
      destruct (dict_get (u "session_id") params); reflexivity.
    + destruct (dict_get (u "session_id") params) as [v|] eqn:Es.
      * cbn [dict_get]. rewrite Ek. apply dict_get_filter_ne, Ek.
      * cbn [dict_get]. rewrite Ek. reflexivity.
  - exact Hshape.
  - intros v Hv. unfold Gpt.with_session. rewrite Hv. reflexivity.
  - intros Hnone. unfold Gpt.with_session. rewrite Hnone. reflexivity.
  - intros kv. rewrite Hshape. cbn [tl].
    rewrite <- list_elem_of_In, list_elem_of_filter. intros [Hkv _].
    exact Hkv.
Qed.
End GptParams.

Lemma with_session_lookup_witness :
  Gpt.with_session (u "4f2a9c")
    [(u "name", JStr (u "ping")); (u "session_id", JStr (u "mine"));
     (u "arguments", JObj [])]
  = [(u "session_id", JStr (u "mine")); (u "name", JStr (u "ping"));
     (u "arguments", JObj [])].
Proof.
  destruct (with_session_lookup (u "4f2a9c") (u "session_id")
              [(u "name", JStr (u "ping")); (u "session_id", JStr (u "mine"));
               (u "arguments", JObj [])])
    as (_ & Hshape & _).
  etransitivity; [exact Hshape | vm_compute; reflexivity].
Defined.

(** ** Failures of the transport, seen from the driver *)

Section Failures.
Context {py : PyLib} {W : Type} {svc : World W}.
Import GrokPlus2.

Lemma classify_error_value (message : pystr) :
  classify (error_value message) = Ok Error.
Proof. unfold error_value. rewrite classify_dict. reflexivity. Qed.

Lemma payload_of_error (message : pystr) :
  payload_of {| content := [TextContent message]; isError := true |}
  = Ok (error_value (str_TextContent message)).
Proof. reflexivity. Qed.

Lemma after_listing_error (c : MCPClient) (n : Z) (meta_type : pystr)
    (max_items : Z) (message : pystr) (stats : gmap pystr MethodStats)
    (a : MethodStats) (s : St W) :
  stats !! u "list_metadata_objects" = Some a ->
  after_listing c n meta_type max_items (error_value message) stats s
  = (Ok (<[u "list_metadata_objects" := bump Error a]> stats), s).
Proof.
  intros Ha. destruct (incr_pair _ Error _ _ Ha) as (stats1 & Ht & Ho).
  unfold after_listing, bind, lift. rewrite Ht, classify_error_value, Ho.
  reflexivity.
Qed.

(** X7. A call whose post fails, with an exception of any class, whose
    answer has a status outside 200-299, or whose good answer cannot be
    decoded, because it is not JSON or because its bytes are not text,
    never raises: the
    [test_*] function returns [{"error": str(Text("Error: <message>"))}]
    with the message of the transport, the chain counts it as an error,
    and when the call is the listing the round ends there with one more
    [total] and one more [errors] for [list_metadata_objects]. *)
Theorem failed_call_is_an_error (c : MCPClient) (name : pystr)
    (arguments : json) (s : St W) (message : pystr) :
  let req := build_request c (fst (uuid4 (world s))) (u "tools/call")
               (tool_params name arguments) in
  let o := fst (http_post req (snd (uuid4 (world s)))) in
  (o = Failed message
   \/ (exists r, o = Received r
         /\ (status_code r < 200 \/ 299 < status_code r)
         /\ message = u "HTTP " ++ str_of_Z (status_code r) ++ u ": " ++ text r)
   \/ (exists r cause, o = Received r
         /\ 200 <= status_code r <= 299
         /\ decode_body r = inl (JSONDecodeError cause)
         /\ message = u "JSON decode error: " ++ cause
                      ++ u " - Response: " ++ text r)
   \/ o = Errored message
   \/ (exists r, o = Received r
         /\ 200 <= status_code r <= 299
         /\ decode_body r = inl (UnicodeDecodeError message))) ->
  let payload := error_value (str_TextContent (u "Error: " ++ message)) in
  fst (bind (call_tool c name arguments) (fun r => lift (payload_of r)) s)
  = Ok payload
  /\ classify payload = Ok Error
  /\ (forall n meta_type max_items stats a s1,
        stats !! u "list_metadata_objects" = Some a ->
        after_listing c n meta_type max_items payload stats s1
        = (Ok (<[u "list_metadata_objects" :=
                   {| total := total a + 1; success := success a;
                      errors := errors a + 1; skipped := skipped a |}]> stats),
           s1)).
Proof.
  intros req o Hfail payload.
  assert (Hout : handle_outcome o = error_value message).
  { destruct Hfail
      as [->|[(r & -> & Hst & ->)|[(r & cause & -> & Hst & Hd & ->)
         |[->|(r & -> & Hst & Hd)]]]].
    - reflexivity.
    - unfold handle_outcome, is_success.
      destruct (Z.leb_spec 200 (status_code r)),
        (Z.leb_spec (status_code r) 299); cbn [andb]; try reflexivity; lia.
    - unfold handle_outcome, is_success.
      destruct (Z.leb_spec 200 (status_code r)),
        (Z.leb_spec (status_code r) 299); cbn [andb]; try lia.
      rewrite Hd. reflexivity.
    - reflexivity.
    - unfold handle_outcome, is_success.
      destruct (Z.leb_spec 200 (status_code r)),
        (Z.leb_spec (status_code r) 299); cbn [andb]; try lia.
      rewrite Hd. reflexivity. }
  split; [|split].
  - unfold bind. rewrite call_tool_run. fold req. fold o. rewrite Hout.
    unfold error_value.
    rewrite (tool_result_error [(u "error", JStr message)] (JStr message))
      by reflexivity.
    reflexivity.
  - apply classify_error_value.
  - intros n meta_type max_items stats a s1 Ha. unfold payload.
    rewrite (after_listing_error _ _ _ _ _ _ a) by exact Ha.
    f_equal. f_equal. f_equal. apply stats_eq; cbn; lia.
Qed.

(** ** The handshake *)

Lemma read_handshake_true (data : json) :
  read_handshake data = Ok true <->
  exists items result,
    data = JObj items
    /\ dict_get (u "result") items = Some (JObj result)
    /\ (dict_get (u "serverInfo") result = None
        \/ exists info, dict_get (u "serverInfo") result = Some (JObj info)).
Proof.
  unfold read_handshake. split.
  - destruct data as [| | |t|xs|items]; cbn [py_in res_bind]; try discriminate.
    + destruct (contains t (u "result")); cbn [py_getitem res_bind];
        discriminate.
    + destruct (existsb _ xs); cbn [py_getitem res_bind]; discriminate.
    + unfold dict_has, py_getitem.
      destruct (dict_get (u "result") items) as [result|] eqn:Er;
        [|discriminate].
      cbn [res_bind].
      destruct result as [| | | | |fields]; cbn [py_get res_bind];
        try discriminate.
      unfold dict_get_default.
      destruct (dict_get (u "serverInfo") fields) as [info|] eqn:Ei.
      * destruct info; cbn [py_get res_bind]; try discriminate.
        intros _. eauto 8.
      * intros _. eauto 8.
  - intros (items & result & -> & Hr & Hinfo). cbn [py_in res_bind].
    unfold dict_has, py_getitem. rewrite Hr. cbn [res_bind py_get].
    unfold dict_get_default.
    destruct Hinfo as [-> | [info ->]]; reflexivity.
Qed.

Lemma initialize_session_run (c : MCPClient) (s : St W) :
  let req := {| url := base_url c ++ u "/mcp/initialize";
                req_headers := json_headers ++ auth_headers c;
                body := initialize_payload |} in
  let ow := http_post req (world s) in
  let s1 := {| world := snd ow; sent := sent s ++ [req];
               logged := logged s |} in
  initialize_session c s
  = match fst ow with
    | Failed _ | Errored _ => (Ok (false, c), s1)
    | Received resp =>
        match decode_body resp with
        | inl _ => (Ok (false, c), s1)
        | inr data =>
            match read_handshake data with
            | Ok true =>
                (Ok (true,
                     {| base_url := base_url c; auth_token := auth_token c;
                        session_id :=
                          headers_get (u "Mcp-Session-Id") (headers resp) |}),
                 s1)
            | _ => (Ok (false, c), s1)
            end
        end
    end.
Proof.
  intros req ow s1. unfold initialize_session, bind, post, ret.
  fold req. fold ow. destruct ow as [o w]. cbn [fst snd] in *.
  destruct o as [cause|resp|cause]; [reflexivity| |reflexivity].
  destruct (decode_body resp) as [e|data]; [reflexivity|].
  destruct (read_handshake data) as [[|]|]; reflexivity.
Qed.


Lemma session_header_sent (c : MCPClient) (id method sid : pystr)
    (params : json) :
  nonempty (session_id c) = Some sid ->
  headers_get (u "Mcp-Session-Id")
    (req_headers (build_request c id method params)) = Some sid.
Proof.
  intros Hs. unfold build_request, session_headers, auth_headers.
  cbn [req_headers]. rewrite Hs.
  destruct (nonempty (auth_token c)); vm_compute; reflexivity.
Qed.

(** X9. A session id given by the handshake comes back on every
    request: when [initialize_session] answers [True] and the answer has a
    [Mcp-Session-Id] header, under any letter case, with a value that is
    not empty, every later request carries that value in its
    [Mcp-Session-Id] header and its ["params"] are the caller's, with no
    session id added to them. *)
Theorem session_id_is_echoed (c c' : MCPClient) (s s' : St W)
    (resp : Response) (sid : pystr) :
  let handshake := {| url := base_url c ++ u "/mcp/initialize";
                      req_headers := json_headers ++ auth_headers c;
                      body := initialize_payload |} in
  fst (http_post handshake (world s)) = Received resp ->
  initialize_session c s = (Ok (true, c'), s') ->
  headers_get (u "Mcp-Session-Id") (headers resp) = Some sid ->
  sid <> [] ->
  session_id c' = Some sid
  /\ forall (method : pystr) (params : json) (s1 : St W),
       let req := build_request c' (fst (uuid4 (world s1))) method params in
       sent (snd (_make_request c' method params s1)) = sent s1 ++ [req]
       /\ headers_get (u "Mcp-Session-Id") (req_headers req) = Some sid
       /\ dict_get (u "params")
            match body req with JObj items => items | _ => [] end
          = Some params.
Proof.
  intros handshake Hpost Hinit Hsid Hne.
  destruct (initialize_session_true c c' s s' resp Hpost Hinit) as [Hc' _].
  rewrite Hsid in Hc'. subst c'. split; [reflexivity|].
  intros method params s1 req. rewrite make_request_run. cbn [snd sent].
  split; [reflexivity|]. split.
  - apply session_header_sent. cbn [session_id nonempty].
    destruct sid; [congruence | reflexivity].
  - vm_compute. reflexivity.
Qed.

(** X10. A run whose handshake fails does nothing else: it posts the
    handshake and no tool request, writes no record and no summary. *)
Theorem failed_handshake_ends_run (url : pystr) (token : option pystr)
    (n : nat) (s : St W) (c' : MCPClient) :
  fst (initialize_session (new_client url token) s) = Ok (false, c') ->
  run_tests url token n s
  = (Ok None, snd (initialize_session (new_client url token) s))
  /\ tools_called s (snd (run_tests url token n s)) = []
  /\ length (sent (snd (run_tests url token n s))) = S (length (sent s))
  /\ logged (snd (run_tests url token n s)) = logged s.
Proof.
  intros Hinit.
  assert (Hrun : run_tests url token n s
                 = (Ok None, snd (initialize_session (new_client url token) s))).
  { unfold run_tests, bind.
    destruct (initialize_session (new_client url token) s) as [r s1].
    cbn [fst snd] in *. subst r. reflexivity. }
  rewrite Hrun. cbn [snd]. split; [reflexivity|].
  rewrite initialize_session_run.
  set (req := {| url := _; req_headers := _; body := _ |}).
  assert (Htool : tool_of req = None) by (vm_compute; reflexivity).
  unfold tools_called.
  destruct (fst (http_post req (world s))) as [cause|resp|cause];
    [|destruct (decode_body resp) as [e|data];
      [|destruct (read_handshake data) as [[|]|]]|];
    cbn [snd sent logged]; rewrite ?drop_app_length, ?length_app;
    cbn [omap list_omap length]; rewrite ?Htool; (split; [reflexivity|]);
    (split; [lia | reflexivity]).
Qed.
End Failures.

(** ** The calls and the counters of a round *)

Section Trace.
Context {py : PyLib} {W : Type} {svc : World W}.
Import GrokPlus2.

Lemma io_spec_bind {A B} (T1 T : list pystr -> Prop)
    (Q1 : list pystr -> A -> Prop) (Q : list pystr -> B -> Prop)
    (m : IO W A) (k : A -> IO W B) :
  io_spec T1 Q1 m ->
  (forall l1, T1 l1 -> T l1) ->
  (forall a l1, T1 l1 -> Q1 l1 a ->
     io_spec (fun l2 => T (l1 ++ l2)) (fun l2 b => Q (l1 ++ l2) b) (k a)) ->
  io_spec T Q (bind m k).
Proof.
  intros Hm HT Hk s. unfold bind.
  destruct (Hm s) as (reqs1 & tools1 & Hs1 & Ht1 & HT1 & HQ1).
  destruct (m s) as [[a|e] s1]; cbn [fst snd] in *.
  - destruct (Hk a tools1 HT1 (HQ1 a eq_refl) s1)
      as (reqs2 & tools2 & Hs2 & Ht2 & HT2 & HQ2).
    exists (reqs1 ++ reqs2), (tools1 ++ tools2).
    rewrite Hs2, Hs1, <- app_assoc, !map_app, Ht1, Ht2.
    repeat split; auto.
  - exists reqs1, tools1. repeat split; auto. discriminate.
Qed.

Lemma io_spec_weaken {A} (T T' : list pystr -> Prop)
    (Q Q' : list pystr -> A -> Prop) (m : IO W A) :
  io_spec T Q m ->
  (forall l, T l -> T' l) ->
  (forall l a, T l -> Q l a -> Q' l a) ->
  io_spec T' Q' m.
Proof.
  intros Hm HT HQ s. destruct (Hm s) as (reqs & tools & Hs & Ht & HT1 & HQ1).
  exists reqs, tools. repeat split; auto.
Qed.

Lemma io_spec_calm {A B} (P : A -> Prop) (T : list pystr -> Prop)
    (Q : list pystr -> B -> Prop) (m : IO W A) (k : A -> IO W B) :
  calm P m ->
  T [] \/ steady m ->
  (forall a, P a -> io_spec T Q (k a)) ->
  io_spec T Q (bind m k).
Proof.
  intros Hm Hraise Hk s. unfold bind.
  destruct (Hm s) as [Hs HP].
  destruct (m s) as [[a|e] s1] eqn:Em; cbn [fst snd] in *.
  - destruct (Hk a (HP a eq_refl) s1) as (reqs & tools & Hs2 & Ht & HT & HQ).
    exists reqs, tools. rewrite Hs2, Hs. repeat split; auto.
  - destruct Hraise as [HT | Hst].
    + exists [], []. rewrite Hs, app_nil_r. repeat split; auto. discriminate.
    + destruct (Hst s) as [a Ha]. rewrite Em in Ha. discriminate.
Qed.

Lemma io_spec_ret {A} (T : list pystr -> Prop) (Q : list pystr -> A -> Prop)
    (a : A) :
  T [] -> Q [] a -> io_spec T Q (ret (W := W) a).
Proof.
  intros HT HQ s. exists [], []. cbn. rewrite app_nil_r.
  repeat split; auto. intros a' [= <-]. exact HQ.
Qed.

Lemma io_spec_lift {A} (T : list pystr -> Prop) (Q : list pystr -> A -> Prop)
    (r : res A) :
  T [] -> (forall a, r = Ok a -> Q [] a) -> io_spec T Q (lift (W := W) r).
Proof.
  intros HT HQ s. exists [], []. cbn. rewrite app_nil_r.
  repeat split; auto.
Qed.

Lemma io_spec_post {A B} (name : pystr) (T : list pystr -> Prop)
    (Q : list pystr -> B -> Prop) (m : IO W A) (k : A -> IO W B) :
  (forall s, exists req,
     sent (snd (m s)) = sent s ++ [req] /\ tool_of req = Some name) ->
  T [name] ->
  (forall a, io_spec (fun l => T (name :: l)) (fun l b => Q (name :: l) b)
               (k a)) ->
  io_spec T Q (bind m k).
Proof.
  intros Hm HT Hk s. unfold bind. destruct (Hm s) as (req & Hs & Hn).
  destruct (m s) as [[a|e] s1]; cbn [fst snd] in *.
  - destruct (Hk a s1) as (reqs & tools & Hs2 & Ht & HT2 & HQ).
    exists (req :: reqs), (name :: tools).
    rewrite Hs2, Hs, <- app_assoc. cbn [app map]. rewrite Hn, Ht.
    repeat split; auto.
  - exists [req], [name]. cbn [map]. rewrite Hn. repeat split; auto.
    discriminate.
Qed.

Lemma calm_lift {A} (r : res A) : calm (fun a => r = Ok a) (lift (W := W) r).
Proof. intros s. split; [reflexivity | auto]. Qed.

Lemma calm_draw {A} (f : W -> A * W) : calm (fun _ => True) (draw f).
Proof. intros s. split; [apply quiet_draw | auto]. Qed.

Lemma steady_draw {A} (f : W -> A * W) : steady (draw f).
Proof. intros s. unfold draw. destruct (f (world s)). eauto. Qed.

Lemma calm_log (n : Z) (api : pystr) (params result : json) :
  calm (fun _ => True) (log_test (W := W) n api params result).
Proof. intros s. split; [reflexivity | auto]. Qed.

Lemma steady_log (n : Z) (api : pystr) (params result : json) :
  steady (log_test (W := W) n api params result).
Proof. intros s. exists tt. reflexivity. Qed.

Lemma nth_mod_in {A} (l : list A) (i : nat) (d : A) :
  l <> [] -> In (nth (i mod length l) l d) l.
Proof.
  intros Hne. apply nth_In, Nat.mod_upper_bound.
  destruct l; [congruence | discriminate].
Qed.

Lemma calm_choice {A} (xs : list A) : calm (fun x => In x xs) (choice xs).
Proof.
  intros s. split; [apply quiet_choice|].
  unfold choice. destruct xs as [|x xs']; [discriminate|].
  destruct (randbelow _ (world s)) as [i w].
  intros a Ha. injection Ha as <-.
  exact (nth_mod_in (x :: xs') i x ltac:(discriminate)).
Qed.

Lemma steady_choice {A} (xs : list A) : xs <> [] -> steady (choice xs).
Proof.
  intros Hne s. unfold choice. destruct xs as [|x xs']; [congruence|].
  destruct (randbelow _ (world s)). eauto.
Qed.

Lemma calm_randint (lo hi : Z) :
  lo <= hi -> calm (fun z => lo <= z <= hi) (randint lo hi).
Proof.
  intros Hle s. split; [apply quiet_randint|].
  unfold randint. destruct (randbelow _ (world s)) as [i w]. cbn [fst].
  intros a [= <-].
  assert (Hn : (i mod Z.to_nat (hi - lo + 1) < Z.to_nat (hi - lo + 1))%nat)
    by (apply Nat.mod_upper_bound; lia).
  lia.
Qed.

Lemma steady_randint (lo hi : Z) : steady (randint lo hi).
Proof. intros s. unfold randint. destruct (randbelow _ (world s)). eauto. Qed.

Lemma omap_length {A B} (f : A -> option B) (l : list A) :
  (length (omap f l) <= length l)%nat.
Proof.
  induction l as [|x l IH]; [cbn; lia|].
  change (omap f (x :: l))
    with (match f x with Some y => y :: omap f l | None => omap f l end).
  destruct (f x); cbn [length]; lia.
Qed.

Lemma calm_sample {A} (xs : list A) (k : nat) :
  calm (fun l => (length l <= k)%nat) (sample xs k).
Proof.
  intros s. unfold sample. destruct (length xs <? k)%nat.
  - split; [reflexivity | discriminate].
  - destruct (sample_order _ (world s)) as [order w]. cbn [fst snd sent].
    split; [reflexivity|]. intros a [= <-].
    etransitivity; [apply omap_length|]. rewrite length_take. lia.
Qed.
End Trace.

Section RoundSpec.
Context {py : PyLib} {W : Type} {svc : World W}.
Import GrokPlus2.

Lemma record_steps (m : pystr) (v : Verdict)
    (stats stats1 stats2 : gmap pystr MethodStats) :
  incr_total m stats = Ok stats1 ->
  incr_outcome m v stats1 = Ok stats2 ->
  record m v stats = Ok stats2.
Proof. intros H1 H2. unfold record. rewrite H1. exact H2. Qed.

Lemma recorded_nil (stats : gmap pystr MethodStats) : recorded stats [] stats.
Proof. exists []. split; reflexivity. Qed.

Lemma recorded_one (m : pystr) (v : Verdict)
    (stats stats' : gmap pystr MethodStats) :
  record m v stats = Ok stats' -> recorded stats [m] stats'.
Proof.
  intros Hr. exists [(m, v)]. split; [|reflexivity].
  cbn [record_all]. rewrite Hr. reflexivity.
Qed.

Lemma record_all_app (e1 e2 : list (pystr * Verdict))
    (stats : gmap pystr MethodStats) :
  record_all (e1 ++ e2) stats
  = res_bind (record_all e1 stats) (record_all e2).
Proof.
  revert stats. induction e1 as [|[m v] e1 IH]; intros stats; [reflexivity|].
  cbn [app record_all]. destruct (record m v stats); cbn [res_bind]; auto.
Qed.

Lemma recorded_app (a b c : gmap pystr MethodStats) (l1 l2 : list pystr) :
  recorded a l1 b -> recorded b l2 c -> recorded a (l1 ++ l2) c.
Proof.
  intros (e1 & H1 & <-) (e2 & H2 & <-). exists (e1 ++ e2).
  rewrite record_all_app, H1, map_app. split; [exact H2 | reflexivity].
Qed.

Lemma wrapper_posts (c : MCPClient) (name : pystr) (arguments : json)
    (s : St W) :
  exists req,
    sent (snd (bind (call_tool c name arguments)
                 (fun r => lift (payload_of r)) s))
    = sent s ++ [req]
    /\ tool_of req = Some name.
Proof.
  destruct (bind (call_tool c name arguments) (fun r => lift (payload_of r)) s)
    as [r s1] eqn:E.
  exact (wrapper_sent c name arguments s s1 r E).
Qed.

Ltac calm_fact :=
  first [ apply calm_lift | apply calm_log | apply calm_choice
        | apply calm_draw | apply calm_sample | apply calm_randint; lia ].

Tactic Notation "quiet_step" tactic3(side) "as" ident(x) ident(H) :=
  eapply io_spec_calm; [calm_fact | side | intros x H; cbv beta in H].

Lemma detail_spec (c : MCPClient) (n : Z) (meta_type : pystr)
    (object_name : json) (stats : gmap pystr MethodStats) (item : json) :
  io_spec (fun l => l = [] \/ l = [u "get_predefined_data"])
    (recorded stats)
    (predefined_detail c n meta_type object_name stats item).
Proof.
  unfold predefined_detail. destruct (truthy (name_of item)).
  - apply (io_spec_post (u "get_predefined_data"));
      [intros s; apply wrapper_posts | right; reflexivity | intros r].
    quiet_step (right; apply steady_log) as x Hx.
    quiet_step (left; right; reflexivity) as stats1 H1.
    quiet_step (left; right; reflexivity) as v Hv.
    apply io_spec_lift; [right; reflexivity|].
    intros stats2 H2. apply (recorded_one _ v).
    eapply record_steps; eassumption.
  - apply io_spec_ret; [left; reflexivity | apply recorded_nil].
Qed.

Lemma for_each_spec (c : MCPClient) (n : Z) (meta_type : pystr)
    (object_name : json) (items : list json)
    (stats : gmap pystr MethodStats) :
  io_spec (details_upto (length items)) (recorded stats)
    (for_each (predefined_detail c n meta_type object_name) stats items).
Proof.
  revert stats. induction items as [|item items IH]; intros stats;
    cbn [for_each].
  - apply io_spec_ret; [exists 0%nat; split; [lia | reflexivity]|].
    apply recorded_nil.
  - eapply io_spec_bind; [apply detail_spec | |].
    + intros l1 [-> | ->]; [exists 0%nat | exists 1%nat];
        (split; [cbn; lia | reflexivity]).
    + intros stats1 l1 Hl1 Hrec.
      eapply io_spec_weaken; [apply IH | |].
      * intros l2 (j & Hj & ->). destruct Hl1 as [-> | ->].
        -- exists j. split; [cbn [length]; lia | reflexivity].
        -- exists (S j). split; [cbn [length]; lia | reflexivity].
      * intros l2 stats2 _ Hrec2. exact (recorded_app _ _ _ _ _ Hrec Hrec2).
Qed.

Lemma after_predefined_spec (c : MCPClient) (n : Z) (meta_type : pystr)
    (object_name predefined_list_result : json)
    (stats : gmap pystr MethodStats) :
  io_spec (details_upto 3)
    (fun l stats' => recorded stats (u "list_predefined_data" :: l) stats')
    (after_predefined_listing c n meta_type object_name
       predefined_list_result stats).
Proof.
  assert (Hzero : details_upto 3 [])
    by (exists 0%nat; split; [lia | reflexivity]).
  unfold after_predefined_listing.
  quiet_step (left; exact Hzero) as stats1 H1.
  quiet_step (left; exact Hzero) as v Hv.
  quiet_step (left; exact Hzero) as stats2 H2.
  assert (Hrec : recorded stats [u "list_predefined_data"] stats2)
    by (apply (recorded_one _ v); eapply record_steps; eassumption).
  destruct v; try (apply io_spec_ret; [exact Hzero | exact Hrec]).
  quiet_step (left; exact Hzero) as found Hfound.
  destruct found as [|obj objs];
    [apply io_spec_ret; [exact Hzero | exact Hrec]|].
  quiet_step (right; apply steady_randint) as k Hk.
  quiet_step (left; exact Hzero) as chosen Hchosen.
  eapply io_spec_weaken; [apply for_each_spec | |].
  - intros l (j & Hj & ->). exists j. split; [lia | reflexivity].
  - intros l stats' _ Hrec'.
    exact (recorded_app _ _ _ [_] l Hrec Hrec').
Qed.

Lemma predefined_steps_spec (c : MCPClient) (n : Z) (meta_type : pystr)
    (object_name : json) (max_items : Z) (stats : gmap pystr MethodStats) :
  io_spec (fun l => exists rest,
             details_upto 3 rest /\ l = u "list_predefined_data" :: rest)
    (recorded stats)
    (predefined_steps c n meta_type object_name max_items stats).
Proof.
  unfold predefined_steps.
  quiet_step (right; apply steady_choice; discriminate) as mask Hmask.
  apply (io_spec_post (u "list_predefined_data"));
    [intros s; apply wrapper_posts | | intros r].
  { exists []. split; [|reflexivity].
    exists 0%nat. split; [lia | reflexivity]. }
  quiet_step (right; apply steady_log) as x Hx.
  eapply io_spec_weaken; [apply after_predefined_spec | |].
  - intros l Hl. exists l. split; [exact Hl | reflexivity].
  - intros l stats' _ Hrec. exact Hrec.
Qed.

Lemma object_steps_spec (c : MCPClient) (n : Z) (meta_type : pystr)
    (max_items : Z) (objects : list json) (stats : gmap pystr MethodStats) :
  io_spec object_shape (recorded stats)
    (object_steps c n meta_type max_items objects stats).
Proof.
  assert (Hone : object_shape [u "get_metadata_structure"])
    by (right; left; reflexivity).
  unfold object_steps.
  quiet_step (left; left; reflexivity) as obj Hobj.
  destruct (truthy (name_of obj));
    [|apply io_spec_ret; [left; reflexivity | apply recorded_nil]].
  apply (io_spec_post (u "get_metadata_structure"));
    [intros s; apply wrapper_posts | exact Hone | intros r].
  quiet_step (right; apply steady_log) as x Hx.
  quiet_step (left; exact Hone) as stats1 H1.
  quiet_step (left; exact Hone) as v Hv.
  quiet_step (left; exact Hone) as stats2 H2.
  assert (Hrec : recorded stats [u "get_metadata_structure"] stats2)
    by (apply (recorded_one _ v); eapply record_steps; eassumption).
  destruct (is_predefined_type meta_type);
    [|apply io_spec_ret; [exact Hone | exact Hrec]].
  eapply io_spec_weaken; [apply predefined_steps_spec | |].
  - intros l (rest & Hrest & ->). right. right. exists rest.
    split; [exact Hrest | reflexivity].
  - intros l stats' _ Hrec'.
    exact (recorded_app _ _ _ [_] l Hrec Hrec').
Qed.

Lemma after_listing_spec (c : MCPClient) (n : Z) (meta_type : pystr)
    (max_items : Z) (list_result : json) (stats : gmap pystr MethodStats) :
  io_spec object_shape
    (fun l stats' => recorded stats (u "list_metadata_objects" :: l) stats')
    (after_listing c n meta_type max_items list_result stats).
Proof.
  assert (Hzero : object_shape []) by (left; reflexivity).
  unfold after_listing.
  quiet_step (left; exact Hzero) as stats1 H1.
  quiet_step (left; exact Hzero) as v Hv.
  quiet_step (left; exact Hzero) as stats2 H2.
  assert (Hrec : recorded stats [u "list_metadata_objects"] stats2)
    by (apply (recorded_one _ v); eapply record_steps; eassumption).
  destruct v; try (apply io_spec_ret; [exact Hzero | exact Hrec]).
  quiet_step (left; exact Hzero) as found Hfound.
  destruct found as [|obj objs];
    [apply io_spec_ret; [exact Hzero | exact Hrec]|].
  eapply io_spec_weaken; [apply object_steps_spec | |].
  - intros l Hl. exact Hl.
  - intros l stats' _ Hrec'.
    exact (recorded_app _ _ _ [_] l Hrec Hrec').
Qed.

Lemma predefined_in_all (t : pystr) :
  In t predefined_supported_types -> In t all_types.
Proof.
  intros [<-|[<-|[<-|[<-|[]]]]]; vm_compute;
    repeat (first [left; reflexivity | right]).
Qed.

Lemma list_step_spec (c : MCPClient) (n : Z) :
  io_spec (eq [u "list_metadata_objects"])
    (fun _ listing =>
       In (fst (fst listing)) all_types /\ 5 <= snd (fst listing) <= 20)
    (list_step c n).
Proof.
  unfold list_step.
  quiet_step (right; apply steady_draw) as weighted Hw.
  quiet_step (right; apply steady_choice; destruct weighted; discriminate)
    as meta_type Htype.
  quiet_step (right; apply steady_choice; discriminate) as mask Hmask.
  quiet_step (right; apply steady_randint) as max_items Hmax.
  apply (io_spec_post (u "list_metadata_objects"));
    [intros s; apply wrapper_posts | reflexivity | intros r].
  quiet_step (right; apply steady_log) as x Hx.
  apply io_spec_ret; [reflexivity|]. cbn [fst snd]. split; [|assumption].
  destruct weighted; [apply predefined_in_all|]; assumption.
Qed.

Lemma round_spec (c : MCPClient) (n : Z) (stats : gmap pystr MethodStats) :
  io_spec round_shape (recorded stats) (round c n stats).
Proof.
  unfold round. eapply io_spec_bind; [apply list_step_spec | |].
  - intros l1 <-. exists []. split; [left; reflexivity | reflexivity].
  - intros listing l1 <- _.
    eapply io_spec_weaken; [apply after_listing_spec | |].
    + intros l Hl. exists l. split; [exact Hl | reflexivity].
    + intros l stats' _ Hrec. exact Hrec.
Qed.
End RoundSpec.

Section Campaign.
Context {py : PyLib} {W : Type} {svc : World W}.
Import GrokPlus2.

Lemma omap_map_some {A B} (f : A -> option B) (xs : list A) (ys : list B) :
  map f xs = map Some ys -> omap f xs = ys.
Proof.
  revert ys. induction xs as [|x xs IH]; intros [|y ys] H;
    try discriminate; [reflexivity|].
  cbn [map] in H. injection H as Hx Hxs.
  change (omap f (x :: xs))
    with (match f x with Some z => z :: omap f xs | None => omap f xs end).
  rewrite Hx, (IH ys Hxs). reflexivity.
Qed.

Lemma tools_called_spec (s s' : St W) (reqs : list Request)
    (tools : list pystr) :
  sent s' = sent s ++ reqs ->
  map tool_of reqs = map Some tools ->
  tools_called s s' = tools.
Proof.
  intros Hs Ht. unfold tools_called. rewrite Hs, drop_app_length.
  apply omap_map_some, Ht.
Qed.

Lemma tool_count_app (m : pystr) (l1 l2 : list pystr) :
  tool_count m (l1 ++ l2) = (tool_count m l1 + tool_count m l2)%nat.
Proof. unfold tool_count. rewrite List.filter_app, length_app. reflexivity. Qed.

Lemma details_facts (k : nat) (l : list pystr) :
  details_upto k l ->
  (length l <= k)%nat
  /\ tool_count (u "list_metadata_objects") l = 0%nat
  /\ Forall (fun t => In t methods) l.
Proof.
  intros (j & Hj & ->). rewrite repeat_length. split; [exact Hj|].
  clear Hj. induction j as [|j [IH1 IH2]].
  - split; [reflexivity | constructor].
  - split.
    + change (repeat ?x (S j)) with ([x] ++ repeat x j).
      rewrite tool_count_app, IH1. vm_compute. reflexivity.
    + constructor; [|exact IH2]. vm_compute. tauto.
Qed.

Lemma object_shape_facts (l : list pystr) :
  object_shape l ->
  (length l <= 5)%nat
  /\ tool_count (u "list_metadata_objects") l = 0%nat
  /\ Forall (fun t => In t methods) l.
Proof.
  intros [->|[->|(rest & Hrest & ->)]].
  - split; [cbn; lia|]. split; [reflexivity | constructor].
  - split; [cbn; lia|]. split; [vm_compute; reflexivity|].
    constructor; [vm_compute; tauto | constructor].
  - apply details_facts in Hrest as (Hlen & Hcount & Hin).
    split; [cbn [length]; lia|]. split.
    + change (tool_count (u "list_metadata_objects")
                ([u "get_metadata_structure"; u "list_predefined_data"]
                   ++ rest) = 0%nat).
      rewrite tool_count_app, Hcount. vm_compute. reflexivity.
    + constructor; [vm_compute; tauto|].
      constructor; [vm_compute; tauto | exact Hin].
Qed.

Lemma round_shape_facts (l : list pystr) :
  round_shape l ->
  (1 <= length l <= 6)%nat
  /\ tool_count (u "list_metadata_objects") l = 1%nat
  /\ Forall (fun t => In t methods) l.
Proof.
  intros (rest & Hrest & ->).
  apply object_shape_facts in Hrest as (Hlen & Hcount & Hin).
  split; [cbn [length]; lia|]. split.
  - change (tool_count (u "list_metadata_objects")
              ([u "list_metadata_objects"] ++ rest) = 1%nat).
    rewrite tool_count_app, Hcount. vm_compute. reflexivity.
  - constructor; [vm_compute; tauto | exact Hin].
Qed.

Lemma rounds_of_facts (k : nat) (l : list pystr) :
  rounds_of k l ->
  (k <= length l <= 6 * k)%nat
  /\ tool_count (u "list_metadata_objects") l = k
  /\ Forall (fun t => In t methods) l.
Proof.
  intros (parts & <- & Hparts & ->).
  induction Hparts as [|part parts Hpart _ (IHlen & IHcount & IHin)].
  - split; [cbn; lia|]. split; [reflexivity | constructor].
  - apply round_shape_facts in Hpart as (Hlen & Hcount & Hin).
    cbn [concat length]. rewrite length_app, tool_count_app, Hcount, IHcount.
    split; [lia|]. split; [reflexivity|].
    apply Forall_app. split; assumption.
Qed.

Lemma rounds_spec (c : MCPClient) (n : nat) (test_number : Z)
    (stats : gmap pystr MethodStats) :
  io_spec (fun l => exists k, (k <= n)%nat /\ rounds_of k l)
    (fun l stats' => rounds_of n l /\ recorded stats l stats')
    (rounds c n test_number stats).
Proof.
  revert test_number stats.
  induction n as [|n IH]; intros test_number stats; cbn [rounds].
  - assert (Hnone : rounds_of 0 [])
      by (exists []; split; [reflexivity|]; split; [constructor | reflexivity]).
    apply io_spec_ret; [exists 0%nat; split; [lia | exact Hnone]|].
    split; [exact Hnone | apply recorded_nil].
  - eapply io_spec_bind; [apply round_spec | |].
    + intros l1 Hl1. exists 1%nat. split; [lia|]. exists [l1].
      split; [reflexivity|]. split; [constructor; [exact Hl1 | constructor]|].
      cbn [concat]. rewrite app_nil_r. reflexivity.
    + intros stats1 l1 Hl1 Hrec.
      eapply io_spec_weaken; [apply IH | |].
      * intros l2 (k & Hk & parts & Hlen & Hparts & ->).
        exists (S k). split; [lia|]. exists (l1 :: parts).
        split; [cbn [length]; lia|].
        split; [constructor; assumption | reflexivity].
      * intros l2 stats2 _ [(parts & Hlen & Hparts & ->) Hrec2]. split.
        -- exists (l1 :: parts). split; [cbn [length]; lia|].
           split; [constructor; assumption | reflexivity].
        -- exact (recorded_app _ _ _ _ _ Hrec Hrec2).
Qed.

Lemma recorded_counts (tools : list pystr)
    (stats stats' : gmap pystr MethodStats) (m : pystr) (st : MethodStats) :
  recorded stats tools stats' ->
  stats !! m = Some st ->
  exists st',
    stats' !! m = Some st'
    /\ total st' = total st + Z.of_nat (tool_count m tools)
    /\ success st <= success st' /\ errors st <= errors st'
    /\ skipped st <= skipped st'
    /\ (success st' - success st) + (errors st' - errors st)
       + (skipped st' - skipped st)
       = Z.of_nat (tool_count m tools).
Proof.
  intros (events & Hrec & <-). revert stats st Hrec.
  induction events as [|[m0 v] events IH]; intros stats st Hrec Hst.
  - injection Hrec as <-. exists st. split; [exact Hst|].
    cbn. repeat split; lia.
  - cbn [record_all] in Hrec. rewrite record_spec in Hrec.
    destruct (stats !! m0) as [st0|] eqn:E0; [|discriminate].
    cbn [res_bind] in Hrec. cbn [map fst].
    change (tool_count m (m0 :: map fst events))
      with (tool_count m ([m0] ++ map fst events)).
    rewrite tool_count_app.
    destruct (str_eqb m m0) eqn:Em.
    + apply str_eqb_eq in Em as <-.
      assert (st0 = st) as -> by congruence.
      destruct (IH _ (bump v st) Hrec (lookup_insert_eq _ _ _))
        as (st' & Hst' & Htot & Hs & He & Hk & Hsum).
      exists st'. split; [exact Hst'|].
      assert (Hone : tool_count m [m] = 1%nat)
        by (unfold tool_count; cbn [List.filter];
            rewrite str_eqb_refl; reflexivity).
      rewrite Hone. destruct v; cbn [bump total success errors skipped] in *;
        repeat split; lia.
    + assert (Hne : m0 <> m)
        by (intros ->; rewrite str_eqb_refl in Em; discriminate).
      assert (Hst1 : <[m0 := bump v st0]> stats !! m = Some st)
        by (rewrite lookup_insert_ne by exact Hne; exact Hst).
      destruct (IH _ st Hrec Hst1) as (st' & Hst' & Hrest).
      exists st'. split; [exact Hst'|].
      assert (Hzero : tool_count m [m0] = 0%nat)
        by (unfold tool_count; cbn [List.filter]; rewrite Em; reflexivity).
      rewrite Hzero. exact Hrest.
Qed.

Lemma balanced_counted (st : MethodStats) : balanced st -> counted st.
Proof. intros (Hs & He & Hk & Htot). unfold counted. lia. Qed.

Lemma sound_row_of (m : pystr) (st : MethodStats) :
  balanced st -> sound_row (row_of m st).
Proof.
  intros (Hs & He & Hk & Htot). unfold sound_row, row_of.
  cbn [row_total row_success row_errors row_skipped row_rate].
  repeat (split; [assumption|]).
  destruct (Z.eqb_spec (total st) 0) as [Hz|Hnz]; [cbn; lia|].
  apply rate_percentage; lia.
Qed.

Lemma initialize_session_posts (c : MCPClient) (s : St W) :
  exists req b c',
    fst (initialize_session c s) = Ok (b, c')
    /\ sent (snd (initialize_session c s)) = sent s ++ [req]
    /\ tool_of req = None
    /\ url req = base_url c ++ u "/mcp/initialize".
Proof.
  pose proof (initialize_session_run c s) as Hrun. cbv zeta in Hrun.
  rewrite Hrun. eexists _.
  destruct (fst (http_post _ (world s))) as [cause|resp|cause];
    [|destruct (decode_body resp) as [e|data];
      [|destruct (read_handshake data) as [[|]|]]|];
    eexists _, _; (split; [reflexivity|]); (split; [reflexivity|]);
    (split; [vm_compute; reflexivity | reflexivity]).
Qed.

Lemma tool_count_cons (m t : pystr) (l : list pystr) :
  tool_count m (t :: l)
  = ((if str_eqb m t then 1 else 0) + tool_count m l)%nat.
Proof.
  unfold tool_count. cbn [List.filter]. destruct (str_eqb m t); reflexivity.
Qed.

Lemma count_methods (l : list pystr) :
  Forall (fun t => In t methods) l ->
  length l
  = (tool_count (u "list_metadata_objects") l
     + tool_count (u "get_metadata_structure") l
     + tool_count (u "list_predefined_data") l
     + tool_count (u "get_predefined_data") l)%nat.
Proof.
  induction 1 as [|t l Ht _ IH]; [reflexivity|].
  rewrite !tool_count_cons. cbn [length]. rewrite IH.
  destruct Ht as [<-|[<-|[<-|[<-|[]]]]];
    repeat match goal with
    | |- context [str_eqb (u ?a) (u ?b)] =>
        let v := eval vm_compute in (str_eqb (u a) (u b)) in
        change (str_eqb (u a) (u b)) with v
    end; cbv iota; lia.
Qed.

Lemma counted_from_zero (tools : list pystr)
    (stats' : gmap pystr MethodStats) (m : pystr) :
  recorded initial_stats tools stats' ->
  In m methods ->
  exists st,
    stats' !! m = Some st
    /\ total st = Z.of_nat (tool_count m tools)
    /\ balanced st.
Proof.
  intros Hrec Hm.
  assert (Hzero : initial_stats !! m = Some zero_stats)
    by (destruct Hm as [<-|[<-|[<-|[<-|[]]]]]; vm_compute; reflexivity).
  destruct (recorded_counts tools initial_stats stats' m zero_stats Hrec Hzero)
    as (st & Hst & Htot & Hs & He & Hk & Hsum).
  cbn [zero_stats total success errors skipped] in *.
  exists st. split; [exact Hst|]. split; [lia|].
  unfold balanced. repeat split; lia.
Qed.

Lemma run_tests_trace (base : pystr) (token : option pystr) (n : nat)
    (s : St W) :
  exists req reqs tools,
    sent (snd (run_tests base token n s)) = sent s ++ req :: reqs
    /\ url req = base ++ u "/mcp/initialize"
    /\ tool_of req = None
    /\ map tool_of reqs = map Some tools
    /\ tools_called s (snd (run_tests base token n s)) = tools
    /\ (exists k, (k <= n)%nat /\ rounds_of k tools)
    /\ forall summary,
         fst (run_tests base token n s) = Ok (Some summary) ->
         rounds_of n tools
         /\ exists stats',
              recorded initial_stats tools stats'
              /\ summarize stats' = Ok summary.
Proof.
  destruct (initialize_session_posts (new_client base token) s)
    as (req & b & c' & Hinit & Hsent & Htool & Hurl).
  assert (Hcalled : forall s' reqs tools,
            sent s' = sent s ++ req :: reqs ->
            map tool_of reqs = map Some tools ->
            tools_called s s' = tools).
  { intros s' reqs tools Hs Ht. unfold tools_called.
    rewrite Hs, drop_app_length.
    change (omap tool_of (req :: reqs))
      with (match tool_of req with
            | Some z => z :: omap tool_of reqs
            | None => omap tool_of reqs
            end).
    rewrite Htool. apply omap_map_some, Ht. }
  unfold run_tests, bind.
  destruct (initialize_session (new_client base token) s) as [r s1].
  cbn [fst snd] in Hinit, Hsent. subst r. cbn [fst snd].
  exists req. destruct b.
  - destruct (rounds_spec c' n 1 initial_stats s1)
      as (reqs & tools & Hs2 & Ht2 & HT & HQ).
    exists reqs, tools.
    assert (Hs : sent (snd (rounds c' n 1 initial_stats s1))
                 = sent s ++ req :: reqs)
      by (rewrite Hs2, Hsent, <- app_assoc; reflexivity).
    destruct (rounds c' n 1 initial_stats s1) as [[stats'|e] s2];
      cbn [fst snd] in *.
    + unfold lift, ret. destruct (summarize stats') as [summary|e] eqn:Esum;
        cbn [fst snd];
        (split; [exact Hs|]); (split; [exact Hurl|]); (split; [exact Htool|]);
        (split; [exact Ht2|]);
        (split; [exact (Hcalled s2 reqs tools Hs Ht2)|]);
        (split; [exact HT|]); [|discriminate].
      intros summary' [= <-]. destruct (HQ stats' eq_refl) as [Hn Hrec].
      split; [exact Hn|]. exists stats'. split; [exact Hrec | exact Esum].
    + split; [exact Hs|]. split; [exact Hurl|]. split; [exact Htool|].
      split; [exact Ht2|]. split; [exact (Hcalled s2 reqs tools Hs Ht2)|].
      split; [exact HT | discriminate].
  - exists [], []. unfold ret. cbn [fst snd map].
    split; [exact Hsent|]. split; [exact Hurl|]. split; [exact Htool|].
    split; [reflexivity|]. split; [exact (Hcalled s1 [] [] Hsent eq_refl)|].
    split; [|discriminate].
    exists 0%nat. split; [lia|]. exists [].
    split; [reflexivity|]. split; [constructor | reflexivity].
Qed.

(** X11. Whatever the service answers, and whether the round completes
    or raises, a round posts tool calls only, between one and six of them
    and in this order: [list_metadata_objects]; then at most one
    [get_metadata_structure]; then at most one [list_predefined_data],
    which is never posted without the structure call before it; then at
    most three [get_predefined_data]. *)
Theorem round_calls_in_order (c : MCPClient) (n : Z)
    (stats : gmap pystr MethodStats) (s : St W) :
  exists reqs,
    sent (snd (round c n stats s)) = sent s ++ reqs
    /\ map tool_of reqs
       = map Some (tools_called s (snd (round c n stats s)))
    /\ round_shape (tools_called s (snd (round c n stats s)))
    /\ (1 <= length reqs <= 6)%nat.
Proof.
  destruct (round_spec c n stats s) as (reqs & tools & Hs & Ht & HT & _).
  rewrite (tools_called_spec _ _ reqs tools Hs Ht).
  exists reqs. split; [exact Hs|]. split; [exact Ht|]. split; [exact HT|].
  apply round_shape_facts in HT as (Hlen & _).
  assert (Hreqs : length reqs = length tools)
    by (rewrite <- (length_map tool_of reqs), Ht; apply length_map).
  lia.
Qed.

(** X12. A round that completes has counted every call it made: the
    counters it returns are the ones it was given after one record for
    each tool called, in the order of the calls, so that [total] of each
    method has grown by the number of calls of that method and no counter
    of a method that was not called has changed. *)
Theorem round_counts_every_call (c : MCPClient) (n : Z)
    (stats stats' : gmap pystr MethodStats) (s : St W) :
  fst (round c n stats s) = Ok stats' ->
  recorded stats (tools_called s (snd (round c n stats s))) stats'
  /\ forall m st, stats !! m = Some st ->
       exists st',
         stats' !! m = Some st'
         /\ total st'
            = total st
              + Z.of_nat
                  (tool_count m (tools_called s (snd (round c n stats s))))
         /\ (tool_count m (tools_called s (snd (round c n stats s))) = 0%nat ->
             st' = st).
Proof.
  intros Hok.
  destruct (round_spec c n stats s) as (reqs & tools & Hs & Ht & _ & HQ).
  rewrite (tools_called_spec _ _ reqs tools Hs Ht).
  pose proof (HQ stats' Hok) as Hrec. split; [exact Hrec|].
  intros m st Hst.
  destruct (recorded_counts tools stats stats' m st Hrec Hst)
    as (st' & Hst' & Htot & Hsu & He & Hk & Hsum).
  exists st'. split; [exact Hst'|]. split; [exact Htot|].
  intros Hnone. rewrite Hnone in *. apply stats_eq; lia.
Qed.

(** X13. The table of a run that completes agrees with the calls that
    were made: it has one row per method, in the order of [methods]; the
    total of each row is the number of requests posted for that tool; the
    total of the last row is the number of all tool calls of the run; the
    row of [list_metadata_objects] counts one call per round; and in every
    row the total is the sum of the three outcomes, none of them negative,
    and the rate lies between 0 and 100. *)
Theorem run_summary_counts_calls (base : pystr) (token : option pystr)
    (n : nat) (s : St W) (rows : list Row) (last : Row) :
  fst (run_tests base token n s) = Ok (Some (rows, last)) ->
  map row_method rows = methods
  /\ map row_total rows
     = map (fun m =>
              Z.of_nat
                (tool_count m
                   (tools_called s (snd (run_tests base token n s)))))
           methods
  /\ row_total last
     = Z.of_nat (length (tools_called s (snd (run_tests base token n s))))
  /\ tool_count (u "list_metadata_objects")
       (tools_called s (snd (run_tests base token n s))) = n
  /\ Forall sound_row (last :: rows).
Proof.
  intros Hrun.
  destruct (run_tests_trace base token n s)
    as (req & reqs & tools & _ & _ & _ & _ & -> & _ & Hdone).
  destruct (Hdone _ Hrun) as (Hshape & stats' & Hrec & Hsum).
  apply rounds_of_facts in Hshape as (_ & Hlist & Hknown).
  destruct (counted_from_zero tools stats' (u "list_metadata_objects") Hrec)
    as (a & Ha & Ta & Ba); [vm_compute; tauto|].
  destruct (counted_from_zero tools stats' (u "get_metadata_structure") Hrec)
    as (b & Hb & Tb & Bb); [vm_compute; tauto|].
  destruct (counted_from_zero tools stats' (u "list_predefined_data") Hrec)
    as (c & Hc & Tc & Bc); [vm_compute; tauto|].
  destruct (counted_from_zero tools stats' (u "get_predefined_data") Hrec)
    as (d & Hd & Td & Bd); [vm_compute; tauto|].
  rewrite (summarize_counted stats' a b c d Ha Hb Hc Hd) in Hsum
    by (apply balanced_counted; assumption).
  injection Hsum as <- <-.
  split; [reflexivity|]. split; [|split; [|split]].
  - unfold methods. cbn [map row_of row_total].
    rewrite Ta, Tb, Tc, Td. reflexivity.
  - cbn [row_of row_total total]. rewrite (count_methods tools Hknown). lia.
  - exact Hlist.
  - destruct Ba as (Ba1 & Ba2 & Ba3 & Ba4), Bb as (Bb1 & Bb2 & Bb3 & Bb4),
      Bc as (Bc1 & Bc2 & Bc3 & Bc4), Bd as (Bd1 & Bd2 & Bd3 & Bd4).
    repeat constructor; apply sound_row_of; unfold balanced;
      cbn [total success errors skipped]; repeat split; lia.
Qed.

(** X14. Whatever the service answers, and whether the run completes,
    stops at the handshake or raises, a run of [n] rounds posts the
    handshake first and after it nothing but calls of the four tools of
    [methods], at most six for each round; it never asks for the list of
    tools. *)
Theorem run_calls_only_the_four_tools (base : pystr) (token : option pystr)
    (n : nat) (s : St W) :
  exists req reqs,
    sent (snd (run_tests base token n s)) = sent s ++ req :: reqs
    /\ url req = base ++ u "/mcp/initialize"
    /\ map tool_of reqs
       = map Some (tools_called s (snd (run_tests base token n s)))
    /\ Forall (fun t => In t methods)
         (tools_called s (snd (run_tests base token n s)))
    /\ (length reqs <= 6 * n)%nat.
Proof.
  destruct (run_tests_trace base token n s)
    as (req & reqs & tools & Hs & Hurl & _ & Ht & -> & (k & Hk & Hshape) & _).
  exists req, reqs. split; [exact Hs|]. split; [exact Hurl|].
  split; [exact Ht|].
  apply rounds_of_facts in Hshape as (Hlen & _ & Hknown).
  split; [exact Hknown|].
  assert (Hreqs : length reqs = length tools)
    by (rewrite <- (length_map tool_of reqs), Ht; apply length_map).
  lia.
Qed.
End Campaign.

Section Logging.
Context {py : PyLib} {W : Type} {svc : World W}.
Import GrokPlus2.

Lemma silent_ret {A} (a : A) : silent (ret (W := W) a).
Proof. intros s. split; reflexivity. Qed.

Lemma silent_lift {A} (r : res A) : silent (lift (W := W) r).
Proof. intros s. split; reflexivity. Qed.

Lemma silent_draw {A} (f : W -> A * W) : silent (draw f).
Proof. intros s. unfold draw. destruct (f (world s)). split; reflexivity. Qed.

Lemma silent_choice {A} (xs : list A) : silent (choice xs).
Proof.
  intros s. unfold choice. destruct xs; [split; reflexivity|].
  destruct (randbelow _ (world s)). split; reflexivity.
Qed.

Lemma silent_randint (lo hi : Z) : silent (randint lo hi).
Proof.
  intros s. unfold randint. destruct (randbelow _ (world s)).
  split; reflexivity.
Qed.

Lemma silent_sample {A} (xs : list A) (k : nat) : silent (sample xs k).
Proof.
  intros s. unfold sample. destruct (length xs <? k)%nat;
    [split; reflexivity|].
  destruct (sample_order _ (world s)). split; reflexivity.
Qed.

Lemma logs_silent {A} (n : Z) (m : IO W A) : silent m -> logs_calls n m.
Proof.
  intros Hm s a _. destruct (Hm s) as [Hs Hl]. exists [], [].
  rewrite Hs, Hl, !app_nil_r. repeat split; constructor.
Qed.

Lemma logs_bind {A B} (n : Z) (m : IO W A) (k : A -> IO W B) :
  logs_calls n m -> (forall a, logs_calls n (k a)) ->
  logs_calls n (bind m k).
Proof.
  intros Hm Hk s b. unfold bind. specialize (Hm s).
  destruct (m s) as [[a|e] s1]; cbn [fst snd] in *; [|discriminate].
  intros Hb.
  destruct (Hm a eq_refl) as (reqs1 & entries1 & Hs1 & Hl1 & Ht1 & Hn1).
  destruct (Hk a s1 b Hb) as (reqs2 & entries2 & Hs2 & Hl2 & Ht2 & Hn2).
  exists (reqs1 ++ reqs2), (entries1 ++ entries2).
  rewrite Hs2, Hs1, Hl2, Hl1, <- !app_assoc, !map_app, Ht1, Ht2.
  repeat split. apply Forall_app. split; assumption.
Qed.

Lemma logs_call {A} (n : Z) (c : MCPClient) (name : pystr)
    (arguments params : json) (k : json -> unit -> IO W A) :
  (forall r x, logs_calls n (k r x)) ->
  logs_calls n
    (bind (bind (call_tool c name arguments) (fun r => lift (payload_of r)))
       (fun r => bind (log_test n name params r) (k r))).
Proof.
  intros Hk s a.
  destruct (wrapper_run c name arguments s) as (req & s1 & Hw & Hs & Hl & Ht).
  destruct (res_bind _ payload_of) as [r|e];
    [rewrite (bind_ok _ _ _ _ _ Hw)
    |rewrite (bind_raise _ _ _ _ _ Hw); discriminate].
  unfold bind, log_test, write_log. cbn [fst snd].
  intros Ha.
  destruct (Hk r tt _ a Ha) as (reqs & entries & Hs2 & Hl2 & Ht2 & Hn2).
  cbn [sent logged] in Hs2, Hl2.
  exists (req :: reqs),
    ({| log_number := n; log_api := name; log_params := params;
        log_result := r |} :: entries).
  rewrite Hs2, Hl2, Hs, Hl, <- !app_assoc. cbn [app map log_api].
  rewrite Ht, Ht2. repeat split. constructor; [reflexivity | exact Hn2].
Qed.

Ltac logs_step :=
  first
    [ apply logs_silent;
      first [ apply silent_ret | apply silent_lift | apply silent_draw
            | apply silent_choice | apply silent_randint
            | apply silent_sample ]
    | apply logs_call; intros ? ?
    | apply logs_bind; [|intros ?] ].

Lemma logs_predefined_detail (c : MCPClient) (n : Z) (meta_type : pystr)
    (object_name : json) (stats : gmap pystr MethodStats) (item : json) :
  logs_calls n (predefined_detail c n meta_type object_name stats item).
Proof.
  unfold predefined_detail, test_get_predefined_data.
  destruct (truthy (name_of item)); repeat logs_step.
Qed.

Lemma logs_for_each (c : MCPClient) (n : Z) (meta_type : pystr)
    (object_name : json) (items : list json)
    (stats : gmap pystr MethodStats) :
  logs_calls n
    (for_each (predefined_detail c n meta_type object_name) stats items).
Proof.
  revert stats. induction items as [|item items IH]; intros stats;
    cbn [for_each]; [repeat logs_step|].
  apply logs_bind; [apply logs_predefined_detail | intros stats1; apply IH].
Qed.

Ltac logs_steps :=
  repeat first
    [ apply logs_for_each
    | logs_step
    | match goal with
      | |- logs_calls _ (match ?v with _ => _ end) => destruct v
      end ].

Lemma logs_after_listing (c : MCPClient) (n : Z) (meta_type : pystr)
    (max_items : Z) (list_result : json) (stats : gmap pystr MethodStats) :
  logs_calls n (after_listing c n meta_type max_items list_result stats).
Proof.
  unfold after_listing, object_steps, test_get_metadata_structure,
    predefined_steps, test_list_predefined_data, after_predefined_listing.
  logs_steps.
Qed.

Lemma logs_round (c : MCPClient) (n : Z) (stats : gmap pystr MethodStats) :
  logs_calls n (round c n stats).
Proof.
  unfold round, list_step, test_list_metadata_objects.
  apply logs_bind; [logs_steps | intros listing; apply logs_after_listing].
Qed.

(** X15. A round that completes has written one record for each call
    it made: the records added to the log name the tools of the requests
    posted, in the order of the calls, and all carry the number of the
    round. *)
Theorem round_logs_every_call (c : MCPClient) (n : Z)
    (stats stats' : gmap pystr MethodStats) (s : St W) :
  fst (round c n stats s) = Ok stats' ->
  map log_api (logged_since s (snd (round c n stats s)))
  = tools_called s (snd (round c n stats s))
  /\ Forall (fun e => log_number e = n)
       (logged_since s (snd (round c n stats s))).
Proof.
  intros Hok.
  destruct (logs_round c n stats s stats' Hok)
    as (reqs & entries & Hs & Hl & Ht & Hn).
  unfold logged_since, tools_called. rewrite Hs, Hl, !drop_app_length.
  split; [|exact Hn]. symmetry. apply omap_map_some.
  rewrite Ht, map_map. reflexivity.
Qed.
End Logging.

(** ** The properties on a scripted run *)

Lemma text_listing_names_witness :
  exists objects,
    GrokPlus2.parse_listing (JObj [(u "result", JStr Script.listing)])
    = Ok objects
    /\ (length objects <= 1)%nat.
Proof.
  destruct (text_listing_names (py := Script.listing_lib)
              [(u "result", JStr Script.listing)] Script.listing)
    as (objects & Hparse & _ & Hlen); [vm_compute; reflexivity|].
  exists objects. split; [exact Hparse | exact Hlen].
Defined.

Lemma list_listing_names_witness :
  GrokPlus2.parse_listing
    (JArr (map JStr [u "Справочник.Номенклатура"; []; u "Валюты"]))
  = Ok [named (u "Номенклатура"); named (u "Валюты")].
Proof.
  pose proof (proj1 (list_listing_names
                       [u "Справочник.Номенклатура"; []; u "Валюты"]))
    as Hlist.
  vm_compute in Hlist |- *. exact Hlist.
Defined.

Lemma predefined_name_keeps_quote_witness :
  GrokPlus2.predefined_of_line (u "Имя: 'Основной'")
  = Some (named (u "Основной'")).
Proof.
  pose proof (proj1 (predefined_name_keeps_quote (u "Основной"))) as Hline.
  vm_compute in Hline |- *. exact Hline.
Defined.

Lemma crlf_frame_decodes_witness :
  GrokPlus2.decode_body (py := Script.listing_lib)
    (Script.answer 200
       (sse_frame_crlf (u "message")
          [Script.dumps (Script.tool_reply Script.listing)]) [])
  = inr (Script.tool_reply Script.listing).
Proof.
  destruct (crlf_frame_decodes (py := Script.listing_lib) (u "message")
              [Script.dumps (Script.tool_reply Script.listing)])
    as (_ & Hframe & _).
  - apply no_newline_check. vm_compute. reflexivity.
  - constructor; [|constructor].
    apply no_newline_check. vm_compute. reflexivity.
  - rewrite (Hframe (Script.answer 200 _ []) eq_refl).
    vm_compute. reflexivity.
Defined.

Lemma newer_chain_is_stricter_witness :
  GrokPlus2.classify (py := Script.lib [])
    (JObj [(u "result", JStr (u "Ошибка: error 42"))])
  = Ok GrokPlus2.Error.
Proof.
  destruct (newer_chain_is_stricter (py := Script.lib [])
              [(u "result", JStr (u "Ошибка: error 42"))] GrokPlus2.Error)
    as (Herror & _).
  - right. eexists. vm_compute. reflexivity.
  - vm_compute. reflexivity.
  - exact (Herror eq_refl).
Defined.

Lemma failed_call_is_an_error_witness :
  fst (bind (GrokPlus2.call_tool (py := Scenario.lib) (svc := Script.service)
               Script.client (u "list_metadata_objects") (JObj []))
         (fun r => lift (GrokPlus2.payload_of (py := Scenario.lib) r))
         (Script.start []))
  = Ok (error_value
          (@str_TextContent Scenario.lib
             (u "Error: " ++ u "All connection attempts failed"))).
Proof.
  destruct (failed_call_is_an_error (py := Scenario.lib)
              (svc := Script.service) Script.client
              (u "list_metadata_objects") (JObj []) (Script.start [])
              (u "All connection attempts failed"))
    as (Hpayload & _).
  - left. reflexivity.
  - exact Hpayload.
Defined.


Lemma session_id_is_echoed_witness :
  exists c' s',
    GrokPlus2.initialize_session (py := Scenario.lib) (svc := Script.service)
      Script.client (Script.start Scenario.run_script)
    = (Ok (true, c'), s')
    /\ session_id c' = Some (u "4f2a9c").
Proof.
  eexists _, _. split; [vm_compute; reflexivity|].
  eapply (session_id_is_echoed (py := Scenario.lib) (svc := Script.service)
            Script.client _ (Script.start Scenario.run_script) _
            (Script.answer 200 (Script.dumps Script.handshake_response)
               [(u "mcp-session-id", u "4f2a9c")])
            (u "4f2a9c"));
    try (vm_compute; reflexivity).
  vm_compute. discriminate.
Defined.

Lemma failed_handshake_ends_run_witness :
  tools_called (Script.start [])
    (snd (GrokPlus2.run_tests (py := Scenario.lib) (svc := Script.service)
            (u "http://127.0.0.1:8000") None 200 (Script.start [])))
  = [].
Proof.
  destruct (failed_handshake_ends_run (py := Scenario.lib)
              (svc := Script.service) (u "http://127.0.0.1:8000") None 200
              (Script.start [])
              (GrokPlus2.new_client (u "http://127.0.0.1:8000") None))
    as (_ & Hnone & _).
  - vm_compute. reflexivity.
  - exact Hnone.
Defined.

Lemma round_counts_every_call_witness :
  exists stats',
    fst (GrokPlus2.round (py := Scenario.lib) (svc := Script.service)
           Script.client 1 GrokPlus2.initial_stats
           (Script.start Scenario.round_script))
    = Ok stats'
    /\ recorded GrokPlus2.initial_stats
         [u "list_metadata_objects"; u "get_metadata_structure";
          u "list_predefined_data"]
         stats'.
Proof.
  assert (Hok : is_ok
                  (fst (GrokPlus2.round (py := Scenario.lib)
                          (svc := Script.service) Script.client 1
                          GrokPlus2.initial_stats
                          (Script.start Scenario.round_script)))
                = true)
    by (vm_compute; reflexivity).
  destruct (fst (GrokPlus2.round (py := Scenario.lib) (svc := Script.service)
                   Script.client 1 GrokPlus2.initial_stats
                   (Script.start Scenario.round_script)))
    as [stats'|e] eqn:Hrun; [|discriminate Hok].
  exists stats'. split; [reflexivity|].
  destruct (round_counts_every_call (py := Scenario.lib)
              (svc := Script.service) Script.client 1
              GrokPlus2.initial_stats stats'
              (Script.start Scenario.round_script) Hrun)
    as (Hrec & _).
  exact Hrec.
Defined.

Lemma run_summary_counts_calls_witness :
  exists rows last,
    fst (GrokPlus2.run_tests (py := Scenario.lib) (svc := Script.service)
           (u "http://127.0.0.1:8000") None 2
           (Script.start Scenario.run_script))
    = Ok (Some (rows, last))
    /\ map GrokPlus2.row_total rows = [2; 1; 1; 0]
    /\ GrokPlus2.row_total last = 4.
Proof.
  destruct (fst (GrokPlus2.run_tests (py := Scenario.lib)
                   (svc := Script.service)
                   (u "http://127.0.0.1:8000") None 2
                   (Script.start Scenario.run_script)))
    as [[[rows last]|]|e] eqn:Hrun;
    try (vm_compute in Hrun; discriminate Hrun).
  exists rows, last. split; [reflexivity|].
  destruct (run_summary_counts_calls (py := Scenario.lib)
              (svc := Script.service) (u "http://127.0.0.1:8000") None 2
              (Script.start Scenario.run_script) rows last Hrun)
    as (_ & Htotals & Hlast & _).
  rewrite Htotals, Hlast. split; vm_compute; reflexivity.
Defined.

Lemma round_logs_every_call_witness :
  map log_api
    (logged_since (Script.start Scenario.round_script)
       (snd (GrokPlus2.round (py := Scenario.lib) (svc := Script.service)
               Script.client 1 GrokPlus2.initial_stats
               (Script.start Scenario.round_script))))
  = [u "list_metadata_objects"; u "get_metadata_structure";
     u "list_predefined_data"].
Proof.
  assert (Hok : is_ok
                  (fst (GrokPlus2.round (py := Scenario.lib)
                          (svc := Script.service) Script.client 1
                          GrokPlus2.initial_stats
                          (Script.start Scenario.round_script)))
                = true)
    by (vm_compute; reflexivity).
  destruct (fst (GrokPlus2.round (py := Scenario.lib) (svc := Script.service)
                   Script.client 1 GrokPlus2.initial_stats
                   (Script.start Scenario.round_script)))
    as [stats'|e] eqn:Hrun; [|discriminate Hok].
  destruct (round_logs_every_call (py := Scenario.lib)
              (svc := Script.service) Script.client 1
              GrokPlus2.initial_stats stats'
              (Script.start Scenario.round_script) Hrun)
    as (Hlog & _).
  rewrite Hlog. vm_compute. reflexivity.
Defined.

(** ** The wrappers of testMCP.py *)

Section SseWrappers.
Context {py : PyLib} {lib : SseHarness.SseLib} {W : Type} {svc : World W}.
Import SseHarness.

Lemma request_url_mcp (c : Client) :
  request_url c (u "/mcp/") = base_url c ++ u "/mcp/".
Proof.
  unfold request_url.
  replace (str_eqb (u "/mcp/") (u "/sse/messages/")) with false
    by (vm_compute; reflexivity).
  apply app_nil_r.
Qed.

Lemma guarded_call_run (c : Client) (name : pystr) (arguments : json)
    (s : St W) :
  let req := {| url := base_url c ++ u "/mcp/";
                req_headers := request_headers c;
                body := call_payload c name arguments |} in
  let ow := http_post req (world s) in
  guarded_call (Some c) name arguments s
  = (Ok match handle_outcome req (fst ow) with
        | inl f => error_value (message f)
        | inr data =>
            match Sse.tool_result data with
            | Ok r =>
                match payload_of r with
                | Ok v => v
                | Raise e => error_value (str_exn e)
                end
            | Raise e => error_value (str_exn e)
            end
        end,
     {| world := snd ow; sent := sent s ++ [req]; logged := logged s |}).
Proof.
  intros req ow. unfold guarded_call, call_tool, _make_request, bind, post, ret.
  rewrite request_url_mcp. fold req. fold ow.
  destruct ow as [o w]. cbn [fst snd].
  destruct (handle_outcome req o) as [f|data]; [reflexivity|].
  destruct (Sse.tool_result data); reflexivity.
Qed.

Lemma error_answer (cause : pystr) :
  Sse.tool_result (error_value cause)
  = Ok {| content := [TextContent (u "Error: " ++ cause)]; isError := true |}.
Proof.
  unfold Sse.tool_result, error_value. cbn [py_in].
  change (dict_has (u "error") [(u "error", JStr cause)]) with true.
  cbn [res_bind py_getitem].
  change (dict_get (u "error") [(u "error", JStr cause)])
    with (Some (JStr cause)).
  reflexivity.
Qed.

(** X16. A wrapper of [testMCP.py] never raises and, when a client is
    set, posts exactly one request: to [<base_url>/mcp/], with no session id
    in the address (only [/sse/messages/] gets one), naming the tool in its
    params and carrying the client's session id in its body.
    [_make_request] catches [httpx.HTTPError] only.  A post that raises one
    gives [{"error": "Error: <cause>"}] and a status outside 200-299 gives
    [{"error": "Error: <message of the status error>"}], both through the
    error result of [call_tool].  A post that raises an exception of another
    class, and a good answer whose body [response.json()] cannot decode
    (not JSON, or not UTF-8), make [_make_request] raise: the exception
    crosses [call_tool] and the wrapper turns it into [{"error": <message>}],
    without the ["Error: "] in front.  Without a client nothing is posted. *)
Theorem sse_wrapper_failures (c : Client) (name : pystr) (arguments : json)
    (s : St W) :
  let req := {| url := base_url c ++ u "/mcp/";
                req_headers := request_headers c;
                body := call_payload c name arguments |} in
  let o := fst (http_post req (world s)) in
  let run := guarded_call (Some c) name arguments s in
  let request :=
    _make_request c (u "/mcp/") (call_payload c name arguments) s in
  let escapes cause :=
    fst request = Ok (inl (Thrown cause))
    /\ fst (call_tool c name arguments s) = Ok (inl (Thrown cause))
    /\ fst run = Ok (error_value cause) in
  (exists payload, fst run = Ok payload)
  /\ sent (snd run) = sent s ++ [req]
  /\ tool_of req = Some name
  /\ dict_get (u "session_id")
       match body req with JObj items => items | _ => [] end
     = Some (JStr (session_id c))
  /\ request_url c (u "/sse/messages/")
     = base_url c ++ u "/sse/messages/?session_id=" ++ session_id c
  /\ (forall cause, o = Failed cause ->
        fst request = Ok (inr (error_value cause))
        /\ fst run = Ok (error_value (u "Error: " ++ cause)))
  /\ (forall cause, o = Errored cause -> escapes cause)
  /\ (forall r, o = Received r -> is_success r = false ->
        fst request = Ok (inr (error_value (str_HTTPStatusError req r)))
        /\ fst run
           = Ok (error_value (u "Error: " ++ str_HTTPStatusError req r)))
  /\ (forall r cause, o = Received r -> is_success r = true ->
        response_json r = inl (JSONDecodeError cause)
        \/ response_json r = inl (UnicodeDecodeError cause) ->
        escapes cause)
  /\ guarded_call None name arguments s
     = (Ok (error_value (u "MCP client not initialized")), s).
Proof.
  intros req o run request escapes.
  assert (Hrun := guarded_call_run c name arguments s).
  cbv zeta in Hrun. fold req in Hrun. fold o in Hrun. fold run in Hrun.
  assert (Hrequest : fst request = Ok (handle_outcome req o)).
  { unfold request, _make_request, bind, post, ret.
    rewrite request_url_mcp. fold req. unfold o.
    destruct (http_post req (world s)); reflexivity. }
  assert (Hcall : fst (call_tool c name arguments s)
                  = Ok match handle_outcome req o with
                       | inl f => inl f
                       | inr data =>
                           match Sse.tool_result data with
                           | Ok r => inr r
                           | Raise e => inl (Raised e)
                           end
                       end).
  { unfold call_tool, bind, ret. fold request.
    destruct request as [[response|e] s'] eqn:Erequest; cbn [fst] in Hrequest;
      [|discriminate Hrequest].
    injection Hrequest as ->. reflexivity. }
  unfold escapes. rewrite Hrun, Hrequest, Hcall. cbn [fst snd sent].
  split; [eauto|]. split; [reflexivity|].
  split; [vm_compute; reflexivity|]. split; [vm_compute; reflexivity|].
  split.
  { unfold request_url. rewrite str_eqb_refl, <- app_assoc. reflexivity. }
  split; [|split; [|split; [|split]]].
  - intros cause ->. cbn [handle_outcome]. rewrite error_answer.
    split; reflexivity.
  - intros cause ->. cbn [handle_outcome message]. repeat split.
  - intros r -> Hr. cbn [handle_outcome]. rewrite Hr, error_answer.
    split; reflexivity.
  - intros r cause -> Hr [Hdec|Hdec]; cbn [handle_outcome];
      rewrite Hr, Hdec; cbn [message]; repeat split.
  - reflexivity.
Qed.

(** X17. What a wrapper of [testMCP.py] makes of a good answer that
    decodes to a dict without ["error"], when [call_tool] accepts it: it
    looks at the payload's ["isError"] flag and at the first item kept of
    the content array (text and image items are kept).  With the flag set
    it returns [{"error": <first text>}], or [{"error": "Unknown error"}]
    when nothing is kept; without it, the first text decoded as JSON, or
    [{"result": <first text>}] when that fails, the text being ["{}"] when
    nothing is kept.  A first item that is an image has no text: the
    [AttributeError] is caught and its message returned as an error. *)
Theorem sse_wrapper_reads_flag (c : Client) (name : pystr)
    (arguments : json) (s : St W) (r : Response)
    (items : list (pystr * json)) (result : CallToolResult) :
  let req := {| url := base_url c ++ u "/mcp/";
                req_headers := request_headers c;
                body := call_payload c name arguments |} in
  fst (http_post req (world s)) = Received r ->
  is_success r = true ->
  response_json r = inr (JObj items) ->
  dict_has (u "error") items = false ->
  Sse.tool_result (JObj items) = Ok result ->
  let kept := omap sse_item (content_array (JObj items)) in
  let decoded t := match json_loads t with
                   | inr v => v
                   | inl _ => JObj [(u "result", JStr t)]
                   end in
  Sse.as_bool (payload_isError (JObj items)) = Ok (isError result)
  /\ fst (guarded_call (Some c) name arguments s)
     = Ok match kept, isError result with
          | [], true => error_value (u "Unknown error")
          | [], false => decoded (u "{}")
          | TextContent t :: _, true => error_value t
          | TextContent t :: _, false => decoded t
          | ImageContent _ _ :: _, _ => error_value (str_exn AttributeError)
          end.
Proof.
  intros req Hpost Hok Hdec Herr Hres kept decoded.
  destruct (sse_tool_result_success items result Herr Hres) as [Hkept Hflag].
  split; [exact Hflag|].
  assert (Hrun := guarded_call_run c name arguments s).
  cbv zeta in Hrun. fold req in Hrun. rewrite Hrun, Hpost. cbn [fst].
  cbn [handle_outcome]. rewrite Hok, Hdec, Hres.
  unfold payload_of. fold kept in Hkept. rewrite Hkept. clear Hdec Hrun.
  destruct kept as [|[t|d m] rest], (isError result);
    cbn [item_text res_bind]; try reflexivity;
    unfold decoded; destruct (json_loads _); reflexivity.
Qed.
End SseWrappers.

(** ** The list of tools *)

Section Tools.
Context {py : PyLib} {W : Type} {svc : World W}.
Import GrokPlus2 ToolList.

Lemma tool_of_data_name (t : json) (tool : Tool) :
  tool_of_data t = Ok tool ->
  exists fields,
    t = JObj fields
    /\ dict_get (u "name") fields = Some (JStr (tool_name tool)).
Proof.
  unfold tool_of_data. destruct t as [| | | | |fields];
    cbn [py_getitem res_bind]; try discriminate.
  destruct (dict_get (u "name") fields) as [name|] eqn:Ename;
    cbn [res_bind]; [|discriminate].
  cbn [py_get res_bind].
  destruct name as [| | |n| |]; cbn [as_str res_bind]; try discriminate.
  destruct (as_optional_str _); cbn [res_bind]; [|discriminate].
  destruct (as_dict _); cbn [res_bind]; [|discriminate].
  intros [= <-]. exists fields. split; [reflexivity | exact Ename].
Qed.

Lemma tools_in_order (entries : list json) (tools : list Tool) :
  mapM_res tool_of_data entries = Ok tools ->
  Forall2 (fun t tool =>
             exists fields,
               t = JObj fields
               /\ dict_get (u "name") fields = Some (JStr (tool_name tool)))
          entries tools.
Proof.
  revert tools. induction entries as [|t entries IH]; intros tools.
  - intros [= <-]. constructor.
  - cbn [mapM_res]. destruct (tool_of_data t) as [tool|] eqn:Et;
      cbn [res_bind]; [|discriminate].
    destruct (mapM_res tool_of_data entries) as [rest|]; cbn [res_bind];
      [|discriminate].
    intros [= <-]. constructor; [exact (tool_of_data_name t tool Et)|].
    apply IH. reflexivity.
Qed.

Lemma nameless_entry_raises (good : list json) (tools : list Tool)
    (fields : list (pystr * json)) (rest : list json) :
  mapM_res tool_of_data good = Ok tools ->
  dict_get (u "name") fields = None ->
  mapM_res tool_of_data (good ++ JObj fields :: rest) = Raise KeyError.
Proof.
  revert tools. induction good as [|t good IH]; intros tools Hgood Hname.
  - cbn [app mapM_res]. unfold tool_of_data. cbn [py_getitem].
    rewrite Hname. reflexivity.
  - cbn [app mapM_res] in *.
    destruct (tool_of_data t) as [tool|]; cbn [res_bind] in *;
      [|discriminate].
    destruct (mapM_res tool_of_data good) as [more|] eqn:Emore;
      cbn [res_bind] in *; [|discriminate].
    rewrite (IH more eq_refl Hname). reflexivity.
Qed.

(** X18. [list_tools] posts one [tools/list] request with empty params.
    A post that raises (an [httpx.HTTPError] or another exception), a
    status outside 200-299 and a good answer that cannot be decoded (not
    JSON, or not UTF-8) all give the empty list, without an exception.  When
    the answer is a dict without ["error"] and [list_tools] returns, it
    returns one tool per entry of [result.tools], in order, each entry being
    a dict whose ["name"] is the name of the tool; an entry without
    ["name"], after entries that are accepted, raises [KeyError]. *)
Theorem list_tools_outcomes (c : MCPClient) (s : St W) :
  let req := build_request c (fst (uuid4 (world s))) (u "tools/list")
               (JObj []) in
  let o := fst (http_post req (snd (uuid4 (world s)))) in
  sent (snd (list_tools c s)) = sent s ++ [req]
  /\ ((exists cause, o = Failed cause \/ o = Errored cause)
      \/ (exists r, o = Received r /\ is_success r = false)
      \/ (exists r failure, o = Received r
            /\ decode_body r = inl failure) ->
      fst (list_tools c s) = Ok [])
  /\ (forall r items entries,
        o = Received r -> is_success r = true ->
        decode_body r = inr (JObj items) ->
        dict_has (u "error") items = false ->
        py_iter (dict_get_default (u "tools") (JArr [])
                   match dict_get_default (u "result") (JObj []) items with
                   | JObj result_data => result_data
                   | _ => []
                   end)
        = Ok entries ->
        (forall tools,
           fst (list_tools c s) = Ok tools ->
           Forall2 (fun t tool =>
                      exists fields,
                        t = JObj fields
                        /\ dict_get (u "name") fields
                           = Some (JStr (tool_name tool)))
                   entries tools)
        /\ (forall good tools fields rest,
              entries = good ++ JObj fields :: rest ->
              mapM_res tool_of_data good = Ok tools ->
              dict_get (u "name") fields = None ->
              fst (list_tools c s) = Raise KeyError)).
Proof.
  intros req o. unfold list_tools, bind. rewrite make_request_run.
  fold req. fold o. cbn [fst snd sent lift].
  split; [reflexivity|]. split.
  - assert (Herr : forall m, tools_of_response (error_value m) = Ok []).
    { intros m. unfold tools_of_response, error_value. cbn [py_in].
      change (dict_has (u "error") [(u "error", JStr m)]) with true.
      cbn [res_bind py_getitem].
      change (dict_get (u "error") [(u "error", JStr m)])
        with (Some (JStr m)).
      reflexivity. }
    intros [(cause & [-> | ->])|[(r & -> & Hr)|(r & failure & -> & Hdec)]];
      cbn [handle_outcome].
    + apply Herr.
    + apply Herr.
    + rewrite Hr. apply Herr.
    + destruct (is_success r); [rewrite Hdec|]; [|apply Herr].
      destruct failure; apply Herr.
  - intros r items entries -> Hr Hdec Herr Hiter.
    cbn [handle_outcome]. rewrite Hr, Hdec.
    unfold tools_of_response. cbn [py_in]. rewrite Herr.
    cbn [res_bind py_get].
    destruct (dict_get_default (u "result") (JObj []) items)
      as [| | | | |result_data]; cbn [py_get res_bind];
      try (split; [intros tools Htools; discriminate Htools|];
           intros good tools fields rest ->; cbn in Hiter;
           injection Hiter as Hiter; destruct good; discriminate Hiter).
    rewrite Hiter. cbn [res_bind]. split.
    + intros tools Htools. apply tools_in_order, Htools.
    + intros good tools fields rest -> Hgood Hname.
      exact (nameless_entry_raises good tools fields rest Hgood Hname).
Qed.
End Tools.

Lemma sse_wrapper_failures_witness :
  fst (SseHarness.guarded_call (py := Scenario.lib) (lib := SseScenario.lib)
         (svc := Script.service) (Some SseScenario.client)
         (u "list_metadata_objects") (JObj []) (Script.start []))
  = Ok (error_value (u "Error: " ++ u "All connection attempts failed"))
  /\ fst (SseHarness.guarded_call (py := Scenario.lib)
            (lib := SseScenario.lib) (svc := Script.service)
            (Some SseScenario.client) (u "list_metadata_objects") (JObj [])
            (Script.start [Errored (u "Invalid port")]))
     = Ok (error_value (u "Invalid port")).
Proof.
  split.
  - destruct (sse_wrapper_failures (py := Scenario.lib)
                (lib := SseScenario.lib) (svc := Script.service)
                SseScenario.client (u "list_metadata_objects") (JObj [])
                (Script.start []))
      as (_ & _ & _ & _ & _ & Hfailed & _).
    exact (proj2 (Hfailed (u "All connection attempts failed") eq_refl)).
  - destruct (sse_wrapper_failures (py := Scenario.lib)
                (lib := SseScenario.lib) (svc := Script.service)
                SseScenario.client (u "list_metadata_objects") (JObj [])
                (Script.start [Errored (u "Invalid port")]))
      as (_ & _ & _ & _ & _ & _ & Hescapes & _).
    exact (proj2 (proj2 (Hescapes (u "Invalid port") eq_refl))).
Defined.

Lemma sse_wrapper_reads_flag_witness :
  fst (SseHarness.guarded_call
         (py := Script.lib [Script.failed_tool_response])
         (lib := SseScenario.lib) (svc := Script.service)
         (Some SseScenario.client) (u "get_metadata_structure") (JObj [])
         (Script.start
            [Script.reply 200
               (Script.dumps Script.failed_tool_response) []]))
  = Ok (error_value (u "boom")).
Proof.
  destruct (sse_wrapper_reads_flag
              (py := Script.lib [Script.failed_tool_response])
              (lib := SseScenario.lib) (svc := Script.service)
              SseScenario.client (u "get_metadata_structure") (JObj [])
              (Script.start
                 [Script.reply 200
                    (Script.dumps Script.failed_tool_response) []])
              (Script.answer 200 (Script.dumps Script.failed_tool_response)
               [])
              match Script.failed_tool_response with
              | JObj items => items
              | _ => []
              end
              {| content := [TextContent (u "boom")]; isError := true |})
    as (_ & Hpayload); [vm_compute; reflexivity .. |].
  etransitivity; [exact Hpayload | vm_compute; reflexivity].
Defined.

Lemma list_tools_outcomes_witness :
  fst (ToolList.list_tools (py := Scenario.lib) (svc := Script.service)
         Script.client (Script.start []))
  = Ok [].
Proof.
  destruct (list_tools_outcomes (py := Scenario.lib) (svc := Script.service)
              Script.client (Script.start []))
    as (_ & Hfailed & _).
  apply Hfailed. left. eexists. left. reflexivity.
Defined.
